(** * Mindful-AI backend: a shallow embedding of its services and middleware

    The backend is a set of asynchronous TypeScript services in front of a
    relational store, a vector store, an identity provider and a generative
    model.  Strings are JavaScript strings (sequences of UTF-16 code units),
    asynchronous methods are computations in a state-and-exception monad over
    the relational store, and every remote collaborator is an oracle of the
    [Remote] record: what it answers is not decided by this code base. *)

From Stdlib Require Import NArith ZArith String Ascii List Lia Permutation Sorted Bool.
From stdpp Require Import base list gmap fin_maps.

Local Open Scope N_scope.

(** ** JavaScript strings *)

Module JS.

(** A string is the list of its UTF-16 code units; [length] is [.length]. *)
Abbreviation jsstring := (list N).

(** A source literal. All literals of the code base are ASCII. *)
Definition lit (s : string) : jsstring :=
  map N_of_ascii (list_ascii_of_string s).
#[global] Arguments lit s : simpl never.

Definition code_unit_eqb (a b : N) : bool := N.eqb a b.

(** Code-unit order, as [<=] compares two strings. *)
Fixpoint leb (s t : jsstring) : bool :=
  match s, t with
  | [], _ => true
  | _ :: _, [] => false
  | a :: s', b :: t' => (a <? b) || (code_unit_eqb a b && leb s' t')
  end.

(** [!s] for a value that is a string, [null] or [undefined]. *)
Definition falsy (v : option jsstring) : bool :=
  match v with
  | None => true
  | Some [] => true
  | Some (_ :: _) => false
  end.

Definition truthy (v : option jsstring) : bool := negb (falsy v).

(** [v || d] on such a value. *)
Definition or_else (v : option jsstring) (d : jsstring) : jsstring :=
  match v with
  | Some (c :: s) => c :: s
  | _ => d
  end.

(** ECMAScript WhiteSpace and LineTerminator code points, the ones
    [String.prototype.trim] strips. *)
Definition white_space : list N :=
  [9; 10; 11; 12; 13; 32; 160; 5760; 8232; 8233; 8239; 8287; 12288; 65279].

Definition is_white_space (c : N) : bool :=
  existsb (N.eqb c) white_space || ((8192 <=? c) && (c <=? 8202)).

Fixpoint trimStart (s : jsstring) : jsstring :=
  match s with
  | [] => []
  | c :: s' => if is_white_space c then trimStart s' else s
  end.

Definition trimEnd (s : jsstring) : jsstring := rev (trimStart (rev s)).

Definition trim (s : jsstring) : jsstring := trimEnd (trimStart s).

(** [s.substring(i, j)] for [0 <= i <= j]; both ends clamp to the length. *)
Definition substring (i j : nat) (s : jsstring) : jsstring :=
  take (j - i)%nat (drop i s).

Fixpoint startsWith (s p : jsstring) : bool :=
  match p, s with
  | [], _ => true
  | a :: p', b :: s' => code_unit_eqb a b && startsWith s' p'
  | _ :: _, [] => false
  end.

Fixpoint includes (s sub : jsstring) : bool :=
  startsWith s sub ||
  match s with
  | [] => false
  | _ :: s' => includes s' sub
  end.

(** [s.split(sep)] for a separator of one code unit. *)
Fixpoint split_from (sep : N) (cur : jsstring) (s : jsstring) : list jsstring :=
  match s with
  | [] => [rev cur]
  | c :: s' =>
      if code_unit_eqb c sep then rev cur :: split_from sep [] s'
      else split_from sep (c :: cur) s'
  end.

Definition split (sep : N) (s : jsstring) : list jsstring := split_from sep [] s.

(** [parts.join(sep)] *)
Fixpoint join (sep : jsstring) (parts : list jsstring) : jsstring :=
  match parts with
  | [] => []
  | [p] => p
  | p :: rest => p ++ sep ++ join sep rest
  end.

Definition quote : N := 34.
Definition space : N := 32.

End JS.

Import JS.

(** ** Asynchronous methods: state and exceptions *)

Module Async.

(** How an [await]ed call ends: with a value or with a thrown [Error],
    of which only the message is ever read. *)
Inductive completion (A : Type) : Type :=
| Return (a : A)
| Throw (message : jsstring).
Arguments Return {A} a.
Arguments Throw {A} message.

Definition t (S A : Type) : Type := S -> completion A * S.

Definition ret {S A} (a : A) : t S A := fun s => (Return a, s).

Definition throw {S A} (message : jsstring) : t S A := fun s => (Throw message, s).

Definition bind {S A B} (m : t S A) (k : A -> t S B) : t S B :=
  fun s =>
    match m s with
    | (Return a, s') => k a s'
    | (Throw e, s') => (Throw e, s')
    end.

(** [try { m } catch (error) { h error.message }]: what [m] wrote before it
    threw stays written. *)
Definition try_catch {S A} (m : t S A) (h : jsstring -> t S A) : t S A :=
  fun s =>
    match m s with
    | (Return a, s') => (Return a, s')
    | (Throw e, s') => h e s'
    end.

(** Lifting the answer of a remote collaborator that may throw. *)
Definition await {S A} (c : completion A) : t S A := fun s => (c, s).

End Async.

Import Async.

Notation "x <- m ;; k" := (Async.bind m (fun x => k))
  (at level 100, m at next level, right associativity).
Notation "m ;;; k" := (Async.bind m (fun _ => k))
  (at level 100, right associativity).

(** ** The managed stores and the remote collaborators *)

Module Supabase.

(** The [{ data, error }] pair every query-builder call resolves to; of the
    error only [message] is read. *)
Record response (A : Type) : Type :=
  { data : option A; error : option jsstring }.
Arguments data {A} r.
Arguments error {A} r.

Definition ok {A} (a : A) : response A := {| data := Some a; error := None |}.
Definition failed {A} (message : jsstring) : response A :=
  {| data := None; error := Some message |}.

(** Whether a value is neither [null] nor [undefined]. *)
Definition defined {A} (o : option A) : bool :=
  match o with
  | Some _ => true
  | None => false
  end.

(** [.single()]: the one selected row, an error for none or several. *)
Definition single {A} (rows : list A) : response A :=
  match rows with
  | [row] => ok row
  | _ => failed (lit "JSON object requested, multiple (or no) rows returned")
  end.

(** Instants, as [new Date().toISOString()] writes them: ISO-8601 in UTC,
    whose code-unit order is the order of time. *)
Abbreviation timestamp := (list N).

Record ChatSession : Type :=
  { cs_id : jsstring;
    cs_user_id : jsstring;
    cs_title : jsstring;
    cs_created_at : timestamp;
    cs_last_message_at : timestamp }.

Record ChatMessage : Type :=
  { cm_user_id : jsstring;
    cm_session_id : jsstring;
    cm_user_message : jsstring;
    cm_ai_response : jsstring;
    cm_created_at : timestamp }.

Record DocumentMetadataRow : Type :=
  { dm_id : jsstring;
    dm_title : jsstring;
    dm_description : jsstring;
    dm_category : option jsstring;
    dm_file_name : jsstring;
    dm_chunk_count : N;
    dm_file_type : jsstring }.

(** The [metadata] JSON of a vector-store row, as far as the code reads it. *)
Record ChunkMetadata : Type :=
  { md_title : option jsstring;
    md_category : option jsstring;
    md_documentId : option jsstring }.

(** A row of the vector table, which is also what a similarity search
    yields ([pageContent], [metadata]). *)
Record Document : Type :=
  { pageContent : jsstring;
    metadata : ChunkMetadata }.

Record UserRow : Type :=
  { u_id : jsstring;
    u_email : jsstring;
    u_role : option jsstring }.

(** JSON values of request bodies, token claims and untyped columns. *)
Inductive json : Type :=
| JNull
| JBool (b : bool)
| JNumber (z : Z)
| JString (s : jsstring).

#[global] Instance json_eq_dec : EqDecision json.
Proof. solve_decision. Defined.

(** A user as the identity provider describes it. The code base reads
    [id], [email] and [user_metadata]; [email_confirmed_at] is set by the
    provider once the address is confirmed, and is read nowhere. *)
Record AuthUser : Type :=
  { id : jsstring;
    email : option jsstring;
    user_metadata : option (gmap jsstring json);
    email_confirmed_at : option timestamp }.

(** What [auth.getUser] resolves to: [data.user] and [error]. *)
Record UserResponse : Type :=
  { user : option AuthUser; user_error : option jsstring }.

Record Database : Type :=
  { chat_sessions : list ChatSession;
    chat_messages : list ChatMessage;
    document_metadata : list DocumentMetadataRow;
    documents : list Document;
    users : list UserRow;
    profiles : list (gmap jsstring json) }.

Definition with_chat_sessions (f : list ChatSession -> list ChatSession) (d : Database) : Database :=
  {| chat_sessions := f (chat_sessions d);
     chat_messages := chat_messages d;
     document_metadata := document_metadata d;
     documents := documents d;
     users := users d;
     profiles := profiles d |}.

Definition with_chat_messages (f : list ChatMessage -> list ChatMessage) (d : Database) : Database :=
  {| chat_sessions := chat_sessions d;
     chat_messages := f (chat_messages d);
     document_metadata := document_metadata d;
     documents := documents d;
     users := users d;
     profiles := profiles d |}.

Definition with_document_metadata
    (f : list DocumentMetadataRow -> list DocumentMetadataRow) (d : Database) : Database :=
  {| chat_sessions := chat_sessions d;
     chat_messages := chat_messages d;
     document_metadata := f (document_metadata d);
     documents := documents d;
     users := users d;
     profiles := profiles d |}.

Definition with_documents (f : list Document -> list Document) (d : Database) : Database :=
  {| chat_sessions := chat_sessions d;
     chat_messages := chat_messages d;
     document_metadata := document_metadata d;
     documents := f (documents d);
     users := users d;
     profiles := profiles d |}.

Definition with_profiles
    (f : list (gmap jsstring json) -> list (gmap jsstring json)) (d : Database) : Database :=
  {| chat_sessions := chat_sessions d;
     chat_messages := chat_messages d;
     document_metadata := document_metadata d;
     documents := documents d;
     users := users d;
     profiles := f (profiles d) |}.

(** The query-builder calls of the code base, one per table and verb. *)
Inductive CallSite : Type :=
| select_chat_messages
| insert_chat_messages
| delete_chat_messages
| select_chat_sessions
| update_chat_sessions_last_message_at
| update_chat_sessions_title
| delete_chat_sessions
| delete_documents
| delete_document_metadata
| select_document_metadata
| select_users
| update_profiles.

#[global] Instance CallSite_eq_dec : EqDecision CallSite.
Proof. solve_decision. Defined.

(** [.order(column)], ascending, as a stable insertion sort on a key. *)
Fixpoint insert_by {A} (leb : A -> A -> bool) (x : A) (l : list A) : list A :=
  match l with
  | [] => [x]
  | y :: l' => if leb x y then x :: l else y :: insert_by leb x l'
  end.

Definition order {A} (leb : A -> A -> bool) (l : list A) : list A :=
  foldr (insert_by leb) [] l.

End Supabase.

Import Supabase.

(** What lies outside the code base. A query on the relational store either
    reports an error (its message; the statement then has had no effect) or
    runs on the tables; the model and the vector store answer or throw. The
    two clients of the code base ([supabase] and [supabase_admin]) reach the
    same tables; policies configured in the store are not part of it. *)
Record Remote : Type :=
  { fault : CallSite -> option jsstring;
    model : jsstring -> completion jsstring;
    similaritySearch : jsstring -> N -> option jsstring -> completion (list Document);
    similaritySearchResults : N;
    getUser : jsstring -> completion UserResponse;
    listUsers : completion (response (list AuthUser));
    resend : jsstring -> completion (response unit);
    now : timestamp }.

(** The state a request runs in: the tables, and the prompts sent to the
    model so far (latest last). *)
Record World : Type :=
  { db : Database;
    invoked : list jsstring }.

Definition on_db (f : Database -> Database) (w : World) : World :=
  {| db := f (db w); invoked := invoked w |}.

Section Queries.

Variable R : Remote.

(** A [select] that yields rows. *)
Definition select_rows {A} (site : CallSite) (rows : Database -> list A)
  : Async.t World (response (list A)) :=
  fun w =>
    match fault R site with
    | Some message => (Return (failed message), w)
    | None => (Return (ok (rows (db w))), w)
    end.

(** A [select ... .single()]. *)
Definition select_single {A} (site : CallSite) (rows : Database -> list A)
  : Async.t World (response A) :=
  fun w =>
    match fault R site with
    | Some message => (Return (failed message), w)
    | None => (Return (single (rows (db w))), w)
    end.

(** An [insert], [update] or [delete] whose rows are not read back. *)
Definition mutate (site : CallSite) (f : Database -> Database)
  : Async.t World (response unit) :=
  fun w =>
    match fault R site with
    | Some message => (Return (failed message), w)
    | None => (Return (ok tt), on_db f w)
    end.

(** [chain.invoke] of a rendered prompt through the model and the string
    output parser. *)
Definition invoke (prompt : jsstring) : Async.t World jsstring :=
  fun w => (model R prompt, {| db := db w; invoked := invoked w ++ [prompt] |}).

End Queries.

(** ** services/chat.service.ts *)

Module ChatService.

Record Source : Type :=
  { title : jsstring; content : jsstring }.

(** [sources] is optional: [None] is [undefined]. *)
Record ChatResponse : Type :=
  { reply : jsstring; sources : option (list Source) }.

Definition line_feed : N := 10.
Definition blank : jsstring := [].

(** The lines of a template literal, joined by line feeds. *)
Definition lines (ls : list jsstring) : jsstring := join [line_feed] ls.

Definition no_history : jsstring := lit "No previous conversation history.".
Definition no_context : jsstring := lit "No specific information available on this topic.".
Definition untitled : jsstring := lit "Untitled".
Definition new_conversation : jsstring := lit "New Conversation".
Definition ellipsis : jsstring := lit "...".

(** The template of [processMessage] with its three slots filled. *)
Definition chat_prompt (history question context : jsstring) : jsstring :=
  lines [ blank;
          lit "You are MindfulAI, a mental health companion. Your goal is to provide supportive, empathetic responses";
          lit "based on the user's questions and the provided information sources. Always answer in a calm, supportive tone.";
          blank;
          lit "Chat History: ";
          blank ]
  ++ history ++
  lines [ blank; blank; lit "User Question: " ]
  ++ question ++
  lines [ blank; blank; lit "Relevant Information:"; blank ]
  ++ context ++
  lines [ blank;
          blank;
          lit "Instructions:";
          lit "- Answer based on the provided information when possible";
          lit "- Be supportive and empathetic, focusing on mental wellbeing";
          lit "- If you don't know or the information isn't in the context, be honest and helpful";
          lit "- Do not mention that you're using specific documents or sources directly in your response";
          lit "- Keep responses concise, clear, and conversational";
          blank;
          lit "Response:";
          lit "      " ].

(** The template of [generateSearchQuery]. *)
Definition query_prompt (history question : jsstring) : jsstring :=
  lines [ lit "Based on the conversation history and the current question, generate a search query that would help find relevant information:";
          blank;
          lit "History: " ]
  ++ history ++
  lines [ blank; blank; lit "Question: " ]
  ++ question ++
  lines [ blank; blank; lit "Search Query:" ].

(** The template of [generateChatTitle]. *)
Definition title_prompt (message : jsstring) : jsstring :=
  lines [ blank;
          lit "  Generate a concise, descriptive title (4-6 words max) for a chat conversation that starts with this message:";
          lit "  " ]
  ++ [quote] ++ message ++ [quote] ++
  lines [ blank;
          lit "  ";
          lit "  The title should be descriptive of the content or intent of the message. ";
          lit "  Do not use quotes in the title. Just return the title text directly.";
          lit "  ";
          lit "  Title:";
          lit "      " ].

(** One retrieved chunk in the context block. *)
Definition context_entry (doc : Document) : jsstring :=
  lines [ blank; lit "Title: " ] ++ or_else (md_title (metadata doc)) untitled ++
  lines [ blank; lit "Content: " ] ++ pageContent doc ++
  lines [ blank; lit "      " ].

(** The context block: the entries joined by a blank line. *)
Definition context_of (documents : list Document) : jsstring :=
  join (lines [ blank; blank; blank ]) (map context_entry documents).

Definition source_of (doc : Document) : Source :=
  {| title := or_else (md_title (metadata doc)) untitled;
     content := substring 0 150 (pageContent doc) ++ ellipsis |}.

Definition transcript_entry (msg : ChatMessage) : jsstring :=
  lit "User: " ++ cm_user_message msg ++ lines [ blank; lit "AI: " ] ++ cm_ai_response msg.

Definition own_session (userId sessionId : jsstring) (d : Database) : list jsstring :=
  map cs_id
    (filter (fun s => cs_id s = sessionId /\ cs_user_id s = userId) (chat_sessions d)).

Definition set_title (sessionId title : jsstring) (s : ChatSession) : ChatSession :=
  if decide (cs_id s = sessionId)
  then {| cs_id := cs_id s; cs_user_id := cs_user_id s; cs_title := title;
          cs_created_at := cs_created_at s; cs_last_message_at := cs_last_message_at s |}
  else s.

Definition set_last_message_at (sessionId : jsstring) (at_ : timestamp) (s : ChatSession)
  : ChatSession :=
  if decide (cs_id s = sessionId)
  then {| cs_id := cs_id s; cs_user_id := cs_user_id s; cs_title := cs_title s;
          cs_created_at := cs_created_at s; cs_last_message_at := at_ |}
  else s.

Section WithRemote.

Variable R : Remote.

Definition loadChatHistory (sessionId : jsstring) : Async.t World jsstring :=
  r <- select_rows R select_chat_messages
         (fun d => order (fun a b => leb (cm_created_at a) (cm_created_at b))
                     (filter (fun m => cm_session_id m = sessionId) (chat_messages d))) ;;
  match error r with
  | Some _ => ret no_history
  | None =>
      match data r with
      | None | Some [] => ret no_history
      | Some rows => ret (join (lines [ blank; blank; blank ]) (map transcript_entry rows))
      end
  end.

Definition generateSearchQuery (history question : jsstring) : Async.t World jsstring :=
  invoke R (query_prompt history question).

Definition saveChatMessage (userId sessionId userMessage aiResponse : jsstring)
  : Async.t World unit :=
  r <- mutate R insert_chat_messages
         (with_chat_messages (fun rows => rows ++
            [ {| cm_user_id := userId;
                 cm_session_id := sessionId;
                 cm_user_message := userMessage;
                 cm_ai_response := aiResponse;
                 cm_created_at := now R |} ])) ;;
  match error r with
  | Some message => throw (lit "Failed to save chat message: " ++ message)
  | None =>
(* the outcome of this update is logged and otherwise ignored *)
_ <- mutate R update_chat_sessions_last_message_at
       (with_chat_sessions (map (set_last_message_at sessionId (now R)))) ;;
ret tt
end.

Definition processMessage (userId sessionId message : jsstring) (category : option jsstring)
  : Async.t World ChatResponse :=
  try_catch
    (history <- loadChatHistory sessionId ;;
     searchQuery <- generateSearchQuery history message ;;
     documents <- await
       (if truthy category
        then similaritySearch R searchQuery (similaritySearchResults R) category
        else similaritySearch R searchQuery (similaritySearchResults R) None) ;;
     let context := context_of documents in
     response <- invoke R
       (chat_prompt history message
          (if (0 <? length context)%nat then context else no_context)) ;;
     saveChatMessage userId sessionId message response ;;;
     ret {| reply := response;
            sources := if (0 <? length documents)%nat
                       then Some (map source_of documents)
                       else None |})
    (fun message => throw (lit "Failed to process message: " ++ message)).

Definition deleteChatSession (userId sessionId : jsstring) : Async.t World bool :=
  try_catch
    (session <- select_single R select_chat_sessions (own_session userId sessionId) ;;
     if defined (error session) || negb (defined (data session)) then ret false
     else
       messages <- mutate R delete_chat_messages
         (with_chat_messages (filter (fun m => cm_session_id m <> sessionId))) ;;
       match error messages with
       | Some message => throw (lit "Failed to delete session messages: " ++ message)
       | None =>
           deleted <- mutate R delete_chat_sessions
             (with_chat_sessions (filter (fun s => cs_id s <> sessionId))) ;;
           match error deleted with
           | Some message => throw (lit "Failed to delete session: " ++ message)
           | None => ret true
           end
       end)
    (fun message => throw message).

Definition generateChatTitle (userId sessionId message : jsstring) : Async.t World jsstring :=
  try_catch
    (session <- select_single R select_chat_sessions (own_session userId sessionId) ;;
     if defined (error session) || negb (defined (data session)) then ret new_conversation
     else
       title <- invoke R (title_prompt (substring 0 200 message)) ;;
       let title := trim title in
       let title :=
         if (50 <? length title)%nat then substring 0 47 title ++ ellipsis else title in
(* a failure of the update is logged and the title still returned *)
_ <- mutate R update_chat_sessions_title
       (with_chat_sessions (map (set_title sessionId title))) ;;
ret title)
(fun _ => ret new_conversation).

Definition updateChatTitle (userId sessionId title : jsstring) : Async.t World bool :=
  try_catch
    (session <- select_single R select_chat_sessions (own_session userId sessionId) ;;
     if defined (error session) || negb (defined (data session)) then ret false
     else
       updated <- mutate R update_chat_sessions_title
         (with_chat_sessions (map (set_title sessionId title))) ;;
       match error updated with
       | Some _ => ret false
       | None => ret true
       end)
    (fun _ => ret false).

End WithRemote.

End ChatService.

(** ** services/document.service.ts *)

Module DocumentService.

Record DeleteResult : Type :=
  { success : bool; message : jsstring }.

(** [[...new Set(values)]]: the distinct values in order of first occurrence. *)
Definition Set_add {A} `{EqDecision A} (seen : list A) (x : A) : list A :=
  if decide (x ∈ seen) then seen else seen ++ [x].

Definition new_Set {A} `{EqDecision A} (values : list A) : list A :=
  foldl Set_add [] values.

(** The order of the [category] column, [null] last. *)
Definition category_leb (a b : option jsstring) : bool :=
  match a, b with
  | Some s, Some t => leb s t
  | Some _, None => true
  | None, Some _ => false
  | None, None => true
  end.

(** What [getCategories] makes of the selected rows. *)
Definition distinct_categories (data : list (option jsstring)) : list (option jsstring) :=
  filter (fun item => truthy item = true) (new_Set data).

Section WithRemote.

Variable R : Remote.

Definition deleteDocument (documentId : jsstring) : Async.t World DeleteResult :=
  try_catch
    (vector <- mutate R delete_documents
       (with_documents
          (filter (fun row => md_documentId (metadata row) <> Some documentId))) ;;
     match error vector with
     | Some message => throw (lit "Failed to delete document chunks: " ++ message)
     | None =>
         meta <- mutate R delete_document_metadata
           (with_document_metadata (filter (fun row => dm_id row <> documentId))) ;;
         match error meta with
         | Some message => throw (lit "Failed to delete document metadata: " ++ message)
         | None =>
             ret {| success := true; message := lit "Document successfully deleted" |}
         end
     end)
    (fun message =>
       ret {| success := false; message := lit "Error deleting document: " ++ message |}).

Definition getCategories : Async.t World (list (option jsstring)) :=
  r <- select_rows R select_document_metadata
         (fun d => order category_leb (map dm_category (document_metadata d))) ;;
  match error r, data r with
  | Some message, _ => throw (lit "Failed to fetch categories: " ++ message)
  | None, Some data => ret (distinct_categories data)
  | None, None => throw (lit "Cannot read properties of null (reading 'map')")
  end.

End WithRemote.

End DocumentService.

(** ** middleware/auth.middleware.ts, middleware/admin.middleware.ts and
       the admin-only routes of routes/*.ts *)

Module Middleware.

(** What a middleware reads of the request: the [Authorization] header and
    the [user] that [requireAuth] attaches. *)
Record Request : Type :=
  { authorization : option jsstring;
    req_user : option AuthUser }.

(** [res.status(statusCode).json({ status, msg })] *)
Record Response : Type :=
  { statusCode : N; status : bool; msg : jsstring }.

(** A middleware either answers the request or calls [next()]. *)
Inductive outcome : Type :=
| Responded (res : Response)
| Next (req : Request).

Definition reject (code : N) (message : jsstring) : Async.t World outcome :=
  ret (Responded {| statusCode := code; status := false; msg := message |}).

Definition internal_error (message : jsstring) : Async.t World outcome :=
  reject 500 (or_else (Some message) (lit "Internal server error")).

(** [req.user.user_metadata?.is_admin === true] *)
Definition is_admin_claim (u : AuthUser) : bool :=
  match user_metadata u with
  | Some claims =>
      match claims !! lit "is_admin" with
      | Some (JBool true) => true
      | _ => false
      end
  | None => false
  end.

(** [from('users').select('role').eq('id', userId)] *)
Definition selected_roles (userId : jsstring) (d : Database) : list (option jsstring) :=
  map u_role (filter (fun row => u_id row = userId) (users d)).

(** [data?.role === 'admin'] on the selected row. *)
Definition role_is_admin (row : option (option jsstring)) : bool :=
  match row with
  | Some (Some role) => bool_decide (role = lit "admin")
  | _ => false
  end.


Module AuthMiddleware.

Section WithRemote.

Variable R : Remote.

Definition requireAuth (req : Request) : Async.t World outcome :=
  try_catch
    (let authHeader := authorization req in
     if falsy authHeader || negb (startsWith (default [] authHeader) (lit "Bearer "))
     then reject 401 (lit "Authentication required. Bearer token missing.")
     else
       let token := split space (default [] authHeader) !! 1%nat in
       if falsy token
       then reject 401 (lit "Authentication required. Token is empty.")
       else
         r <- await (getUser R (default [] token)) ;;
         if defined (user_error r)
         then reject 401 (lit "Invalid or expired token")
         else
           match user r with
           | None => reject 401 (lit "User not found")
           | Some u =>
               ret (Next {| authorization := authorization req; req_user := Some u |})
           end)
    internal_error.

(** The admin check of this class reads the token claim alone. *)
Definition requireAdmin (req : Request) : Async.t World outcome :=
  try_catch
    (match req_user req with
     | None => reject 401 (lit "Authentication required")
     | Some u =>
         if negb (is_admin_claim u)
         then reject 403 (lit "Admin access required")
         else ret (Next req)
     end)
    internal_error.

End WithRemote.

End AuthMiddleware.

Module AdminMiddleware.

Section WithRemote.

Variable R : Remote.

(** The token claim first, then the [users] table. *)
Definition requireAdmin (req : Request) : Async.t World outcome :=
  try_catch
    (match req_user req with
     | None => reject 401 (lit "Authentication required")
     | Some u =>
         let userId := id u in
         if is_admin_claim u then ret (Next req)
         else
           r <- select_single R select_users (selected_roles userId) ;;
           if defined (error r)
           then reject 500 (lit "Error verifying user permissions")
           else
             if negb (role_is_admin (data r))
             then reject 403 (lit "Admin privileges required")
             else ret (Next req)
     end)
    internal_error.

End WithRemote.

End AdminMiddleware.

(** The admin-only endpoints of the three routers: those whose route lists
    a [requireAdmin] after [requireAuth]. *)
Inductive AdminEndpoint : Type :=
| post_document_upload         (* routes/document.routes.ts, '/upload' *)
| get_document_list            (* '/list' *)
| delete_document              (* '/:documentId' *)
| get_document_category        (* '/category/:category' *)
| post_chat_admin_topics       (* routes/chat.routes.ts, '/admin/topics' *)
| put_chat_admin_topics        (* '/admin/topics/:topicId' *)
| delete_chat_admin_topics     (* '/admin/topics/:topicId' *)
| get_chat_admin_analytics     (* '/admin/analytics' *)
| get_auth_users.              (* routes/auth.route.ts, '/users' *)

#[global] Instance AdminEndpoint_eq_dec : EqDecision AdminEndpoint.
Proof. solve_decision. Defined.



End Middleware.

(** ** services/auth.service.ts and services/user.service.ts *)

Module AuthService.

(** The envelope the services return; [statusCode] is absent on success. *)
Record Result : Type :=
  { status : bool; msg : jsstring; statusCode : option N }.

Definition generic_error : jsstring :=
  lit "An error occurred while processing your request. Please try again later.".

Definition already_verified : jsstring :=
  lit "Email is already verified. Please login instead.".

Section WithRemote.

Variable R : Remote.

Definition resendOtp (email_ : jsstring) : Async.t World Result :=
  try_catch
    (if falsy (Some email_)
     then ret {| status := false; msg := lit "Email is required"; statusCode := Some 400 |}
     else
       userData <- await (listUsers R) ;;
       if defined (error userData)
       then ret {| status := false; msg := lit "Error verifying user email";
                   statusCode := Some 400 |}
       else
         match data userData ≫= find (fun u => bool_decide (email u = Some email_)) with
         | None =>
             ret {| status := false; msg := lit "No user found with this email address";
                    statusCode := Some 404 |}
         | Some _ =>
             r <- await (resend R email_) ;;
             match error r with
             | Some message =>
                 if includes message (lit "already confirmed")
                 then ret {| status := false; msg := already_verified;
                             statusCode := Some 400 |}
                 else if includes message (lit "rate limit")
                 then ret {| status := false;
                             msg := lit "Too many requests. Please try again later.";
                             statusCode := Some 429 |}
                 else ret {| status := false; msg := message; statusCode := Some 400 |}
             | None =>
                 ret {| status := true;
                        msg := lit "New verification code sent to your email";
                        statusCode := None |}
             end
         end)
    (fun _ =>
       ret {| status := false; msg := generic_error; statusCode := Some 500 |}).

End WithRemote.

End AuthService.

Module UserService.

(** A row of [profiles], and equally a JSON object: columns to values. *)
Abbreviation object := (gmap jsstring json).

Record Result : Type :=
  { status : bool; msg : jsstring; statusCode : option N; profile : option object }.

Definition allowedFields : list jsstring :=
  [lit "full_name"; lit "avatar_url"; lit "website"].

(** [Object.keys(o)] *)
Definition keys (o : object) : list jsstring := (map_to_list o).*1.

(** The [filter] and [reduce] that copy the allowed keys into a new object. *)
Definition pick_allowed (profileData : object) : object :=
  foldl (fun obj key => from_option (fun v => <[key := v]> obj) obj (profileData !! key))
        ∅
        (filter (fun key => key ∈ allowedFields) (keys profileData)).

(** The columns a profile update may write. *)
Definition writable (column : jsstring) : Prop :=
  column ∈ allowedFields \/ column = lit "updated_at".

(** [UPDATE profiles SET patch WHERE id = userId] on one row. *)
Definition has_id (userId : jsstring) (row : object) : Prop :=
  row !! lit "id" = Some (JString userId).

#[global] Instance has_id_dec userId row : Decision (has_id userId row).
Proof. unfold has_id. apply _. Defined.

Definition patch_row (userId : jsstring) (patch row : object) : object :=
  if decide (has_id userId row) then patch ∪ row else row.

Section WithRemote.

Variable R : Remote.

(** [validate] of the [uuid] package. *)
Variable isUuid : jsstring -> bool.

(** [.update(patch).eq('id', userId).select().single()]: the updated row;
    when not exactly one row is affected the store reports an error and
    keeps the table as it was. *)
Definition update_profile (userId : jsstring) (patch : object)
  : Async.t World (response object) :=
  fun w =>
    match fault R update_profiles with
    | Some message => (Return (failed message), w)
    | None =>
        let hit := filter (has_id userId) (profiles (db w)) in
        match hit with
        | [_] =>
            (Return (single (map (patch_row userId patch) hit)),
             on_db (with_profiles (map (patch_row userId patch))) w)
        | _ => (Return (single hit), w)
        end
    end.

Definition updateUserProfile (userId : jsstring) (profileData : option object)
  : Async.t World Result :=
  try_catch
    (if falsy (Some userId) || negb (isUuid userId)
     then ret {| status := false; msg := lit "Invalid or missing user ID";
                 statusCode := Some 400; profile := None |}
     else
       match profileData with
       | Some fields =>
           if bool_decide (length (keys fields) = 0%nat)
           then ret {| status := false; msg := lit "No data provided for update";
                       statusCode := Some 400; profile := None |}
           else
             let filteredData := pick_allowed fields in
             let filteredData := <[lit "updated_at" := JString (now R)]> filteredData in
             r <- update_profile userId filteredData ;;
             if defined (error r)
             then ret {| status := false; msg := lit "Failed to update profile";
                         statusCode := Some 400; profile := None |}
             else ret {| status := true; msg := lit "Profile updated successfully";
                         statusCode := None; profile := data r |}
       | None =>
           ret {| status := false; msg := lit "No data provided for update";
                  statusCode := Some 400; profile := None |}
       end)
    (fun _ =>
       ret {| status := false;
              msg := lit "An error occurred while processing your request. Please try again later.";
              statusCode := Some 500; profile := None |}).

End WithRemote.

End UserService.

(** ** Sample remotes and tables, for the concrete instances below *)

Module Samples.

Import ChatService.

Definition alice : jsstring := lit "alice".
Definition mallory : jsstring := lit "mallory".
Definition session1 : jsstring := lit "s-1".
Definition t0 : timestamp := lit "2025-01-01T00:00:00.000Z".
Definition t1 : timestamp := lit "2025-01-02T00:00:00.000Z".

Definition alice_session : ChatSession :=
  {| cs_id := session1; cs_user_id := alice; cs_title := lit "Sleep";
     cs_created_at := t0; cs_last_message_at := t0 |}.

Definition empty_db : Database :=
  {| chat_sessions := []; chat_messages := []; document_metadata := [];
     documents := []; users := []; profiles := [] |}.

Definition one_session : World :=
  {| db := with_chat_sessions (fun _ => [alice_session]) empty_db; invoked := [] |}.

(** A remote where every call works: the model answers with a fixed text
    and the vector store finds nothing. *)
Definition calm (answer : jsstring) : Remote :=
  {| fault := fun _ => None;
     model := fun _ => Return answer;
     similaritySearch := fun _ _ _ => Return [];
     similaritySearchResults := 5;
     getUser := fun _ => Throw (lit "fetch failed");
     listUsers := Throw (lit "fetch failed");
     resend := fun _ => Throw (lit "fetch failed");
     now := t1 |}.

(** The same remote with one failing query-builder call. *)
Definition failing (site : CallSite) (message answer : jsstring) : Remote :=
  {| fault := fun s => if decide (s = site) then Some message else None;
     model := fun _ => Return answer;
     similaritySearch := fun _ _ _ => Return [];
     similaritySearchResults := 5;
     getUser := fun _ => Throw (lit "fetch failed");
     listUsers := Throw (lit "fetch failed");
     resend := fun _ => Throw (lit "fetch failed");
     now := t1 |}.

Definition long_answer : jsstring :=
  lit "  Coping with anxiety before an important exam at the university   ".

(** A remote whose identity provider resolves every token to [u], lists
    [u] as its only user and answers [resend] with [resent]. *)
Definition signed_in (u : AuthUser) (resent : response unit) : Remote :=
  {| fault := fun _ => None;
     model := fun _ => Throw (lit "fetch failed");
     similaritySearch := fun _ _ _ => Throw (lit "fetch failed");
     similaritySearchResults := 5;
     getUser := fun _ => Return {| user := Some u; user_error := None |};
     listUsers := Return (ok [u]);
     resend := fun _ => Return resent;
     now := t1 |}.

Definition bob : AuthUser :=
  {| id := lit "bob"; email := Some (lit "bob@example.org"); user_metadata := None;
     email_confirmed_at := Some t0 |}.

Definition bob_request : Middleware.Request :=
  {| Middleware.authorization := Some (lit "Bearer token-of-bob");
     Middleware.req_user := None |}.

Definition bob_is_user : World :=
  {| db := {| chat_sessions := []; chat_messages := []; document_metadata := [];
              documents := [];
              users := [ {| u_id := lit "bob"; u_email := lit "bob@example.org";
                            u_role := Some (lit "user") |} ];
              profiles := [] |};
     invoked := [] |}.

Definition nobody_registered : World := {| db := empty_db; invoked := [] |}.




Definition category_row (name : jsstring) (category : option jsstring) : DocumentMetadataRow :=
  {| dm_id := name; dm_title := name; dm_description := []; dm_category := category;
     dm_file_name := name ++ lit ".pdf"; dm_chunk_count := 3; dm_file_type := lit "pdf" |}.

(** Two documents on sleep, one on anxiety, one without a category and one
    with an empty one. *)
Definition library : World :=
  {| db := with_document_metadata
             (fun _ => [ category_row (lit "Sleep Guide") (Some (lit "sleep"));
                         category_row (lit "Notes") None;
                         category_row (lit "Worry") (Some (lit "anxiety"));
                         category_row (lit "Naps") (Some (lit "sleep"));
                         category_row (lit "Draft") (Some []) ])
             empty_db;
     invoked := [] |}.

Definition bob_profile : UserService.object :=
  <[lit "id" := JString (lit "bob")]>
    (<[lit "full_name" := JString (lit "Bob")]>
       (<[lit "role" := JString (lit "user")]> ∅)).

Definition bob_has_profile : World :=
  {| db := with_profiles (fun _ => [bob_profile]) empty_db; invoked := [] |}.

(** A request body that also tries to set the role. *)
Definition greedy_body : UserService.object :=
  <[lit "full_name" := JString (lit "Robert")]>
    (<[lit "role" := JString (lit "admin")]> ∅).

End Samples.

(** ** Further parts of the code base *)

(** What [auth.signInWithPassword] resolves to: [data.user], [data.session]
    (opaque here) and [error]. *)
Record SignIn : Type :=
  { si_user : option AuthUser;
    si_session : option jsstring;
    si_error : option jsstring }.

(** Further answers from outside the code base: the errors of two more
    query-builder calls, the id the store gives a new chat session, the three
    readings of the clock in [createChatSession] (one rendered locally for
    the default title, two for the columns of the new row), two more calls of
    the identity provider and two environment variables. *)
Record Platform : Type :=
  { fault_insert_chat_sessions : option jsstring;
    fault_upsert_users : option jsstring;
    generated_id : Database -> jsstring;
    toLocaleString : jsstring;
    session_created_at : timestamp;
    session_last_message_at : timestamp;
    signInWithPassword : jsstring -> jsstring -> completion SignIn;
    resetPasswordForEmail : jsstring -> jsstring -> completion (response unit);
    NODE_ENV : option jsstring;
    APP_URL : option jsstring }.

(** A mutation whose error, if any, is given. *)
Definition mutate_at (failure : option jsstring) (f : Database -> Database)
  : Async.t World (response unit) :=
  fun w =>
    match failure with
    | Some message => (Return (failed message), w)
    | None => (Return (ok tt), on_db f w)
    end.

(** A select whose error, if any, is given. *)
Definition select_at {A} (failure : option jsstring) (rows : Database -> list A)
  : Async.t World (response (list A)) :=
  fun w =>
    match failure with
    | Some message => (Return (failed message), w)
    | None => (Return (ok (rows (db w))), w)
    end.

Definition with_users (f : list UserRow -> list UserRow) (d : Database) : Database :=
  {| chat_sessions := chat_sessions d;
     chat_messages := chat_messages d;
     document_metadata := document_metadata d;
     documents := documents d;
     users := f (users d);
     profiles := profiles d |}.

(** *** services/chat.service.ts: sessions *)

Module ChatSessions.

(** The columns [getUserChatSessions] selects. *)
Record SessionSummary : Type :=
  { ss_id : jsstring;
    ss_title : jsstring;
    ss_created_at : timestamp;
    ss_last_message_at : timestamp }.

Definition summary (s : ChatSession) : SessionSummary :=
  {| ss_id := cs_id s; ss_title := cs_title s;
     ss_created_at := cs_created_at s; ss_last_message_at := cs_last_message_at s |}.

Record TopicChatResult : Type :=
  { sessionId : jsstring; initialResponse : jsstring }.

(** [.eq('user_id', userId).order('last_message_at', { ascending: false })] *)
Definition sessions_of (userId : jsstring) (d : Database) : list ChatSession :=
  order (fun a b => leb (cs_last_message_at b) (cs_last_message_at a))
    (filter (fun s => cs_user_id s = userId) (chat_sessions d)).

Section WithRemote.

Variable R : Remote.
Variable P : Platform.

(** [.insert(row).select('id').single()]: the store chooses the id. *)
Definition insert_session (userId sessionTitle : jsstring) : Async.t World (response jsstring) :=
  fun w =>
    match fault_insert_chat_sessions P with
    | Some message => (Return (failed message), w)
    | None =>
        let row := {| cs_id := generated_id P (db w); cs_user_id := userId;
                      cs_title := sessionTitle; cs_created_at := session_created_at P;
                      cs_last_message_at := session_last_message_at P |} in
        (Return (single [cs_id row]), on_db (with_chat_sessions (fun rows => rows ++ [row])) w)
    end.

Definition createChatSession (userId : jsstring) (title : option jsstring)
  : Async.t World jsstring :=
  let sessionTitle := or_else title (lit "Chat " ++ toLocaleString P) in
  r <- insert_session userId sessionTitle ;;
  match error r, data r with
  | Some message, _ => throw (lit "Failed to create chat session: " ++ message)
  | None, Some id_ => ret id_
  | None, None => throw (lit "Cannot read properties of null (reading 'id')")
  end.

Definition getUserChatSessions (userId : jsstring) : Async.t World (list SessionSummary) :=
  r <- select_rows R select_chat_sessions (fun d => map summary (sessions_of userId d)) ;;
  match error r with
  | Some message => throw (lit "Failed to get user chat sessions: " ++ message)
  | None => ret (default [] (data r))
  end.

(** [null] is [None]. *)
Definition getLastChatSession (userId : jsstring) : Async.t World (option jsstring) :=
  try_catch
    (r <- select_single R select_chat_sessions
            (fun d => take 1 (map cs_id (sessions_of userId d))) ;;
     if defined (error r) then ret None else ret (data r))
    (fun _ => ret None).

Definition startTopicChat (userId topic : jsstring) : Async.t World TopicChatResult :=
  sessionId_ <- createChatSession userId (Some topic) ;;
  let topicPrompt := lit "Tell me about " ++ topic in
  r <- ChatService.processMessage R userId sessionId_ topicPrompt (Some topic) ;;
  ret {| sessionId := sessionId_; initialResponse := ChatService.reply r |}.

End WithRemote.

End ChatSessions.

(** *** middleware/admin.middleware.ts: roles *)

Module RoleMiddleware.

Import Middleware.

Section WithRemote.

Variable R : Remote.

(** [AdminMiddleware.requireRole(requiredRole)] *)
Definition requireRole (requiredRole : jsstring) (req : Request) : Async.t World outcome :=
  try_catch
    (match req_user req with
     | None => reject 401 (lit "Authentication required")
     | Some u =>
         let userId := id u in
         r <- select_single R select_users (selected_roles userId) ;;
         if defined (error r)
         then reject 500 (lit "Error verifying user permissions")
         else
           let hasRole :=
             match data r with
             | Some (Some role) => bool_decide (role = requiredRole)
             | _ => false
             end in
           let isAdmin := role_is_admin (data r) || is_admin_claim u in
           if negb hasRole && negb isAdmin
           then reject 403 (requiredRole ++ lit " role privileges required")
           else ret (Next req)
     end)
    internal_error.

End WithRemote.

End RoleMiddleware.

(** *** controllers/chat.controller.ts and controllers/document.controller.ts *)

Module Controllers.

Import Middleware.

(** [res.status(code).json({ status, msg, data })] *)
Record Reply (A : Type) : Type :=
  { code : N; succeeded : bool; text : option jsstring; payload : option A }.
Arguments code {A} r.
Arguments succeeded {A} r.
Arguments text {A} r.
Arguments payload {A} r.

Definition refuse {A} (c : N) (message : jsstring) : Reply A :=
  {| code := c; succeeded := false; text := Some message; payload := None |}.

(** One element of the [messages] array of the history endpoint. *)
Record Exchange : Type :=
  { user_said : jsstring; ai_said : jsstring }.

(** The loop of [getChatHistory] over the lines of the transcript: a line
    that, trimmed, starts with "User: " opens an exchange; the next line is
    its answer when, trimmed, it starts with "AI: ", and is then skipped if
    the answer is not empty. *)
Fixpoint parse_history (historyLines : list jsstring) : list Exchange :=
  match historyLines with
  | [] => []
  | l :: rest =>
      let line := trim l in
      if startsWith line (lit "User: ") then
        let userMessage := drop 6 line in
        match rest with
        | next :: rest' =>
            let aiLine :=
              if startsWith (trim next) (lit "AI: ") then drop 4 (trim next) else [] in
            {| user_said := userMessage; ai_said := aiLine |} ::
            (if truthy (Some aiLine) then parse_history rest' else parse_history rest)
        | [] => [ {| user_said := userMessage; ai_said := [] |} ]
        end
      else parse_history rest
  end.

(** A text that survives the transcript: no line feed in it and no white
    space at its end. *)
Definition plain (s : jsstring) : Prop :=
  (ChatService.line_feed ∉ s) /\ trimEnd s = s.

Definition exchange_of (m : ChatMessage) : Exchange :=
  {| user_said := cm_user_message m; ai_said := cm_ai_response m |}.

(** [req.user?.id || 'anonymous'] *)
Definition caller (req : Request) : jsstring :=
  or_else (id <$> req_user req) (lit "anonymous").

Section WithRemote.

Variable R : Remote.

(** [req.body] is read for [message], [sessionId] and [category]. *)
Definition sendMessage (message sessionId category : option jsstring) (req : Request)
  : Async.t World (Reply ChatService.ChatResponse) :=
  try_catch
    (if falsy message then ret (refuse 400 (lit "Message is required"))
     else if falsy sessionId then ret (refuse 400 (lit "Session ID is required"))
     else
       let userId := caller req in
       response <- ChatService.processMessage R userId (default [] sessionId)
                     (default [] message) category ;;
       ret {| code := 200; succeeded := true; text := None; payload := Some response |})
    (fun message =>
       ret (refuse 500 (or_else (Some message) (lit "An error occurred processing the message")))).

(** [req.params] is read for [sessionId]. *)
Definition getChatHistory (sessionId : option jsstring) : Async.t World (Reply (list Exchange)) :=
  try_catch
    (if falsy sessionId then ret (refuse 400 (lit "Session ID is required"))
     else
       history <- ChatService.loadChatHistory R (default [] sessionId) ;;
       let messages := parse_history (split ChatService.line_feed history) in
       ret {| code := 200; succeeded := true; text := None; payload := Some messages |})
    (fun message =>
       ret (refuse 500 (or_else (Some message) (lit "An error occurred retrieving chat history")))).

Definition deleteChatSession (sessionId : option jsstring) (req : Request)
  : Async.t World (Reply unit) :=
  try_catch
    (if falsy sessionId then ret (refuse 400 (lit "Session ID is required"))
     else
       let userId := caller req in
       success <- ChatService.deleteChatSession R userId (default [] sessionId) ;;
       if success
       then ret {| code := 200; succeeded := true;
                   text := Some (lit "Chat session successfully deleted"); payload := None |}
       else ret (refuse 404
                   (lit "Chat session not found or you do not have permission to delete it")))
    (fun message =>
       ret (refuse 500 (or_else (Some message) (lit "An error occurred deleting the chat session")))).

(** [DocumentController.deleteDocument], reading [req.params.documentId]. *)
Definition deleteDocument (documentId : option jsstring) : Async.t World (Reply unit) :=
  try_catch
    (if falsy documentId then ret (refuse 400 (lit "Document ID is required"))
     else
       result <- DocumentService.deleteDocument R (default [] documentId) ;;
       if DocumentService.success result
       then ret {| code := 200; succeeded := true;
                   text := Some (DocumentService.message result); payload := None |}
       else ret (refuse 400 (DocumentService.message result)))
    (fun message =>
       ret (refuse 500 (or_else (Some message) (lit "An error occurred deleting the document")))).

(** A route whose handler answers with a [Reply]: a middleware that answers
    instead gives its status code, flag and message. *)
Fixpoint guarded {A} (chain : list (Request -> Async.t World outcome))
    (handler : Request -> Async.t World (Reply A)) (req : Request)
  : Async.t World (Reply A) :=
  match chain with
  | [] => handler req
  | middleware :: rest =>
      o <- middleware req ;;
      match o with
      | Responded res =>
          ret {| code := statusCode res; succeeded := status res;
                 text := Some (msg res); payload := None |}
      | Next req' => guarded rest handler req'
      end
  end.

(** [router.post('/message', requireAuth, sendMessage)] *)
Definition post_message (message sessionId category : option jsstring)
  : Request -> Async.t World (Reply ChatService.ChatResponse) :=
  guarded [AuthMiddleware.requireAuth R] (sendMessage message sessionId category).

(** [router.delete('/session/:sessionId', requireAuth, deleteChatSession)] *)
Definition delete_session (sessionId : option jsstring)
  : Request -> Async.t World (Reply unit) :=
  guarded [AuthMiddleware.requireAuth R] (deleteChatSession sessionId).

End WithRemote.

End Controllers.

(** *** services/auth.service.ts: login and password reset *)

Module Accounts.

Record LoginResult : Type :=
  { login_status : bool;
    login_msg : jsstring;
    login_statusCode : option N;
    login_session : option jsstring;
    login_user : option AuthUser }.

Definition login_failed (message : jsstring) (c : N) : LoginResult :=
  {| login_status := false; login_msg := message; login_statusCode := Some c;
     login_session := None; login_user := None |}.

(** [.upsert(row, { onConflict: 'id' })]: the row replaces the one with its
    id, or is added. *)
Definition upsert_user (row : UserRow) (rows : list UserRow) : list UserRow :=
  if bool_decide (Exists (fun r => u_id r = u_id row) rows)
  then map (fun r => if decide (u_id r = u_id row) then row else r) rows
  else rows ++ [row].

Definition neutral_answer : AuthService.Result :=
  {| AuthService.status := true;
     AuthService.msg :=
       lit "If your email is registered, you'll receive a password reset link shortly";
     AuthService.statusCode := None |}.

(** A template literal prints [undefined] for a missing value. *)
Definition interpolate (v : option jsstring) : jsstring :=
  match v with
  | Some s => s
  | None => lit "undefined"
  end.

Section WithRemote.

Variable R : Remote.
Variable P : Platform.

(** The private [createUserRecord]; its [fullName] argument is never read,
    and of the written columns [created_at] is never read back. Errors and
    exceptions are logged and go no further. *)
Definition createUserRecord (userId email_ role : jsstring) : Async.t World unit :=
  try_catch
    (_ <- mutate_at (fault_upsert_users P)
            (with_users
               (upsert_user {| u_id := userId; u_email := email_; u_role := Some role |})) ;;
     ret tt)
    (fun _ => ret tt).

Definition login (email_ password : jsstring) : Async.t World LoginResult :=
  try_catch
    (if falsy (Some email_) || falsy (Some password)
     then ret (login_failed (lit "Email and password are required") 400)
     else
       r <- await (signInWithPassword P email_ password) ;;
       match si_error r with
       | Some message => ret (login_failed message 400)
       | None =>
           match si_user r with
           | Some u => createUserRecord (id u) (or_else (email u) email_) (lit "user")
           | None => ret tt
           end ;;;
           ret {| login_status := true; login_msg := lit "Login successful";
                  login_statusCode := None; login_session := si_session r;
                  login_user := si_user r |}
       end)
    (fun _ => ret (login_failed AuthService.generic_error 500)).

(** The link sent with the reset mail. *)
Definition reset_redirect : jsstring :=
  let appBaseUrl :=
    if bool_decide (NODE_ENV P = Some (lit "development"))
    then Some (lit " https://7079-105-119-13-207.ngrok-free.app")
    else APP_URL P in
  interpolate appBaseUrl ++ lit "/reset-password".

Definition requestPasswordReset (email_ : jsstring) : Async.t World AuthService.Result :=
  try_catch
    (if falsy (Some email_)
     then ret {| AuthService.status := false; AuthService.msg := lit "Email is required";
                 AuthService.statusCode := Some 400 |}
     else
       listed <- await (listUsers R) ;;
       if defined (error listed)
       then ret {| AuthService.status := false;
                   AuthService.msg := lit "Error verifying user email";
                   AuthService.statusCode := Some 500 |}
       else
         match data listed with
         | None => throw (lit "Cannot read properties of null (reading 'users')")
         | Some accounts =>
             let userExists := existsb (fun u => bool_decide (email u = Some email_)) accounts in
             if negb userExists then ret neutral_answer
             else
               r <- await (resetPasswordForEmail P email_ reset_redirect) ;;
               match error r with
               | Some message =>
                   ret {| AuthService.status := false; AuthService.msg := message;
                          AuthService.statusCode := Some 400 |}
               | None => ret neutral_answer
               end
         end)
    (fun _ =>
       ret {| AuthService.status := false; AuthService.msg := AuthService.generic_error;
              AuthService.statusCode := Some 500 |}).

End WithRemote.

End Accounts.

(** *** services/document.service.ts: statistics *)

Module DocumentStats.

(** A JavaScript number that holds a count or a sum of counts: a
    non-negative integer, one that a double represents, or [Infinity]. *)
Inductive number : Type :=
| Finite (n : N)
| Infinity.

(** The double nearest to a non-negative integer: the 53 leading bits are
    kept, the rest is rounded, a tie to the even neighbour, and what reaches
    [2 ^ 1024] is [Infinity]. Integers below [2 ^ 53] are kept as they are. *)
Definition to_double (n : N) : number :=
  let excess := N.log2 n - 52 in
  let kept := N.shiftr n excess in
  let rest := n mod 2 ^ excess in
  let half := 2 ^ (excess - 1) in
  let rounded :=
    if rest <? half then kept
    else if half <? rest then kept + 1
    else if N.even kept then kept else kept + 1 in
  let value := N.shiftl rounded excess in
  if value <? 2 ^ 1024 then Finite value else Infinity.

(** [x + y] on such numbers: the exact sum, rounded. *)
Definition add (x y : number) : number :=
  match x, y with
  | Finite a, Finite b => to_double (a + b)
  | _, _ => Infinity
  end.

(** The value under a key of a counting object: a number, or what [+ 1]
    makes of a value that is no number (a string). *)
Inductive tally : Type :=
| Counted (x : number)
| NotANumber.

(** The property names every object inherits from [Object.prototype]. *)
Definition Object_prototype : list jsstring :=
  [ lit "constructor"; lit "__defineGetter__"; lit "__defineSetter__";
    lit "hasOwnProperty"; lit "__lookupGetter__"; lit "__lookupSetter__";
    lit "isPrototypeOf"; lit "propertyIsEnumerable"; lit "toString"; lit "valueOf";
    lit "__proto__"; lit "toLocaleString" ].

(** [counts[key] = (counts[key] || 0) + 1] on an object literal. To an own
    number 1 is added. Without an own property the read finds, for an
    inherited name, a function or object: the sum is a string, which
    becomes the own value, except under [__proto__], where the assignment
    of a string is ignored. *)
Definition bump (counts : gmap jsstring tally) (key : jsstring) : gmap jsstring tally :=
  match counts !! key with
  | Some (Counted x) => <[key := Counted (add x (Finite 1))]> counts
  | Some NotANumber => <[key := NotANumber]> counts
  | None =>
      if bool_decide (key ∈ Object_prototype)
      then if bool_decide (key = lit "__proto__") then counts
           else <[key := NotANumber]> counts
      else <[key := Counted (add (Finite 0) (Finite 1))]> counts
  end.

Record Stats : Type :=
  { totalDocuments : nat;
    totalChunks : number;
    fileTypes : gmap jsstring tally;
    categories : gmap jsstring tally }.

(** [doc.chunk_count || 0]: the column as a number of the response, which
    is the nearest double (a [null] is 0 in the table of the embedding). *)
Definition chunk_count_number (chunk_count : N) : number :=
  to_double chunk_count.

(** [doc.file_type || 'unknown'] and [doc.category || 'uncategorized'] *)

Definition file_type_key (file_type : jsstring) : jsstring :=
  or_else (Some file_type) (lit "unknown").

Definition category_key (category : option jsstring) : jsstring :=
  or_else category (lit "uncategorized").

(** The errors, if any, of the four selects of [getDocumentStats]. *)
Record Faults : Type :=
  { docError : option jsstring;
    chunkError : option jsstring;
    typeError : option jsstring;
    categoryError : option jsstring }.

(** One of the four selects on [document_metadata], which differ in the
    column they read, in their error and in the message of their failure. *)
Definition select_column {A} (failure : option jsstring) (column : DocumentMetadataRow -> A)
    (complaint : jsstring) : Async.t World (list A) :=
  r <- select_at failure (fun d => map column (document_metadata d)) ;;
  match error r, data r with
  | Some message, _ => throw (complaint ++ message)
  | None, Some rows => ret rows
  | None, None => throw (lit "Cannot read properties of null")
  end.

Definition getDocumentStats (F : Faults) : Async.t World Stats :=
  docData <- select_column (docError F) dm_id (lit "Failed to get document count: ") ;;
  chunkData <- select_column (chunkError F) dm_chunk_count
                 (lit "Failed to get chunk counts: ") ;;
  let totalChunks_ :=
    foldl (fun sum chunk_count => add sum (chunk_count_number chunk_count)) (Finite 0)
      chunkData in
  typeData <- select_column (typeError F) dm_file_type (lit "Failed to get file types: ") ;;
  let fileTypeCounts :=
    foldl (fun counts file_type => bump counts (file_type_key file_type)) ∅ typeData in
  categoryData <- select_column (categoryError F) dm_category
                    (lit "Failed to get categories: ") ;;
  let categoryCounts :=
    foldl (fun counts category => bump counts (category_key category)) ∅ categoryData in
  ret {| totalDocuments := length docData;
         totalChunks := totalChunks_;
         fileTypes := fileTypeCounts;
         categories := categoryCounts |}.

End DocumentStats.

(** *** Further sample remotes and tables *)

Module MoreSamples.

Import Samples.

Definition session2 : jsstring := lit "s-2".

(** A platform where everything works; every sign-in is Bob's. *)
Definition quiet : Platform :=
  {| fault_insert_chat_sessions := None;
     fault_upsert_users := None;
     generated_id := fun _ => session2;
     toLocaleString := lit "1/2/2025, 12:00:00 AM";
     session_created_at := lit "2025-01-02T00:00:00.000Z";
     session_last_message_at := lit "2025-01-02T00:00:00.001Z";
     signInWithPassword := fun _ _ =>
       Return {| si_user := Some bob; si_session := Some (lit "token-of-bob");
                 si_error := None |};
     resetPasswordForEmail := fun _ _ => Return (ok tt);
     NODE_ENV := Some (lit "production");
     APP_URL := Some (lit "https://mindful.example.org") |}.

Definition first_exchange : ChatMessage :=
  {| cm_user_id := alice; cm_session_id := session1;
     cm_user_message := lit "I cannot sleep"; cm_ai_response := lit "Tell me more.";
     cm_created_at := t0 |}.

(** Alice's session with one stored exchange. *)
Definition talked : World :=
  {| db := with_chat_messages (fun _ => [first_exchange]) (db one_session); invoked := [] |}.

Definition sleep_chunk : Document :=
  {| pageContent := lit "Keep a regular bedtime.";
     metadata := {| md_title := None; md_category := Some (lit "sleep");
                    md_documentId := Some (lit "Sleep Guide") |} |}.

(** A remote whose vector store finds one chunk. *)
Definition retrieving (answer : jsstring) : Remote :=
  {| fault := fun _ => None;
     model := fun _ => Return answer;
     similaritySearch := fun _ _ _ => Return [sleep_chunk];
     similaritySearchResults := 5;
     getUser := fun _ => Throw (lit "fetch failed");
     listUsers := Throw (lit "fetch failed");
     resend := fun _ => Throw (lit "fetch failed");
     now := t1 |}.

(** No select of the statistics fails. *)
Definition no_faults : DocumentStats.Faults :=
  {| DocumentStats.docError := None; DocumentStats.chunkError := None;
     DocumentStats.typeError := None; DocumentStats.categoryError := None |}.

Definition sized_row (name : jsstring) (chunk_count : N) : DocumentMetadataRow :=
  {| dm_id := name; dm_title := name; dm_description := []; dm_category := None;
     dm_file_name := name ++ lit ".pdf"; dm_chunk_count := chunk_count;
     dm_file_type := lit "pdf" |}.

(** Three documents whose chunk counts are [2 ^ 53], 1 and 1. *)
Definition huge_library : World :=
  {| db := with_document_metadata
             (fun _ => [ sized_row (lit "a") (2 ^ 53); sized_row (lit "b") 1;
                         sized_row (lit "c") 1 ])
             empty_db;
     invoked := [] |}.

Definition bob_is_admin : World :=
  {| db := with_users (fun _ => [ {| u_id := lit "bob"; u_email := lit "bob@example.org";
                                     u_role := Some (lit "admin") |} ]) empty_db;
     invoked := [] |}.

Definition bob_attached : Middleware.Request :=
  {| Middleware.authorization := Some (lit "Bearer token-of-bob");
     Middleware.req_user := Some bob |}.

End MoreSamples.

(** * Properties *)

(** ** Strings *)

Section StringFacts.

Lemma length_lit_ellipsis : length ChatService.ellipsis = 3%nat.
Proof. reflexivity. Qed.

Lemma length_substring_le i j (s : jsstring) : (length (substring i j s) <= j - i)%nat.
Proof. unfold substring. rewrite length_take. lia. Qed.

End StringFacts.

(** ** Chat titles *)

Section ChatTitles.

Import ChatService.

Variable R : Remote.

(** The title [generateChatTitle] makes of what the model wrote. *)
Lemma capped_title_length (output : jsstring) :
  (length (if (50 <? length (trim output))%nat
           then substring 0 47 (trim output) ++ ellipsis
           else trim output) <= 50)%nat.
Proof.
  destruct (50 <? length (trim output))%nat eqn:Hlong.
  - rewrite length_app, length_lit_ellipsis.
    pose proof (length_substring_le 0 47 (trim output)). lia.
  - apply Nat.ltb_ge in Hlong. exact Hlong.
Qed.

Lemma set_title_stored sessionId title (sessions : list ChatSession) s :
  s ∈ map (set_title sessionId title) sessions ->
  cs_id s = sessionId -> cs_title s = title.
Proof.
  intros Hin Hid. apply list_elem_of_fmap in Hin as (s0 & -> & _).
  unfold set_title in *. destruct (decide (cs_id s0 = sessionId)); simpl in *; congruence.
Qed.

(** C5. The title [generateChatTitle] returns is never longer than 50 code
    units, whatever the session, the message and the model's answer. When
    the caller owns the session and the model answers [output], the title
    is [output] trimmed, cut to its first 47 code units followed by "..."
    when the trimmed text is longer than 50 and left as it is otherwise;
    and when the title update goes through, it is the title of the session
    in the store. *)
Theorem generateChatTitle_at_most_50 (userId sessionId message : jsstring) (w : World) :
  exists title w',
    generateChatTitle R userId sessionId message w = (Return title, w') /\
    (length title <= 50)%nat /\
    (forall output,
        fault R select_chat_sessions = None ->
        own_session userId sessionId (db w) = [sessionId] ->
        model R (title_prompt (substring 0 200 message)) = Return output ->
        title = (if (50 <? length (trim output))%nat
                 then substring 0 47 (trim output) ++ lit "..."
                 else trim output) /\
        (fault R update_chat_sessions_title = None ->
         forall s, s ∈ chat_sessions (db w') -> cs_id s = sessionId -> cs_title s = title)).
Proof.
  unfold generateChatTitle, try_catch, Async.bind, select_single, invoke, mutate, ret.
  destruct (fault R select_chat_sessions) as [e|] eqn:Hsel; simpl.
  { eexists _, _. split; [reflexivity|]. split; [vm_compute; lia|]. intros; discriminate. }
  destruct (own_session userId sessionId (db w)) as [|sid [|sid' rest]] eqn:Hown; simpl;
    try (eexists _, _; split; [reflexivity|]; split; [vm_compute; lia|];
         intros; discriminate).
  destruct (model R (title_prompt (substring 0 200 message))) as [output|e] eqn:Hmodel.
  - destruct (fault R update_chat_sessions_title) as [e|] eqn:Hupd; simpl;
      eexists _, _; (split; [reflexivity|]); (split; [apply capped_title_length|]);
      intros output' _ _ [= <-]; (split; [reflexivity|]); intros Hno; try discriminate.
    intros s Hin Hid. simpl in Hin. eapply set_title_stored; eauto.
  - eexists _, _. split; [reflexivity|]. split; [vm_compute; lia|]. intros; discriminate.
Qed.

End ChatTitles.

(** ** The chat pipeline *)

Section ChatPipeline.

Import ChatService.

Variable R : Remote.

Lemma filter_none {A} (P : A -> Prop) `{forall x, Decision (P x)} (l : list A) :
  (forall x, x ∈ l -> ~ P x) -> filter P l = [].
Proof.
  induction l as [|a l IH]; intros Hall; [reflexivity|].
  rewrite filter_cons. destruct (decide (P a)) as [Ha|_].
  - exfalso. apply (Hall a); [left | exact Ha].
  - apply IH. intros x Hx. apply Hall. now right.
Qed.

Lemma no_history_not_empty : no_history <> [].
Proof. discriminate. Qed.

Lemma no_context_not_empty : no_context <> [].
Proof. discriminate. Qed.

(** [loadChatHistory] always resolves, and leaves the store alone. *)
Lemma loadChatHistory_returns (sessionId : jsstring) (w : World) :
  exists history, loadChatHistory R sessionId w = (Return history, w).
Proof.
  unfold loadChatHistory, Async.bind, select_rows, ret.
  destruct (fault R select_chat_messages); simpl; [eauto|].
  destruct (order _ _); eauto.
Qed.

Lemma loadChatHistory_on_error (sessionId : jsstring) (w : World) :
  fault R select_chat_messages <> None ->
  loadChatHistory R sessionId w = (Return no_history, w).
Proof.
  intros Herr. unfold loadChatHistory, Async.bind, select_rows, ret.
  destruct (fault R select_chat_messages); [reflexivity | congruence].
Qed.

Lemma loadChatHistory_on_empty (sessionId : jsstring) (w : World) :
  (forall m, m ∈ chat_messages (db w) -> cm_session_id m <> sessionId) ->
  loadChatHistory R sessionId w = (Return no_history, w).
Proof.
  intros Hnone. unfold loadChatHistory, Async.bind, select_rows, ret.
  destruct (fault R select_chat_messages); [reflexivity|]. simpl.
  rewrite filter_none by exact Hnone. reflexivity.
Qed.

(** The prompts [processMessage] sends once the history is loaded. *)
Lemma processMessage_prompts (userId sessionId message : jsstring)
    (category : option jsstring) (w : World) (history query : jsstring)
    (documents : list Document) :
  loadChatHistory R sessionId w = (Return history, w) ->
  model R (query_prompt history message) = Return query ->
  (if truthy category
   then similaritySearch R query (similaritySearchResults R) category
   else similaritySearch R query (similaritySearchResults R) None) = Return documents ->
  invoked (processMessage R userId sessionId message category w).2 =
  invoked w ++
    [ query_prompt history message;
      chat_prompt history message
        (if (0 <? length (context_of documents))%nat
         then context_of documents else no_context) ].
Proof.
  intros Hhist Hquery Hsearch.
  unfold processMessage, try_catch, Async.bind, generateSearchQuery, invoke, await.
  rewrite Hhist. simpl. rewrite Hquery, Hsearch. simpl.
  unfold saveChatMessage, Async.bind, mutate, throw, ret.
  destruct (model R (chat_prompt _ _ _)); simpl;
    [destruct (fault R insert_chat_messages); simpl;
     [|destruct (fault R update_chat_sessions_last_message_at); simpl]|];
    rewrite <- app_assoc; reflexivity.
Qed.

(** C8. For a session without prior messages, and also when the history
    query reports an error, [loadChatHistory] returns the fixed text
    "No previous conversation history." (not the empty string), and that text
    fills the history slot of the prompts [processMessage] sends. *)
Theorem loadChatHistory_sentinel (sessionId : jsstring) (w : World) :
  fault R select_chat_messages <> None \/
  (forall m, m ∈ chat_messages (db w) -> cm_session_id m <> sessionId) ->
  loadChatHistory R sessionId w = (Return (lit "No previous conversation history."), w) /\
  lit "No previous conversation history." <> [] /\
  forall userId message category query documents,
    model R (query_prompt (lit "No previous conversation history.") message) = Return query ->
    (if truthy category
     then similaritySearch R query (similaritySearchResults R) category
     else similaritySearch R query (similaritySearchResults R) None) = Return documents ->
    invoked (processMessage R userId sessionId message category w).2 =
    invoked w ++
      [ query_prompt (lit "No previous conversation history.") message;
        chat_prompt (lit "No previous conversation history.") message
          (if (0 <? length (context_of documents))%nat
           then context_of documents else no_context) ].
Proof.
  intros Hcase.
  assert (Hload : loadChatHistory R sessionId w = (Return no_history, w)).
  { destruct Hcase; [apply loadChatHistory_on_error | apply loadChatHistory_on_empty]; assumption. }
  split; [exact Hload|]. split; [exact no_history_not_empty|].
  intros userId message category query documents Hquery Hsearch.
  exact (processMessage_prompts userId sessionId message category w _ query documents
           Hload Hquery Hsearch).
Qed.

(** What [processMessage] resolves to when every step works. *)
Lemma processMessage_returns (userId sessionId message : jsstring)
    (category : option jsstring) (w : World) (history query response : jsstring)
    (documents : list Document) :
  loadChatHistory R sessionId w = (Return history, w) ->
  model R (query_prompt history message) = Return query ->
  (if truthy category
   then similaritySearch R query (similaritySearchResults R) category
   else similaritySearch R query (similaritySearchResults R) None) = Return documents ->
  model R (chat_prompt history message
             (if (0 <? length (context_of documents))%nat
              then context_of documents else no_context)) = Return response ->
  fault R insert_chat_messages = None ->
  (processMessage R userId sessionId message category w).1 =
  Return {| reply := response;
            sources := if (0 <? length documents)%nat
                       then Some (map source_of documents) else None |} /\
  chat_messages (db (processMessage R userId sessionId message category w).2) =
  chat_messages (db w) ++
    [ {| cm_user_id := userId; cm_session_id := sessionId; cm_user_message := message;
         cm_ai_response := response; cm_created_at := now R |} ].
Proof.
  intros Hhist Hquery Hsearch Hmodel Hinsert.
  unfold processMessage, try_catch, Async.bind, generateSearchQuery, invoke, await.
  rewrite Hhist. simpl. rewrite Hquery, Hsearch. simpl. rewrite Hmodel. simpl.
  unfold saveChatMessage, Async.bind, mutate, throw, ret. rewrite Hinsert. simpl.
  destruct (fault R update_chat_sessions_last_message_at); simpl; split; reflexivity.
Qed.

(** C2. When the similarity search finds no document, the context slot of the
    prompt [processMessage] sends is the fixed text
    "No specific information available on this topic." (not the empty
    string), every response it returns has no [sources], and it does return
    such a response once the model answers and the message is saved. *)
Theorem processMessage_without_documents (userId sessionId message : jsstring)
    (category : option jsstring) (w : World) (history query : jsstring) :
  loadChatHistory R sessionId w = (Return history, w) ->
  model R (query_prompt history message) = Return query ->
  (if truthy category
   then similaritySearch R query (similaritySearchResults R) category
   else similaritySearch R query (similaritySearchResults R) None) = Return [] ->
  invoked (processMessage R userId sessionId message category w).2 =
    invoked w ++
      [ query_prompt history message;
        chat_prompt history message
          (lit "No specific information available on this topic.") ] /\
  lit "No specific information available on this topic." <> [] /\
  (forall r, (processMessage R userId sessionId message category w).1 = Return r ->
             sources r = None) /\
  (forall response,
      model R (chat_prompt history message
                 (lit "No specific information available on this topic.")) = Return response ->
      fault R insert_chat_messages = None ->
      (processMessage R userId sessionId message category w).1 =
      Return {| reply := response; sources := None |}).
Proof.
  intros Hhist Hquery Hsearch.
  split; [|split; [exact no_context_not_empty|split]].
  - rewrite (processMessage_prompts _ _ _ _ _ _ _ _ Hhist Hquery Hsearch). reflexivity.
  - intros r.
    unfold processMessage, try_catch, Async.bind, generateSearchQuery, invoke, await.
    rewrite Hhist. simpl. rewrite Hquery, Hsearch. simpl.
    unfold saveChatMessage, Async.bind, mutate, throw, ret.
    destruct (model R (chat_prompt _ _ _)); simpl; [|discriminate].
    destruct (fault R insert_chat_messages); simpl; [discriminate|].
    destruct (fault R update_chat_sessions_last_message_at); simpl;
      intros [= <-]; reflexivity.
  - intros response Hmodel Hinsert.
    now destruct (processMessage_returns userId _ _ _ _ _ _ _ _ Hhist Hquery Hsearch Hmodel Hinsert).
Qed.

End ChatPipeline.

(** ** Failures in the chat pipeline *)

Section ChatFailures.

Import ChatService.

Variable R : Remote.

Lemma processMessage_rewrite_throws userId sessionId message category w history e :
  loadChatHistory R sessionId w = (Return history, w) ->
  model R (query_prompt history message) = Throw e ->
  (processMessage R userId sessionId message category w).1 =
    Throw (lit "Failed to process message: " ++ e) /\
  db (processMessage R userId sessionId message category w).2 = db w.
Proof.
  intros Hhist Hquery.
  unfold processMessage, try_catch, Async.bind, generateSearchQuery, invoke, await, throw.
  rewrite Hhist. simpl. rewrite Hquery. split; reflexivity.
Qed.

Lemma processMessage_search_throws userId sessionId message category w history query e :
  loadChatHistory R sessionId w = (Return history, w) ->
  model R (query_prompt history message) = Return query ->
  (if truthy category
   then similaritySearch R query (similaritySearchResults R) category
   else similaritySearch R query (similaritySearchResults R) None) = Throw e ->
  (processMessage R userId sessionId message category w).1 =
    Throw (lit "Failed to process message: " ++ e) /\
  db (processMessage R userId sessionId message category w).2 = db w.
Proof.
  intros Hhist Hquery Hsearch.
  unfold processMessage, try_catch, Async.bind, generateSearchQuery, invoke, await, throw.
  rewrite Hhist. simpl. rewrite Hquery, Hsearch. split; reflexivity.
Qed.

Lemma processMessage_model_throws userId sessionId message category w history query
    documents e :
  loadChatHistory R sessionId w = (Return history, w) ->
  model R (query_prompt history message) = Return query ->
  (if truthy category
   then similaritySearch R query (similaritySearchResults R) category
   else similaritySearch R query (similaritySearchResults R) None) = Return documents ->
  model R (chat_prompt history message
             (if (0 <? length (context_of documents))%nat
              then context_of documents else no_context)) = Throw e ->
  (processMessage R userId sessionId message category w).1 =
    Throw (lit "Failed to process message: " ++ e) /\
  db (processMessage R userId sessionId message category w).2 = db w.
Proof.
  intros Hhist Hquery Hsearch Hmodel.
  unfold processMessage, try_catch, Async.bind, generateSearchQuery, invoke, await, throw.
  rewrite Hhist. simpl. rewrite Hquery, Hsearch. simpl. rewrite Hmodel. split; reflexivity.
Qed.

Lemma processMessage_insert_fails userId sessionId message category w history query
    documents response e :
  loadChatHistory R sessionId w = (Return history, w) ->
  model R (query_prompt history message) = Return query ->
  (if truthy category
   then similaritySearch R query (similaritySearchResults R) category
   else similaritySearch R query (similaritySearchResults R) None) = Return documents ->
  model R (chat_prompt history message
             (if (0 <? length (context_of documents))%nat
              then context_of documents else no_context)) = Return response ->
  fault R insert_chat_messages = Some e ->
  (processMessage R userId sessionId message category w).1 =
    Throw (lit "Failed to process message: " ++ (lit "Failed to save chat message: " ++ e)) /\
  db (processMessage R userId sessionId message category w).2 = db w.
Proof.
  intros Hhist Hquery Hsearch Hmodel Hinsert.
  unfold processMessage, try_catch, Async.bind, generateSearchQuery, invoke, await, throw.
  rewrite Hhist. simpl. rewrite Hquery, Hsearch. simpl. rewrite Hmodel. simpl.
  unfold saveChatMessage, Async.bind, mutate, throw. rewrite Hinsert. split; reflexivity.
Qed.

Lemma processMessage_touch_fails userId sessionId message category w history query
    documents response e :
  loadChatHistory R sessionId w = (Return history, w) ->
  model R (query_prompt history message) = Return query ->
  (if truthy category
   then similaritySearch R query (similaritySearchResults R) category
   else similaritySearch R query (similaritySearchResults R) None) = Return documents ->
  model R (chat_prompt history message
             (if (0 <? length (context_of documents))%nat
              then context_of documents else no_context)) = Return response ->
  fault R insert_chat_messages = None ->
  fault R update_chat_sessions_last_message_at = Some e ->
  (processMessage R userId sessionId message category w).1 =
    Return {| reply := response;
              sources := if (0 <? length documents)%nat
                         then Some (map source_of documents) else None |} /\
  chat_messages (db (processMessage R userId sessionId message category w).2) =
    chat_messages (db w) ++
      [ {| cm_user_id := userId; cm_session_id := sessionId; cm_user_message := message;
           cm_ai_response := response; cm_created_at := now R |} ] /\
  chat_sessions (db (processMessage R userId sessionId message category w).2) =
    chat_sessions (db w).
Proof.
  intros Hhist Hquery Hsearch Hmodel Hinsert Htouch.
  unfold processMessage, try_catch, Async.bind, generateSearchQuery, invoke, await, throw.
  rewrite Hhist. simpl. rewrite Hquery, Hsearch. simpl. rewrite Hmodel. simpl.
  unfold saveChatMessage, Async.bind, mutate, throw, ret. rewrite Hinsert. simpl.
  rewrite Htouch. repeat split; reflexivity.
Qed.

(** C3, as the code has it. A failing history query does not abort
    [processMessage]: the history becomes the "no history" text and the
    pipeline goes on. With the history loaded, an exception of the query
    rewrite, of the similarity search or of the model invocation aborts with
    the error "Failed to process message: " followed by its cause and nothing
    is written; so does an error of the message insert. An error of the
    update of [last_message_at] is swallowed: the response is returned, the
    message stays inserted and the sessions are as they were. *)
Theorem processMessage_failure_policy (userId sessionId message : jsstring)
    (category : option jsstring) (w : World) :
  (fault R select_chat_messages <> None ->
   loadChatHistory R sessionId w = (Return (lit "No previous conversation history."), w)) /\
  exists history,
    loadChatHistory R sessionId w = (Return history, w) /\
    (forall e,
        model R (query_prompt history message) = Throw e ->
        (processMessage R userId sessionId message category w).1 =
          Throw (lit "Failed to process message: " ++ e) /\
        db (processMessage R userId sessionId message category w).2 = db w) /\
    forall query,
      model R (query_prompt history message) = Return query ->
      (forall e,
          (if truthy category
           then similaritySearch R query (similaritySearchResults R) category
           else similaritySearch R query (similaritySearchResults R) None) = Throw e ->
          (processMessage R userId sessionId message category w).1 =
            Throw (lit "Failed to process message: " ++ e) /\
          db (processMessage R userId sessionId message category w).2 = db w) /\
      forall documents,
        (if truthy category
         then similaritySearch R query (similaritySearchResults R) category
         else similaritySearch R query (similaritySearchResults R) None) = Return documents ->
        (forall e,
            model R (chat_prompt history message
                       (if (0 <? length (context_of documents))%nat
                        then context_of documents else no_context)) = Throw e ->
            (processMessage R userId sessionId message category w).1 =
              Throw (lit "Failed to process message: " ++ e) /\
            db (processMessage R userId sessionId message category w).2 = db w) /\
        forall response,
          model R (chat_prompt history message
                     (if (0 <? length (context_of documents))%nat
                      then context_of documents else no_context)) = Return response ->
          (forall e,
              fault R insert_chat_messages = Some e ->
              (processMessage R userId sessionId message category w).1 =
                Throw (lit "Failed to process message: " ++
                       (lit "Failed to save chat message: " ++ e)) /\
              db (processMessage R userId sessionId message category w).2 = db w) /\
          (forall e,
              fault R insert_chat_messages = None ->
              fault R update_chat_sessions_last_message_at = Some e ->
              (processMessage R userId sessionId message category w).1 =
                Return {| reply := response;
                          sources := if (0 <? length documents)%nat
                                     then Some (map source_of documents) else None |} /\
              chat_messages (db (processMessage R userId sessionId message category w).2) =
                chat_messages (db w) ++
                  [ {| cm_user_id := userId; cm_session_id := sessionId;
                       cm_user_message := message; cm_ai_response := response;
                       cm_created_at := now R |} ] /\
              chat_sessions (db (processMessage R userId sessionId message category w).2) =
                chat_sessions (db w)).
Proof.
  split; [apply loadChatHistory_on_error|].
  destruct (loadChatHistory_returns R sessionId w) as [history Hhist].
  exists history. split; [exact Hhist|]. split.
  { intros e; intros; eapply processMessage_rewrite_throws; eauto. }
  intros query Hquery. split.
  { intros e; intros; eapply processMessage_search_throws; eauto. }
  intros documents Hsearch. split.
  { intros e; intros; eapply processMessage_model_throws; eauto. }
  intros response Hmodel. split.
  - intros e; intros; eapply processMessage_insert_fails; eauto.
  - intros e; intros; eapply processMessage_touch_fails; eauto.
Qed.

End ChatFailures.

(** C3, as stated, fails at the first step: with the history query reporting
    an error and every other call working, [processMessage] does not abort
    but returns the model's response. *)
Lemma processMessage_survives_history_failure :
  let R := Samples.failing select_chat_messages (lit "connection lost") (lit "I am here.") in
  fault R select_chat_messages = Some (lit "connection lost") /\
  (ChatService.processMessage R Samples.alice Samples.session1 (lit "hello") None
     Samples.one_session).1 =
    Return {| ChatService.reply := lit "I am here."; ChatService.sources := None |} /\
  ~ exists e,
      (ChatService.processMessage R Samples.alice Samples.session1 (lit "hello") None
         Samples.one_session).1 = Throw e.
Proof.
  cbv zeta. split; [reflexivity|]. split; [vm_compute; reflexivity|].
  intros [e He]. vm_compute in He. discriminate.
Qed.

(** ** Ownership of chat sessions *)

Section SessionOwnership.

Import ChatService.

Variable R : Remote.

Lemma own_session_none userId sessionId (d : Database) :
  (forall s, s ∈ chat_sessions d -> cs_id s = sessionId -> cs_user_id s <> userId) ->
  own_session userId sessionId d = [].
Proof.
  intros Hforeign. unfold own_session. rewrite filter_none; [reflexivity|].
  intros s Hs [Hid Huser]. exact (Hforeign s Hs Hid Huser).
Qed.

(** [deleteChatSession] deletes nothing of a session the caller does not own. *)
Lemma deleteChatSession_requires_owner userId sessionId (w : World) :
  (forall s, s ∈ chat_sessions (db w) -> cs_id s = sessionId -> cs_user_id s <> userId) ->
  deleteChatSession R userId sessionId w = (Return false, w).
Proof.
  intros Hforeign. unfold deleteChatSession, try_catch, Async.bind, select_single, ret.
  destruct (fault R select_chat_sessions); [reflexivity|].
  rewrite own_session_none by exact Hforeign. reflexivity.
Qed.

(** [updateChatTitle] updates nothing of a session the caller does not own. *)
Lemma updateChatTitle_requires_owner userId sessionId title (w : World) :
  (forall s, s ∈ chat_sessions (db w) -> cs_id s = sessionId -> cs_user_id s <> userId) ->
  updateChatTitle R userId sessionId title w = (Return false, w).
Proof.
  intros Hforeign. unfold updateChatTitle, try_catch, Async.bind, select_single, ret.
  destruct (fault R select_chat_sessions); [reflexivity|].
  rewrite own_session_none by exact Hforeign. reflexivity.
Qed.

(** [generateChatTitle] as well leaves a foreign session as it is. *)
Lemma generateChatTitle_requires_owner userId sessionId message (w : World) :
  (forall s, s ∈ chat_sessions (db w) -> cs_id s = sessionId -> cs_user_id s <> userId) ->
  generateChatTitle R userId sessionId message w = (Return new_conversation, w).
Proof.
  intros Hforeign. unfold generateChatTitle, try_catch, Async.bind, select_single, ret.
  destruct (fault R select_chat_sessions); [reflexivity|].
  rewrite own_session_none by exact Hforeign. reflexivity.
Qed.

(** [saveChatMessage] never reads the owner of the session: whoever the
    caller is, the message is inserted and the session touched. *)
Lemma saveChatMessage_writes userId sessionId userMessage aiResponse (w : World) :
  fault R insert_chat_messages = None ->
  fault R update_chat_sessions_last_message_at = None ->
  saveChatMessage R userId sessionId userMessage aiResponse w =
  (Return tt,
   on_db (with_chat_sessions (map (set_last_message_at sessionId (now R))))
     (on_db (with_chat_messages (fun rows => rows ++
        [ {| cm_user_id := userId; cm_session_id := sessionId;
             cm_user_message := userMessage; cm_ai_response := aiResponse;
             cm_created_at := now R |} ])) w)).
Proof.
  intros Hinsert Htouch. unfold saveChatMessage, Async.bind, mutate, ret.
  rewrite Hinsert. simpl. rewrite Htouch. reflexivity.
Qed.

End SessionOwnership.

(** C1 at a concrete request. Mallory posts a message with the id of
    Alice's session: [processMessage] inserts the message into that session
    and moves its [last_message_at], although the session's [user_id] is not
    the caller's; the sibling write paths refuse such a caller. *)
Theorem processMessage_writes_to_foreign_session :
  let R := Samples.calm (lit "I am here.") in
  let w := Samples.one_session in
  let w' := (ChatService.processMessage R Samples.mallory Samples.session1
               (lit "hello") None w).2 in
  chat_sessions (db w) = [Samples.alice_session] /\
  cs_user_id Samples.alice_session <> Samples.mallory /\
  chat_messages (db w) = [] /\
  chat_messages (db w') =
    [ {| cm_user_id := Samples.mallory; cm_session_id := Samples.session1;
         cm_user_message := lit "hello"; cm_ai_response := lit "I am here.";
         cm_created_at := Samples.t1 |} ] /\
  chat_sessions (db w') =
    [ {| cs_id := Samples.session1; cs_user_id := Samples.alice; cs_title := lit "Sleep";
         cs_created_at := Samples.t0; cs_last_message_at := Samples.t1 |} ] /\
  ChatService.deleteChatSession R Samples.mallory Samples.session1 w = (Return false, w) /\
  ChatService.updateChatTitle R Samples.mallory Samples.session1 (lit "Mine") w =
    (Return false, w).
Proof.
  cbv zeta. repeat split; try (vm_compute; reflexivity).
  vm_compute. discriminate.
Qed.

(** ** Deleting a document *)

Section DeleteDocument.

Import DocumentService.

Variable R : Remote.

Lemma chunks_absent documentId (rows : list Document) row :
  row ∈ filter (fun row => md_documentId (metadata row) <> Some documentId) rows ->
  md_documentId (metadata row) <> Some documentId.
Proof. intros Hin. now apply list_elem_of_filter in Hin as [? _]. Qed.

Lemma metadata_absent documentId (rows : list DocumentMetadataRow) row :
  row ∈ filter (fun row => dm_id row <> documentId) rows -> dm_id row <> documentId.
Proof. intros Hin. now apply list_elem_of_filter in Hin as [? _]. Qed.

(** C4. [deleteDocument] first deletes the vector rows whose [documentId]
    is the given id, then the metadata row. It always resolves to a result,
    which is a success exactly when both deletions went through. When the
    first fails nothing is deleted and the second is not attempted. When the
    first goes through and the second fails, the result is the one failure
    message, the chunks stay deleted (no vector row of the document is
    left, and the others are kept) and the metadata table is as it was. When
    both go through neither store has a row of the document left. *)
Theorem deleteDocument_outcome (documentId : jsstring) (w : World) :
  exists result w',
    deleteDocument R documentId w = (Return result, w') /\
    (success result = true <->
     fault R delete_documents = None /\ fault R delete_document_metadata = None) /\
    (forall e,
        fault R delete_documents = Some e ->
        result = {| success := false;
                    message := lit "Error deleting document: " ++
                               (lit "Failed to delete document chunks: " ++ e) |} /\
        w' = w) /\
    (fault R delete_documents = None ->
     documents (db w') =
       filter (fun row => md_documentId (metadata row) <> Some documentId) (documents (db w)) /\
     (forall row, row ∈ documents (db w') -> md_documentId (metadata row) <> Some documentId) /\
     (forall e,
         fault R delete_document_metadata = Some e ->
         result = {| success := false;
                     message := lit "Error deleting document: " ++
                                (lit "Failed to delete document metadata: " ++ e) |} /\
         document_metadata (db w') = document_metadata (db w)) /\
     (fault R delete_document_metadata = None ->
      result = {| success := true; message := lit "Document successfully deleted" |} /\
      document_metadata (db w') =
        filter (fun row => dm_id row <> documentId) (document_metadata (db w)) /\
      forall row, row ∈ document_metadata (db w') -> dm_id row <> documentId)).
Proof.
  unfold deleteDocument, try_catch, Async.bind, mutate, throw, ret.
  destruct (fault R delete_documents) as [e1|] eqn:Hvec; simpl.
  { eexists _, _. split; [reflexivity|]. split; [|split].
    - simpl. split; [discriminate | intros [? _]; discriminate].
    - intros e [= <-]. split; reflexivity.
    - discriminate. }
  destruct (fault R delete_document_metadata) as [e2|] eqn:Hmeta; simpl.
  - eexists _, _. split; [reflexivity|]. split; [|split].
    + simpl. split; [discriminate | intros [_ ?]; discriminate].
    + discriminate.
    + intros _. split; [reflexivity|]. split; [intros row; apply chunks_absent|]. split.
      * intros e [= <-]. split; reflexivity.
      * discriminate.
  - eexists _, _. split; [reflexivity|]. split; [|split].
    + simpl. split; [intros _; split; reflexivity | reflexivity].
    + discriminate.
    + intros _. split; [reflexivity|]. split; [intros row; apply chunks_absent|]. split.
      * discriminate.
      * intros _. split; [reflexivity|]. split; [reflexivity|].
        intros row. apply metadata_absent.
Qed.

End DeleteDocument.

(** ** Document categories *)

Section Categories.

Import DocumentService.

Variable R : Remote.

Lemma elem_of_insert_by {A} (leb : A -> A -> bool) (x y : A) (l : list A) :
  y ∈ insert_by leb x l <-> y = x \/ y ∈ l.
Proof.
  induction l as [|a l IH]; simpl.
  - rewrite list_elem_of_singleton, elem_of_nil. tauto.
  - destruct (leb x a); rewrite !elem_of_cons; [tauto|]. rewrite IH. tauto.
Qed.

(** Ordering the rows neither adds nor loses one. *)
Lemma elem_of_order {A} (leb : A -> A -> bool) (y : A) (l : list A) :
  y ∈ order leb l <-> y ∈ l.
Proof.
  unfold order. induction l as [|a l IH]; simpl; [reflexivity|].
  rewrite elem_of_insert_by, IH, elem_of_cons. reflexivity.
Qed.

Lemma Set_add_spec {A} `{EqDecision A} (seen : list A) (x y : A) :
  y ∈ Set_add seen x <-> y ∈ seen \/ y = x.
Proof.
  unfold Set_add. destruct (decide (x ∈ seen)) as [Hin|Hout].
  - split; [now left | intros [?| ->]; assumption].
  - rewrite elem_of_app, list_elem_of_singleton. reflexivity.
Qed.

Lemma Set_add_NoDup {A} `{EqDecision A} (seen : list A) (x : A) :
  NoDup seen -> NoDup (Set_add seen x).
Proof.
  intros Hnd. unfold Set_add. destruct (decide (x ∈ seen)) as [Hin|Hout]; [exact Hnd|].
  apply NoDup_app. split; [exact Hnd|]. split; [|apply NoDup_singleton].
  intros y Hy Hy'. apply list_elem_of_singleton in Hy'. subst. contradiction.
Qed.

Lemma foldl_Set_add {A} `{EqDecision A} (values seen : list A) :
  NoDup seen ->
  NoDup (foldl Set_add seen values) /\
  forall y, y ∈ foldl Set_add seen values <-> y ∈ seen \/ y ∈ values.
Proof.
  revert seen. induction values as [|x values IH]; intros seen Hnd; simpl.
  - split; [exact Hnd|]. intros y. rewrite elem_of_nil. tauto.
  - destruct (IH (Set_add seen x) (Set_add_NoDup seen x Hnd)) as [Hnd' Hin].
    split; [exact Hnd'|]. intros y. rewrite Hin, Set_add_spec, elem_of_cons. tauto.
Qed.

(** A [Set] holds every value once. *)
Lemma new_Set_NoDup {A} `{EqDecision A} (values : list A) : NoDup (new_Set values).
Proof. apply foldl_Set_add, NoDup_nil_2. Qed.

Lemma elem_of_new_Set {A} `{EqDecision A} (values : list A) (y : A) :
  y ∈ new_Set values <-> y ∈ values.
Proof.
  unfold new_Set. destruct (foldl_Set_add values [] (NoDup_nil_2 (A:=A))) as [_ Hin].
  rewrite Hin, elem_of_nil. tauto.
Qed.

Lemma truthy_some (c : option jsstring) :
  truthy c = true <-> exists s, c = Some s /\ s <> [].
Proof.
  destruct c as [[|a s]|]; simpl; split; try discriminate; try reflexivity.
  - intros (s' & [= <-] & Hne). congruence.
  - intros _. exists (a :: s). split; [reflexivity | discriminate].
  - intros (s' & [=] & _).
Qed.

Lemma occurs_once {A} `{EqDecision A} (l : list A) (x : A) :
  NoDup l -> x ∈ l -> length (filter (fun y => y = x) l) = 1%nat.
Proof.
  induction 1 as [|a l Hnotin Hnd IH]; intros Hin; [now apply elem_of_nil in Hin|].
  rewrite filter_cons. destruct (decide (a = x)) as [->|Hne].
  - simpl. f_equal. rewrite filter_none; [reflexivity|]. intros y Hy ->. contradiction.
  - apply elem_of_cons in Hin as [->|Hin]; [congruence | now apply IH].
Qed.

Lemma distinct_categories_spec (data : list (option jsstring)) :
  NoDup (distinct_categories data) /\
  forall c, c ∈ distinct_categories data <-> truthy c = true /\ c ∈ data.
Proof.
  unfold distinct_categories. split.
  - apply NoDup_filter, new_Set_NoDup.
  - intros c. rewrite list_elem_of_filter, elem_of_new_Set. reflexivity.
Qed.

(** C9. Whatever the rows of [document_metadata], and however many of them
    share a category, [getCategories] (when the query goes through) returns
    a list without repetition; its members are exactly the categories of the
    table that are neither [null] nor empty, so the category of any document
    stored with one occurs in it exactly once. *)
Theorem getCategories_distinct (w : World) :
  fault R select_document_metadata = None ->
  exists categories,
    getCategories R w = (Return categories, w) /\
    NoDup categories /\
    (forall c, c ∈ categories -> exists s, c = Some s /\ s <> []) /\
    (forall c, c ∈ categories <->
               truthy c = true /\
               exists row, row ∈ document_metadata (db w) /\ dm_category row = c) /\
    (forall row, row ∈ document_metadata (db w) ->
                 truthy (dm_category row) = true ->
                 length (filter (fun c => c = dm_category row) categories) = 1%nat).
Proof.
  intros Hok. unfold getCategories, Async.bind, select_rows, throw, ret. rewrite Hok. simpl.
  eexists. split; [reflexivity|].
  set (data := order category_leb (map dm_category (document_metadata (db w)))).
  destruct (distinct_categories_spec data) as [Hnd Hin].
  assert (Hmem : forall c, c ∈ distinct_categories data <->
            truthy c = true /\
            exists row, row ∈ document_metadata (db w) /\ dm_category row = c).
  { intros c. rewrite Hin. unfold data. rewrite elem_of_order, list_elem_of_fmap.
    split; intros [Ht (row & H1 & H2)]; (split; [exact Ht|]); exists row; split; auto. }
  split; [exact Hnd|]. split; [|split; [exact Hmem|]].
  - intros c Hc. apply truthy_some. now apply Hin in Hc as [? _].
  - intros row Hrow Ht. apply occurs_once; [exact Hnd|]. apply Hmem. eauto.
Qed.

End Categories.

(** ** Profile updates *)

Section ProfileUpdates.

Import UserService.

Variable R : Remote.
Variable isUuid : jsstring -> bool.

Lemma elem_of_keys (o : object) (k : jsstring) : k ∈ keys o <-> is_Some (o !! k).
Proof.
  unfold keys. rewrite list_elem_of_fmap. split.
  - intros ([k' v] & -> & Hin). apply elem_of_map_to_list in Hin. eauto.
  - intros [v Hv]. exists (k, v). split; [reflexivity|]. now apply elem_of_map_to_list.
Qed.

Lemma keys_empty : keys ∅ = [].
Proof. unfold keys. now rewrite map_to_list_empty. Qed.

(** Copying the keys [l] of [fields] into [obj]. *)
Lemma copy_keys_lookup (fields : object) (l : list jsstring) (obj : object) (k : jsstring) :
  (forall a, a ∈ l -> is_Some (fields !! a)) ->
  foldl (fun obj key => from_option (fun v => <[key := v]> obj) obj (fields !! key)) obj l !! k =
  if decide (k ∈ l) then fields !! k else obj !! k.
Proof.
  revert obj. induction l as [|a l IH]; intros obj Hdom; simpl.
  - destruct (decide (k ∈ [])) as [Hin|_]; [now apply elem_of_nil in Hin | reflexivity].
  - rewrite IH by (intros b Hb; apply Hdom; now right).
    destruct (Hdom a) as [v Hv]; [now left|]. rewrite Hv. simpl.
    destruct (decide (k ∈ l)) as [Hin|Hout].
    + rewrite decide_True by now right. reflexivity.
    + destruct (decide (k = a)) as [->|Hne].
      * rewrite decide_True by now left. rewrite lookup_insert_eq. now rewrite Hv.
      * rewrite lookup_insert_ne by congruence.
        rewrite decide_False; [reflexivity|]. rewrite elem_of_cons. tauto.
Qed.

(** The patch holds the allowed keys of the request body and no other. *)
Lemma pick_allowed_lookup (fields : object) (k : jsstring) :
  pick_allowed fields !! k = if decide (k ∈ allowedFields) then fields !! k else None.
Proof.
  unfold pick_allowed. rewrite copy_keys_lookup.
  - destruct (decide (k ∈ filter _ (keys fields))) as [Hin|Hout].
    + apply list_elem_of_filter in Hin as [Hallowed _]. now rewrite decide_True.
    + rewrite lookup_empty. destruct (decide (k ∈ allowedFields)) as [Hallowed|]; [|reflexivity].
      destruct (fields !! k) as [v|] eqn:Hk; [|reflexivity].
      exfalso. apply Hout, list_elem_of_filter. split; [exact Hallowed|].
      apply elem_of_keys. eauto.
  - intros a Ha. apply list_elem_of_filter in Ha as [_ Ha]. now apply elem_of_keys.
Qed.

Lemma patch_row_frame (userId : jsstring) (fields row : object) (t : timestamp) (column : jsstring) :
  ~ writable column ->
  patch_row userId (<[lit "updated_at" := JString t]> (pick_allowed fields)) row !! column =
  row !! column.
Proof.
  intros Hframe. unfold patch_row. destruct (decide (has_id userId row)); [|reflexivity].
  rewrite lookup_union_r; [reflexivity|].
  rewrite lookup_insert_ne by (intros <-; apply Hframe; now right).
  rewrite pick_allowed_lookup, decide_False; [reflexivity|].
  intros Hin. apply Hframe. now left.
Qed.

Lemma patch_row_allowed (userId : jsstring) (fields row : object) (t : timestamp) (column : jsstring) :
  has_id userId row ->
  column ∈ allowedFields ->
  patch_row userId (<[lit "updated_at" := JString t]> (pick_allowed fields)) row !! column =
  match fields !! column with
  | Some v => Some v
  | None => row !! column
  end.
Proof.
  intros Hid Hallowed. unfold patch_row. rewrite decide_True by exact Hid.
  rewrite lookup_union.
  rewrite lookup_insert_ne.
  - rewrite pick_allowed_lookup, decide_True by exact Hallowed.
    destruct (fields !! column), (row !! column); reflexivity.
  - intros <-. revert Hallowed. unfold allowedFields. rewrite !elem_of_cons, elem_of_nil.
    intros [H|[H|[H|[]]]]; vm_compute in H; discriminate.
Qed.

(** The two ways a call ends: refused or failed, with nothing written, or
    the one row of the user patched. *)
Lemma updateUserProfile_run (userId : jsstring) (profileData : option object) (w : World) :
  (exists result,
      updateUserProfile R isUuid userId profileData w = (Return result, w) /\
      status result = false /\
      (profileData = None \/ profileData = Some ∅ -> statusCode result = Some 400)) \/
  (exists fields row,
      profileData = Some fields /\
      updateUserProfile R isUuid userId profileData w =
        (Return {| status := true; msg := lit "Profile updated successfully";
                   statusCode := None; profile := Some row |},
         on_db (with_profiles
                  (map (patch_row userId
                          (<[lit "updated_at" := JString (now R)]> (pick_allowed fields))))) w)).
Proof.
  unfold updateUserProfile, try_catch, Async.bind, ret.
  destruct (falsy (Some userId) || negb (isUuid userId)); [left; eauto|].
  destruct profileData as [fields|]; [|left; eauto].
  destruct (bool_decide (length (keys fields) = 0%nat)) eqn:Hempty; [left; eauto|].
  assert (Hnonempty : ~ (Some fields = None \/ Some fields = Some ∅)).
  { intros [H|[= ->]]; [discriminate|]. rewrite keys_empty in Hempty.
    apply bool_decide_eq_false in Hempty. now apply Hempty. }
  unfold update_profile. destruct (fault R update_profiles) as [e|]; simpl.
  { left. eexists. split; [reflexivity|]. split; [reflexivity|]. intros H. now destruct Hnonempty. }
  destruct (filter (has_id userId) (profiles (db w))) as [|hit [|hit' rest]]; simpl.
  - left. eexists. split; [reflexivity|]. split; [reflexivity|]. intros H. now destruct Hnonempty.
  - right. eexists _, _. split; reflexivity.
  - left. eexists. split; [reflexivity|]. split; [reflexivity|]. intros H. now destruct Hnonempty.
Qed.

(** C10. [updateUserProfile] always resolves. The [profiles] table keeps its
    rows in place, and in every row every column other than [full_name],
    [avatar_url], [website] and [updated_at] keeps its value, whatever keys
    the request body carries; rows of other users are untouched, and no
    other table changes. On success the allowed columns of the user's row
    take the values the body gives them. A missing or empty body is
    answered with status code 400 and nothing is written. *)
Theorem updateUserProfile_frame (userId : jsstring) (profileData : option object) (w : World) :
  exists result w',
    updateUserProfile R isUuid userId profileData w = (Return result, w') /\
    invoked w' = invoked w /\
    (exists rows', db w' = with_profiles (fun _ => rows') (db w)) /\
    length (profiles (db w')) = length (profiles (db w)) /\
    (forall i row row',
        profiles (db w) !! i = Some row ->
        profiles (db w') !! i = Some row' ->
        (forall column,
            column ∉ [lit "full_name"; lit "avatar_url"; lit "website"; lit "updated_at"] ->
            row' !! column = row !! column) /\
        (~ has_id userId row -> row' = row) /\
        (forall fields,
            profileData = Some fields ->
            status result = true ->
            has_id userId row ->
            forall column,
              column ∈ [lit "full_name"; lit "avatar_url"; lit "website"] ->
              row' !! column = match fields !! column with
                               | Some v => Some v
                               | None => row !! column
                               end)) /\
    (profileData = None \/ profileData = Some ∅ ->
     status result = false /\ statusCode result = Some 400 /\ w' = w).
Proof.
  destruct (updateUserProfile_run userId profileData w)
    as [(result & Hrun & Hbad & Hcode) | (fields & hit & -> & Hrun)].
  - exists result, w. split; [exact Hrun|]. split; [reflexivity|].
    split; [exists (profiles (db w)); now destruct (db w)|]. split; [reflexivity|]. split.
    + intros i row row' Hrow Hrow'. assert (row' = row) as -> by congruence.
      split; [reflexivity|]. split; [reflexivity|]. intros ? _ Hs. congruence.
    + intros Hbody. auto.
  - eexists _, _. split; [exact Hrun|]. split; [reflexivity|]. split; [simpl; eauto|].
    split; [simpl; now rewrite length_map|]. split.
    + intros i row row' Hrow Hrow'. simpl in Hrow'.
      rewrite list_lookup_fmap, Hrow in Hrow'. injection Hrow' as <-.
      split; [|split].
      * intros column Hcolumn. apply patch_row_frame.
        intros [Hallowed| ->]; apply Hcolumn.
        -- unfold allowedFields in Hallowed. revert Hallowed. rewrite !elem_of_cons. tauto.
        -- rewrite !elem_of_cons. tauto.
      * intros Hother. unfold patch_row. now rewrite decide_False.
      * intros fields' [= <-] _ Hmine column Hcolumn. now apply patch_row_allowed.
    + intros [H|[= ->]]; [discriminate|].
      exfalso. revert Hrun. unfold updateUserProfile, try_catch, Async.bind, ret.
      destruct (falsy (Some userId) || negb (isUuid userId)); [discriminate|].
      rewrite keys_empty. simpl. discriminate.
Qed.

End ProfileUpdates.

(** ** Resending a verification code *)

Section ResendOtp.

Import AuthService.

Variable R : Remote.

Lemma find_some {A} (p : A -> bool) (l : list A) (x : A) :
  x ∈ l -> p x = true -> exists y, find p l = Some y.
Proof.
  induction l as [|a l IH]; intros Hin Hp; [now apply elem_of_nil in Hin|].
  simpl. destruct (p a) eqn:Ha; [eauto|].
  apply elem_of_cons in Hin as [->|Hin]; [congruence | now apply IH].
Qed.

Lemma find_elem {A} (p : A -> bool) (l : list A) (x : A) :
  find p l = Some x -> x ∈ l /\ p x = true.
Proof.
  induction l as [|a l IH]; simpl; [discriminate|].
  destruct (p a) eqn:Ha.
  - intros [= <-]. split; [left | exact Ha].
  - intros Hfind. destruct (IH Hfind). split; [now right | assumption].
Qed.

(** C7, as the code has it. [resendOtp] always returns, and leaves the state
    as it is. When the email is not empty, the identity provider lists an
    account with it and answers the resend with an error whose message says
    "already confirmed", the result is the failure with status code 400 and
    the message "Email is already verified. Please login instead."; the
    confirmation of the account is read nowhere else. No other answer of
    [resendOtp] carries that message, unless another error of the resend has
    this very message, which is then passed on as it is: a result with this
    message is a failure with code 400 for a listed address whose resend the
    provider refused, so it is none of: the generic failure (500), a missing
    email, a failed listing, an unlisted address (404), the rate limit (429)
    or the success. *)
Theorem resendOtp_already_confirmed (email_ : jsstring) (w : World) :
  exists result,
    resendOtp R email_ w = (Return result, w) /\
    (forall accounts account resent message,
        email_ <> [] ->
        listUsers R = Return {| data := Some accounts; error := None |} ->
        account ∈ accounts ->
        email account = Some email_ ->
        resend R email_ = Return {| data := resent; error := Some message |} ->
        includes message (lit "already confirmed") = true ->
        result = {| status := false;
                    msg := lit "Email is already verified. Please login instead.";
                    statusCode := Some 400 |}) /\
    (msg result = lit "Email is already verified. Please login instead." ->
     status result = false /\
     statusCode result = Some 400 /\
     email_ <> [] /\
     exists accounts account resent message,
       listUsers R = Return {| data := Some accounts; error := None |} /\
       account ∈ accounts /\
       email account = Some email_ /\
       resend R email_ = Return {| data := resent; error := Some message |} /\
       (includes message (lit "already confirmed") = true \/
        message = lit "Email is already verified. Please login instead.")).
Proof.
  unfold resendOtp, try_catch, Async.bind, await, ret.
  destruct email_ as [|c email_]; cbn [falsy].
  { eexists. split; [reflexivity|]. cbn. split; [intros; congruence|].
    intros Hmsg. vm_compute in Hmsg. discriminate. }
  destruct (listUsers R) as [[listed [e|]]|e] eqn:Hlist; cbn [defined error data].
  - eexists. split; [reflexivity|]. cbn. split; [intros ? ? ? ? _ [=]|].
    intros Hmsg. vm_compute in Hmsg. discriminate.
  - destruct listed as [accounts|]; cbn [mbind option_bind].
    + destruct (find _ accounts) as [account|] eqn:Hfind.
      * apply find_elem in Hfind as [Hlisted Hmail]. apply bool_decide_eq_true in Hmail.
        destruct (resend R (c :: email_)) as [[sent [e|]]|e] eqn:Hresend; cbn [error].
        -- destruct (includes e (lit "already confirmed")) eqn:Hconfirmed.
           { eexists. split; [reflexivity|]. cbn. split; [reflexivity|].
             intros _. repeat split; try discriminate.
             exists accounts, account, sent, e. repeat split; auto. }
           destruct (includes e (lit "rate limit")) eqn:Hlimit.
           { eexists. split; [reflexivity|]. cbn.
             split; [intros ? ? ? ? _ _ _ _ [= <-]; congruence|].
             intros Hmsg. vm_compute in Hmsg. discriminate. }
           eexists. split; [reflexivity|]. cbn.
           split; [intros ? ? ? ? _ _ _ _ [= <-]; congruence|].
           intros ->. repeat split; try discriminate.
           exists accounts, account, sent. eexists. repeat split; eauto.
        -- eexists. split; [reflexivity|]. cbn. split; [intros ? ? ? ? _ _ _ _ [=]|].
           intros Hmsg. vm_compute in Hmsg. discriminate.
        -- eexists. split; [reflexivity|]. cbn. split; [intros ? ? ? ? _ _ _ _ [=]|].
           intros Hmsg. vm_compute in Hmsg. discriminate.
      * eexists. split; [reflexivity|]. cbn. split.
        -- intros accounts' account resent message _ [= <-] Hin Hmail _ _.
           destruct (find_some (fun u => bool_decide (email u = Some (c :: email_)))
                       accounts account Hin) as [found Hfound];
             [now apply bool_decide_eq_true | congruence].
        -- intros Hmsg. vm_compute in Hmsg. discriminate.
    + eexists. split; [reflexivity|]. cbn. split; [intros ? ? ? ? _ [=]|].
      intros Hmsg. vm_compute in Hmsg. discriminate.
  - eexists. split; [reflexivity|]. cbn. split; [intros ? ? ? ? _ [=]|].
    intros Hmsg. vm_compute in Hmsg. discriminate.
Qed.

End ResendOtp.

(** C7, as stated, fails: what [resendOtp] answers for the address of a
    confirmed account is what the provider's answers make it. Bob's address
    is confirmed and the provider lists him. When the provider accepts the
    resend, the result is the success; when the provider answers with its
    rate limit, the result is the failure 429. Neither is the failure 400
    with "Email is already verified. Please login instead.". *)
Lemma resendOtp_confirmed_account_other_answers :
  email Samples.bob = Some (lit "bob@example.org") /\
  email_confirmed_at Samples.bob = Some Samples.t0 /\
  AuthService.resendOtp (Samples.signed_in Samples.bob (ok tt))
    (lit "bob@example.org") Samples.nobody_registered =
    (Return {| AuthService.status := true;
               AuthService.msg := lit "New verification code sent to your email";
               AuthService.statusCode := None |}, Samples.nobody_registered) /\
  AuthService.resendOtp
    (Samples.signed_in Samples.bob (failed (lit "email rate limit exceeded")))
    (lit "bob@example.org") Samples.nobody_registered =
    (Return {| AuthService.status := false;
               AuthService.msg := lit "Too many requests. Please try again later.";
               AuthService.statusCode := Some 429 |}, Samples.nobody_registered) /\
  ~ (forall (R : Remote) (account : AuthUser) (email_ : jsstring) (w : World),
        email account = Some email_ ->
        email_confirmed_at account <> None ->
        listUsers R = Return (ok [account]) ->
        exists w',
          AuthService.resendOtp R email_ w =
            (Return {| AuthService.status := false;
                       AuthService.msg := lit "Email is already verified. Please login instead.";
                       AuthService.statusCode := Some 400 |}, w')).
Proof.
  assert (Haccepted :
    AuthService.resendOtp (Samples.signed_in Samples.bob (ok tt))
      (lit "bob@example.org") Samples.nobody_registered =
      (Return {| AuthService.status := true;
                 AuthService.msg := lit "New verification code sent to your email";
                 AuthService.statusCode := None |}, Samples.nobody_registered))
    by (vm_compute; reflexivity).
  split; [reflexivity|]. split; [reflexivity|]. split; [exact Haccepted|].
  split; [vm_compute; reflexivity|].
  intros Hclaim.
  destruct (Hclaim (Samples.signed_in Samples.bob (ok tt)) Samples.bob
              (lit "bob@example.org") Samples.nobody_registered eq_refl)
    as (w' & Hrun); [discriminate | reflexivity |].
  rewrite Haccepted in Hrun. discriminate Hrun.
Qed.

(** ** Admin-only routes *)

Section AdminRoutes.

Import Middleware.

Variable R : Remote.

(** A request with a bearer token that the identity provider resolves to
    [u] passes [requireAuth] with [u] attached. *)
Lemma requireAuth_passes (req : Request) (w : World) (header token : jsstring) (u : AuthUser) :
  authorization req = Some header ->
  startsWith header (lit "Bearer ") = true ->
  split space header !! 1%nat = Some token ->
  token <> [] ->
  getUser R token = Return {| user := Some u; user_error := None |} ->
  AuthMiddleware.requireAuth R req w =
    (Return (Next {| authorization := authorization req; req_user := Some u |}), w).
Proof.
  intros Hheader Hbearer Htoken Hne Huser.
  unfold AuthMiddleware.requireAuth, try_catch, Async.bind, await, reject, ret.
  rewrite Hheader. change (default [] (Some header)) with header.
  assert (falsy (Some header) = false) as ->.
  { destruct header; [discriminate Hbearer | reflexivity]. }
  rewrite Hbearer, Htoken. change (default [] (Some token)) with token.
  destruct token as [|c token]; [congruence|]. simpl. rewrite Huser. reflexivity.
Qed.

Lemma requireAdmin_trusts_claim (req : Request) (w : World) (u : AuthUser) :
  req_user req = Some u ->
  is_admin_claim u = true ->
  AdminMiddleware.requireAdmin R req w = (Return (Next req), w).
Proof.
  intros Huser Hclaim. unfold AdminMiddleware.requireAdmin, try_catch, Async.bind, ret.
  now rewrite Huser, Hclaim.
Qed.

Lemma requireAdmin_falls_back (req : Request) (w : World) (u : AuthUser) :
  req_user req = Some u ->
  is_admin_claim u = false ->
  AdminMiddleware.requireAdmin R req w =
    (Return
       match fault R select_users with
       | Some _ =>
           Responded {| statusCode := 500; status := false;
                        msg := lit "Error verifying user permissions" |}
       | None =>
           match selected_roles (id u) (db w) with
           | [role] =>
               if bool_decide (role = Some (lit "admin")) then Next req
               else Responded {| statusCode := 403; status := false;
                                 msg := lit "Admin privileges required" |}
           | _ =>
               Responded {| statusCode := 500; status := false;
                            msg := lit "Error verifying user permissions" |}
           end
       end, w).
Proof.
  intros Huser Hclaim.
  unfold AdminMiddleware.requireAdmin, try_catch, Async.bind, select_single, reject, ret.
  rewrite Huser, Hclaim. cbv zeta.
  destruct (fault R select_users); [reflexivity|].
  destruct (selected_roles (id u) (db w)) as [|role [|role' rest]]; try reflexivity.
  simpl. destruct role as [role|]; simpl.
  - destruct (bool_decide (role = lit "admin")) eqn:Hrole.
    + apply bool_decide_eq_true in Hrole as ->. reflexivity.
    + rewrite bool_decide_eq_false_2; [reflexivity|].
      apply bool_decide_eq_false in Hrole. congruence.
  - reflexivity.
Qed.




End AdminRoutes.


(** ** Concrete instances *)

Section Instances.

Import Samples.

Example trim_strips_both_ends : trim (lit "  Sleep and rest ") = lit "Sleep and rest".
Proof. reflexivity. Qed.

Example split_bearer : split space (lit "Bearer token-of-bob") !! 1%nat = Some (lit "token-of-bob").
Proof. reflexivity. Qed.

Example includes_already_confirmed :
  includes (lit "User already confirmed") (lit "already confirmed") = true.
Proof. reflexivity. Qed.

Example library_categories :
  DocumentService.getCategories (calm []) library =
    (Return [Some (lit "anxiety"); Some (lit "sleep")], library).
Proof. vm_compute. reflexivity. Qed.

Example long_title_is_cut :
  (ChatService.generateChatTitle (calm long_answer) alice session1 (lit "hi") one_session).1 =
    Return (lit "Coping with anxiety before an important exam at...").
Proof. vm_compute. reflexivity. Qed.

Lemma generateChatTitle_at_most_50_witness :
  exists title w',
    ChatService.generateChatTitle (calm long_answer) alice session1 (lit "hi") one_session =
      (Return title, w') /\
    (length title <= 50)%nat.
Proof.
  destruct (generateChatTitle_at_most_50 (calm long_answer) alice session1 (lit "hi") one_session)
    as (title & w' & Hrun & Hlen & _).
  exists title, w'. split; [exact Hrun | exact Hlen].
Defined.

Lemma loadChatHistory_sentinel_witness :
  ChatService.loadChatHistory (calm (lit "I am here.")) session1 one_session =
    (Return (lit "No previous conversation history."), one_session).
Proof.
  refine (proj1 (loadChatHistory_sentinel (calm (lit "I am here.")) session1 one_session _)).
  right. intros m Hm. simpl in Hm. now apply elem_of_nil in Hm.
Defined.

Lemma processMessage_without_documents_witness :
  (ChatService.processMessage (calm (lit "I am here.")) alice session1 (lit "hello") None
     one_session).1 =
    Return {| ChatService.reply := lit "I am here."; ChatService.sources := None |}.
Proof.
  refine (proj2 (proj2 (proj2
    (processMessage_without_documents (calm (lit "I am here.")) alice session1 (lit "hello")
       None one_session ChatService.no_history (lit "I am here.") _ _ _)))
    (lit "I am here.") _ _); vm_compute; reflexivity.
Defined.

Lemma processMessage_failure_policy_witness :
  (ChatService.processMessage
     (failing update_chat_sessions_last_message_at (lit "timeout") (lit "I am here."))
     alice session1 (lit "hello") None one_session).1 =
    Return {| ChatService.reply := lit "I am here."; ChatService.sources := None |}.
Proof.
  destruct (processMessage_failure_policy
              (failing update_chat_sessions_last_message_at (lit "timeout") (lit "I am here."))
              alice session1 (lit "hello") None one_session)
    as [_ (history & Hhist & _ & Hrest)].
  destruct (Hrest (lit "I am here.") eq_refl) as [_ Hdocs].
  destruct (Hdocs [] eq_refl) as [_ Hresp].
  destruct (Hresp (lit "I am here.") eq_refl) as [_ Htouch].
  destruct (Htouch (lit "timeout") eq_refl eq_refl) as [Hreturn _].
  exact Hreturn.
Defined.

Lemma deleteDocument_outcome_witness :
  exists result w',
    DocumentService.deleteDocument
      (failing delete_document_metadata (lit "timeout") []) (lit "Naps") library =
      (Return result, w') /\
    DocumentService.success result = false /\
    document_metadata (db w') = document_metadata (db library).
Proof.
  destruct (deleteDocument_outcome (failing delete_document_metadata (lit "timeout") [])
              (lit "Naps") library) as (result & w' & Hrun & _ & _ & Hpartial).
  destruct (Hpartial eq_refl) as (_ & _ & Hmeta & _).
  destruct (Hmeta (lit "timeout") eq_refl) as [-> Hkept].
  eexists _, w'. split; [exact Hrun|]. split; [reflexivity | exact Hkept].
Defined.

Lemma getCategories_distinct_witness :
  exists categories,
    DocumentService.getCategories (calm []) library = (Return categories, library) /\
    NoDup categories /\
    length (filter (fun c => c = Some (lit "sleep")) categories) = 1%nat.
Proof.
  destruct (getCategories_distinct (calm []) library eq_refl)
    as (categories & Hrun & Hnd & _ & _ & Honce).
  exists categories. split; [exact Hrun|]. split; [exact Hnd|].
  apply (Honce (category_row (lit "Sleep Guide") (Some (lit "sleep")))).
  - simpl. left.
  - reflexivity.
Defined.

Lemma resendOtp_already_confirmed_witness :
  AuthService.resendOtp (signed_in bob (failed (lit "User already confirmed")))
    (lit "bob@example.org") nobody_registered =
    (Return {| AuthService.status := false;
               AuthService.msg := lit "Email is already verified. Please login instead.";
               AuthService.statusCode := Some 400 |}, nobody_registered).
Proof.
  assert (Hne : lit "bob@example.org" <> []) by (vm_compute; discriminate).
  assert (Hin : bob ∈ [bob]) by left.
  destruct (resendOtp_already_confirmed
              (signed_in bob (failed (lit "User already confirmed")))
              (lit "bob@example.org") nobody_registered) as (result & Hrun & Hwhen & _).
  rewrite Hrun.
  now rewrite (Hwhen [bob] bob None (lit "User already confirmed")
                 Hne eq_refl Hin eq_refl eq_refl eq_refl).
Defined.


Lemma updateUserProfile_frame_witness :
  exists result w',
    UserService.updateUserProfile (calm []) (fun _ => true) (lit "bob") (Some greedy_body)
      bob_has_profile = (Return result, w') /\
    forall row', profiles (db w') !! 0%nat = Some row' ->
                 row' !! lit "role" = Some (JString (lit "user")).
Proof.
  destruct (updateUserProfile_frame (calm []) (fun _ => true) (lit "bob") (Some greedy_body)
              bob_has_profile) as (result & w' & Hrun & _ & _ & _ & Hrows & _).
  exists result, w'. split; [exact Hrun|]. intros row' Hrow'.
  destruct (Hrows 0%nat bob_profile row' eq_refl Hrow') as [Hframe _].
  rewrite (Hframe (lit "role")); [reflexivity|].
  rewrite !elem_of_cons, elem_of_nil. intros [H|[H|[H|[H|[]]]]]; vm_compute in H; discriminate.
Defined.

End Instances.

(** * Further properties of the code *)

(** ** Authentication and role middlewares *)

Section MiddlewareFacts.

Import Middleware.

Variable R : Remote.

(** The ways [requireAuth] ends. *)
Lemma requireAuth_cases (req : Request) (w : World) :
  exists out,
    AuthMiddleware.requireAuth R req w = (Return out, w) /\
    match out with
    | Next req' =>
        exists header token u,
          authorization req = Some header /\
          startsWith header (lit "Bearer ") = true /\
          split space header !! 1%nat = Some token /\
          token <> [] /\
          getUser R token = Return {| user := Some u; user_error := None |} /\
          req' = {| authorization := authorization req; req_user := Some u |}
    | Responded res =>
        status res = false /\
        (statusCode res = 401 \/
         statusCode res = 500 /\ exists token e, getUser R token = Throw e)
    end.
Proof.
  unfold AuthMiddleware.requireAuth, try_catch, Async.bind, await, reject, internal_error, ret.
  destruct (authorization req) as [header|] eqn:Hheader;
    [|eexists; split; [reflexivity|]; simpl; auto].
  change (default [] (Some header)) with header.
  destruct (falsy (Some header)) eqn:Hfalsy;
    [eexists; split; [reflexivity|]; simpl; auto|].
  destruct (startsWith header (lit "Bearer ")) eqn:Hbearer;
    [|eexists; split; [reflexivity|]; simpl; auto].
  cbn [negb orb].
  destruct (split space header !! 1%nat) as [token|] eqn:Htoken;
    [|eexists; split; [reflexivity|]; simpl; auto].
  change (default [] (Some token)) with token.
  destruct token as [|c token]; [eexists; split; [reflexivity|]; simpl; auto|].
  cbn [falsy].
  destruct (getUser R (c :: token)) as [[found [e|]]|e] eqn:Huser; cbn [defined user_error user].
  - eexists; split; [reflexivity|]; simpl; auto.
  - destruct found as [u|]; [|eexists; split; [reflexivity|]; simpl; auto].
    eexists. split; [reflexivity|]. exists header, (c :: token), u.
    repeat split; auto; discriminate.
  - eexists. split; [reflexivity|]. simpl. split; [reflexivity|]. right. eauto.
Qed.

(** X1. [requireAuth] never throws and never touches the state. It calls
    [next()] only for a header that starts with "Bearer ", whose second
    space-separated part is a non-empty token that the identity provider
    resolves to a user without error, and the request passed on carries that
    user (whatever [user] the incoming request claimed). Every other request
    is answered with [status: false] and code 401, or 500 when the provider
    call threw. *)
Theorem requireAuth_sound (req : Request) (w : World) :
  exists out,
    AuthMiddleware.requireAuth R req w = (Return out, w) /\
    match out with
    | Next req' =>
        exists header token u,
          authorization req = Some header /\
          startsWith header (lit "Bearer ") = true /\
          split space header !! 1%nat = Some token /\
          token <> [] /\
          getUser R token = Return {| user := Some u; user_error := None |} /\
          req' = {| authorization := authorization req; req_user := Some u |}
    | Responded res =>
        status res = false /\
        (statusCode res = 401 \/
         statusCode res = 500 /\ exists token e, getUser R token = Throw e)
    end.
Proof. apply requireAuth_cases. Qed.

(** X2. The admin check of [AuthMiddleware] decides on the token claim
    alone: with a user attached it lets the request through exactly when
    [is_admin] is the boolean [true] and answers 403 otherwise, 401 without a
    user. Whatever it lets through, [AdminMiddleware.requireAdmin] lets
    through as well, for every state of the [users] table and of the store. *)
Theorem claim_check_is_stricter (req : Request) (w : World) :
  (exists out,
      AuthMiddleware.requireAdmin req w = (Return out, w) /\
      match req_user req with
      | None => exists res, out = Responded res /\ statusCode res = 401
      | Some u =>
          if is_admin_claim u then out = Next req
          else exists res, out = Responded res /\ statusCode res = 403 /\ status res = false
      end) /\
  (AuthMiddleware.requireAdmin req w = (Return (Next req), w) ->
   forall R' w', AdminMiddleware.requireAdmin R' req w' = (Return (Next req), w')).
Proof.
  unfold AuthMiddleware.requireAdmin, AdminMiddleware.requireAdmin,
    try_catch, Async.bind, reject, ret.
  destruct (req_user req) as [u|]; simpl.
  - destruct (is_admin_claim u); simpl.
    + split; [eauto|]. reflexivity.
    + split; [eexists; split; [reflexivity|]; eauto|]. discriminate.
  - split; [eexists; split; [reflexivity|]; eauto|]. discriminate.
Qed.

End MiddlewareFacts.

(** ** Chat sessions and their messages *)

Section SessionFacts.

Import ChatService.

Variable R : Remote.

Lemma filter_idem {A} (P : A -> Prop) `{forall x, Decision (P x)} (l : list A) :
  filter P (filter P l) = filter P l.
Proof.
  induction l as [|a l IH]; [reflexivity|].
  rewrite filter_cons. destruct (decide (P a)) as [Ha|Ha]; [|exact IH].
  rewrite filter_cons, decide_True by exact Ha. now rewrite IH.
Qed.

Lemma own_session_after_delete userId sessionId (d : Database) :
  own_session userId sessionId
    (with_chat_sessions (filter (fun s => cs_id s <> sessionId)) d) = [].
Proof.
  apply own_session_none. intros s Hs Hid. simpl in Hs.
  apply list_elem_of_filter in Hs as [Hne _]. contradiction.
Qed.

(** X3. When the caller owns the session and the three queries go through,
    [deleteChatSession] returns [true]; afterwards the store holds exactly
    the messages and the sessions of the other session ids, every other
    table and the prompt log are as before, and a second call returns
    [false] and changes nothing. *)
Theorem deleteChatSession_removes (userId sessionId : jsstring) (w : World) :
  own_session userId sessionId (db w) = [sessionId] ->
  fault R select_chat_sessions = None ->
  fault R delete_chat_messages = None ->
  fault R delete_chat_sessions = None ->
  exists w',
    deleteChatSession R userId sessionId w = (Return true, w') /\
    (forall m, m ∈ chat_messages (db w') <->
               m ∈ chat_messages (db w) /\ cm_session_id m <> sessionId) /\
    (forall s, s ∈ chat_sessions (db w') <->
               s ∈ chat_sessions (db w) /\ cs_id s <> sessionId) /\
    document_metadata (db w') = document_metadata (db w) /\
    documents (db w') = documents (db w) /\
    users (db w') = users (db w) /\
    profiles (db w') = profiles (db w) /\
    invoked w' = invoked w /\
    deleteChatSession R userId sessionId w' = (Return false, w').
Proof.
  intros Hown Hselect Hmessages Hsessions.
  unfold deleteChatSession, try_catch, Async.bind, select_single, mutate, ret.
  rewrite Hselect, Hown. simpl. rewrite Hmessages. simpl. rewrite Hsessions. simpl.
  eexists. split; [reflexivity|]. simpl.
  split; [intros m; rewrite list_elem_of_filter; tauto|].
  split; [intros s; rewrite list_elem_of_filter; tauto|].
  repeat (split; [reflexivity|]).
  rewrite own_session_after_delete. reflexivity.
Qed.

(** X4. [deleteChatSession] has no rollback: when the messages are deleted
    and the deletion of the session row then fails, the call throws
    "Failed to delete session: " with the cause, the messages of the
    session stay deleted and the session row stays. *)
Theorem deleteChatSession_half_done (userId sessionId e : jsstring) (w : World) :
  own_session userId sessionId (db w) = [sessionId] ->
  fault R select_chat_sessions = None ->
  fault R delete_chat_messages = None ->
  fault R delete_chat_sessions = Some e ->
  exists w',
    deleteChatSession R userId sessionId w =
      (Throw (lit "Failed to delete session: " ++ e), w') /\
    chat_messages (db w') =
      filter (fun m => cm_session_id m <> sessionId) (chat_messages (db w)) /\
    chat_sessions (db w') = chat_sessions (db w) /\
    own_session userId sessionId (db w') = [sessionId].
Proof.
  intros Hown Hselect Hmessages Hsessions.
  unfold deleteChatSession, try_catch, Async.bind, select_single, mutate, throw, ret.
  rewrite Hselect, Hown. simpl. rewrite Hmessages. simpl. rewrite Hsessions. simpl.
  eexists. split; [reflexivity|]. simpl. repeat split. exact Hown.
Qed.

Lemma set_title_other sessionId title (s : ChatSession) :
  cs_id s <> sessionId -> set_title sessionId title s = s.
Proof. intros Hne. unfold set_title. now rewrite decide_False. Qed.

(** X5. [updateChatTitle] by the owner, when both queries go through, stores
    the given title as it is, of whatever length: in the store every session
    with that id has exactly this title and its other columns unchanged,
    every other session is unchanged, and so are the messages. When the
    update query fails the call returns [false] and nothing changes. *)
Theorem updateChatTitle_stores (userId sessionId title : jsstring) (w : World) :
  own_session userId sessionId (db w) = [sessionId] ->
  fault R select_chat_sessions = None ->
  (fault R update_chat_sessions_title = None ->
   exists w',
     updateChatTitle R userId sessionId title w = (Return true, w') /\
     chat_sessions (db w') = map (set_title sessionId title) (chat_sessions (db w)) /\
     (forall i s, chat_sessions (db w) !! i = Some s ->
                  exists s', chat_sessions (db w') !! i = Some s' /\
                             cs_id s' = cs_id s /\ cs_user_id s' = cs_user_id s /\
                             cs_created_at s' = cs_created_at s /\
                             cs_last_message_at s' = cs_last_message_at s /\
                             cs_title s' = if decide (cs_id s = sessionId)
                                           then title else cs_title s) /\
     chat_messages (db w') = chat_messages (db w)) /\
  (fault R update_chat_sessions_title <> None ->
   updateChatTitle R userId sessionId title w = (Return false, w)).
Proof.
  intros Hown Hselect.
  unfold updateChatTitle, try_catch, Async.bind, select_single, mutate, ret.
  rewrite Hselect, Hown. simpl.
  destruct (fault R update_chat_sessions_title) as [e|]; simpl.
  - split; [discriminate | reflexivity].
  - split; [|congruence]. intros _. eexists. split; [reflexivity|]. simpl.
    split; [reflexivity|]. split; [|reflexivity].
    intros i s Hs. exists (set_title sessionId title s).
    rewrite list_lookup_fmap, Hs. split; [reflexivity|].
    unfold set_title. destruct (decide (cs_id s = sessionId)); simpl; auto.
Qed.

(** X6. Only the first 200 code units of the message reach the title
    prompt: [generateChatTitle] on a message and on its first 200 code units
    are the same computation. *)
Theorem generateChatTitle_reads_200 (userId sessionId message : jsstring) (w : World) :
  generateChatTitle R userId sessionId message w =
  generateChatTitle R userId sessionId (substring 0 200 message) w.
Proof.
  unfold generateChatTitle.
  assert (substring 0 200 (substring 0 200 message) = substring 0 200 message) as ->.
  { unfold substring. simpl. rewrite !drop_0, take_take. f_equal. }
  reflexivity.
Qed.

Lemma or_else_not_empty (v : option jsstring) (d : jsstring) : d <> [] -> or_else v d <> [].
Proof. intros Hd. destruct v as [[|c s]|]; simpl; auto; discriminate. Qed.

Lemma source_of_bounds (doc : Document) :
  title (source_of doc) <> [] /\
  (length (content (source_of doc)) <= 153)%nat /\
  drop (length (content (source_of doc)) - 3) (content (source_of doc)) = lit "...".
Proof.
  unfold source_of. simpl. split; [apply or_else_not_empty; discriminate|].
  rewrite length_app. change (length ellipsis) with 3%nat.
  pose proof (length_substring_le 0 150 (pageContent doc)).
  split; [lia|].
  replace (length (substring 0 150 (pageContent doc)) + 3 - 3)%nat
    with (length (substring 0 150 (pageContent doc))) by lia.
  now rewrite drop_app_length.
Qed.

(** X7. Whenever [processMessage] returns a response, its [sources] are
    either absent or a non-empty list with one entry per retrieved
    document, in order; every entry has a non-empty title ("Untitled" when
    the chunk has none) and a content of at most 153 code units that ends
    with "...", also when the chunk is shorter than 150. *)
Theorem processMessage_sources (userId sessionId message : jsstring)
    (category : option jsstring) (w : World) (r : ChatResponse) :
  (processMessage R userId sessionId message category w).1 = Return r ->
  exists query documents,
    (if truthy category
     then similaritySearch R query (similaritySearchResults R) category
     else similaritySearch R query (similaritySearchResults R) None) = Return documents /\
    sources r = (if (0 <? length documents)%nat
                 then Some (map source_of documents) else None) /\
    (forall l, sources r = Some l ->
               l <> [] /\ length l = length documents /\
               forall s, s ∈ l ->
                         title s <> [] /\ (length (content s) <= 153)%nat /\
                         drop (length (content s) - 3) (content s) = lit "...").
Proof.
  destruct (loadChatHistory_returns R sessionId w) as [history Hhist].
  unfold processMessage, try_catch, Async.bind, generateSearchQuery, invoke, await, throw.
  rewrite Hhist. simpl.
  destruct (model R (query_prompt history message)) as [query|e]; simpl; [|discriminate].
  destruct (if truthy category
            then similaritySearch R query (similaritySearchResults R) category
            else similaritySearch R query (similaritySearchResults R) None)
    as [documents|e] eqn:Hsearch; simpl; [|discriminate].
  destruct (model R (chat_prompt _ _ _)) as [response|e]; simpl; [|discriminate].
  unfold saveChatMessage, Async.bind, mutate, throw, ret.
  destruct (fault R insert_chat_messages); simpl; [discriminate|].
  destruct (fault R update_chat_sessions_last_message_at); simpl;
    intros [= <-]; exists query, documents; (split; [exact Hsearch|]);
    (split; [reflexivity|]); simpl;
    (destruct documents as [|doc documents]; simpl; [discriminate|]);
    intros srcs [= <-]; (split; [discriminate|]); (split; [simpl; f_equal; apply length_map|]);
    intros s Hs; change (s ∈ map source_of (doc :: documents)) in Hs;
    apply list_elem_of_fmap in Hs as (doc' & -> & _); apply source_of_bounds.
Qed.

Lemma insert_by_snoc {A} (leb : A -> A -> bool) (y x : A) (l : list A) :
  leb y x = true -> insert_by leb y (l ++ [x]) = insert_by leb y l ++ [x].
Proof.
  intros Hle. induction l as [|a l IH]; simpl; [now rewrite Hle|].
  destruct (leb y a); [reflexivity|]. now rewrite IH.
Qed.

(** Ordering rows to which a largest one is appended keeps it last. *)
Lemma order_snoc {A} (leb : A -> A -> bool) (l : list A) (x : A) :
  (forall y, y ∈ l -> leb y x = true) -> order leb (l ++ [x]) = order leb l ++ [x].
Proof.
  unfold order. induction l as [|a l IH]; intros Hall; [reflexivity|].
  simpl. rewrite IH by (intros y Hy; apply Hall; now right).
  apply insert_by_snoc, Hall. now left.
Qed.

Lemma join_snoc (sep : jsstring) (parts : list jsstring) (x : jsstring) :
  parts <> [] -> join sep (parts ++ [x]) = join sep parts ++ sep ++ x.
Proof.
  induction parts as [|p parts IH]; [congruence|]. intros _.
  destruct parts as [|q parts]; [reflexivity|].
  change (join sep ((p :: q :: parts) ++ [x])) with (p ++ sep ++ join sep ((q :: parts) ++ [x])).
  rewrite IH by discriminate.
  change (join sep (p :: q :: parts)) with (p ++ sep ++ join sep (q :: parts)).
  now rewrite <- !app_assoc.
Qed.

(** Code-unit order is total and transitive. *)
Lemma leb_total (s t : jsstring) : leb s t = false -> leb t s = true.
Proof.
  revert t. induction s as [|a s IH]; intros [|b t]; simpl; try discriminate; auto.
  unfold code_unit_eqb.
  destruct (N.ltb_spec a b), (N.eqb_spec a b), (N.ltb_spec b a), (N.eqb_spec b a);
    simpl; try discriminate; auto; try lia.
Qed.

Lemma leb_trans (s t u : jsstring) : leb s t = true -> leb t u = true -> leb s u = true.
Proof.
  revert t u. induction s as [|a s IH]; intros [|b t] [|c u]; simpl; try discriminate; auto.
  unfold code_unit_eqb.
  destruct (N.ltb_spec a b), (N.eqb_spec a b), (N.ltb_spec b c), (N.eqb_spec b c),
    (N.ltb_spec a c), (N.eqb_spec a c); simpl; try discriminate; auto; try lia.
  apply IH.
Qed.

(** X8. What [saveChatMessage] inserts is what [loadChatHistory] reads back:
    when the insert and the history query go through and every stored message
    of the session is earlier than the clock, the history after the save is
    the new exchange "User: ...", line feed, "AI: ..." alone if the session
    had no message, and else the history before, a blank line and the new
    exchange. *)
Theorem saved_exchange_is_loaded (userId sessionId userMessage aiResponse : jsstring)
    (w : World) :
  fault R insert_chat_messages = None ->
  fault R select_chat_messages = None ->
  (forall m, m ∈ chat_messages (db w) -> cm_session_id m = sessionId ->
             leb (now R) (cm_created_at m) = false) ->
  exists before w',
    loadChatHistory R sessionId w = (Return before, w) /\
    saveChatMessage R userId sessionId userMessage aiResponse w = (Return tt, w') /\
    loadChatHistory R sessionId w' =
      (Return
         (let exchange := lit "User: " ++ userMessage ++ [line_feed] ++ lit "AI: " ++ aiResponse in
          match filter (fun m => cm_session_id m = sessionId) (chat_messages (db w)) with
          | [] => exchange
          | _ :: _ => before ++ [line_feed; line_feed] ++ exchange
          end), w').
Proof.
  intros Hinsert Hselect Hclock.
  set (new := {| cm_user_id := userId; cm_session_id := sessionId;
                 cm_user_message := userMessage; cm_ai_response := aiResponse;
                 cm_created_at := now R |}).
  set (earlier := filter (fun m => cm_session_id m = sessionId) (chat_messages (db w))).
  set (by_time := fun a b : ChatMessage => leb (cm_created_at a) (cm_created_at b)).
  assert (Hafter : forall w', chat_messages (db w') = chat_messages (db w) ++ [new] ->
            loadChatHistory R sessionId w' =
              (Return (join (lines [blank; blank; blank])
                         (map transcript_entry (order by_time earlier ++ [new]))), w')).
  { intros w' Hrows. unfold loadChatHistory, Async.bind, select_rows, ret.
    rewrite Hselect. simpl. rewrite Hrows, filter_app.
    assert (filter (fun m => cm_session_id m = sessionId) [new] = [new]) as ->.
    { rewrite filter_cons, decide_True by reflexivity. reflexivity. }
    fold earlier. fold by_time. rewrite order_snoc.
    - destruct (order by_time earlier); reflexivity.
    - intros y Hy. apply list_elem_of_filter in Hy as [Hid Hin]. unfold by_time.
      apply leb_total. now apply Hclock. }
  assert (Hbefore : loadChatHistory R sessionId w =
            (Return match order by_time earlier with
                    | [] => no_history
                    | rows => join (lines [blank; blank; blank]) (map transcript_entry rows)
                    end, w)).
  { unfold loadChatHistory, Async.bind, select_rows, ret. rewrite Hselect. simpl.
    fold earlier. fold by_time. destruct (order by_time earlier); reflexivity. }
  assert (Hsave : exists w',
            saveChatMessage R userId sessionId userMessage aiResponse w = (Return tt, w') /\
            chat_messages (db w') = chat_messages (db w) ++ [new]).
  { unfold saveChatMessage, Async.bind, mutate, ret. rewrite Hinsert. simpl.
    destruct (fault R update_chat_sessions_last_message_at); simpl;
      eexists; split; reflexivity. }
  destruct Hsave as (w' & Hsave & Hrows).
  assert (Hempty : order by_time earlier = [] <-> earlier = []).
  { split; intros Hnil.
    - destruct earlier as [|m rest]; [reflexivity|].
      assert (m ∈ order by_time (m :: rest)) as Hm by (apply elem_of_order; now left).
      rewrite Hnil in Hm. now apply elem_of_nil in Hm.
    - now rewrite Hnil. }
  eexists _, w'. split; [exact Hbefore|]. split; [exact Hsave|].
  rewrite (Hafter w' Hrows). f_equal. f_equal.
  destruct earlier as [|m rest] eqn:Hearlier; [reflexivity|].
  destruct (order by_time (m :: rest)) as [|m' rest'] eqn:Hordered.
  - destruct Hempty as [Hempty _]. discriminate (Hempty eq_refl).
  - rewrite map_app. change (map transcript_entry [new]) with [transcript_entry new].
    rewrite join_snoc by discriminate. reflexivity.
Qed.

End SessionFacts.

(** ** Listing sessions *)

Section SessionLists.

Import ChatService ChatSessions.

Variable R : Remote.

Lemma insert_by_perm {A} (le : A -> A -> bool) (x : A) (l : list A) :
  insert_by le x l ≡ₚ x :: l.
Proof.
  induction l as [|a l IH]; simpl; [reflexivity|].
  destruct (le x a); [reflexivity|]. rewrite IH. apply Permutation_swap.
Qed.

(** [.order] rearranges the rows and nothing else. *)
Lemma order_perm {A} (le : A -> A -> bool) (l : list A) : order le l ≡ₚ l.
Proof.
  unfold order. induction l as [|a l IH]; simpl; [reflexivity|].
  now rewrite insert_by_perm, IH.
Qed.

Lemma insert_by_sorted {A} (le : A -> A -> bool) (x : A) (l : list A) :
  (forall a b, le a b = false -> le b a = true) ->
  (forall a b c, le a b = true -> le b c = true -> le a c = true) ->
  StronglySorted (fun a b => le a b = true) l ->
  StronglySorted (fun a b => le a b = true) (insert_by le x l).
Proof.
  intros Htotal Htrans. induction 1 as [|a l Hsorted IH Hall]; simpl.
  - repeat constructor.
  - destruct (le x a) eqn:Hxa.
    + constructor; [now constructor|]. constructor; [exact Hxa|].
      eapply Forall_impl; [exact Hall|]. intros b Hab. now apply (Htrans x a b).
    + constructor; [exact IH|]. rewrite insert_by_perm. constructor; [|exact Hall].
      now apply Htotal.
Qed.

Lemma order_sorted {A} (le : A -> A -> bool) (l : list A) :
  (forall a b, le a b = false -> le b a = true) ->
  (forall a b c, le a b = true -> le b c = true -> le a c = true) ->
  StronglySorted (fun a b => le a b = true) (order le l).
Proof.
  intros Htotal Htrans. unfold order. induction l as [|a l IH]; simpl; [constructor|].
  now apply insert_by_sorted.
Qed.

Lemma sessions_of_sorted (userId : jsstring) (d : Database) :
  StronglySorted
    (fun a b => leb (cs_last_message_at b) (cs_last_message_at a) = true)
    (sessions_of userId d).
Proof.
  unfold sessions_of.
  apply (order_sorted (fun a b => leb (cs_last_message_at b) (cs_last_message_at a))).
  - intros a b. apply leb_total.
  - intros a b c Hab Hbc. now apply (leb_trans _ (cs_last_message_at b)).
Qed.

Lemma sessions_of_perm (userId : jsstring) (d : Database) :
  sessions_of userId d ≡ₚ filter (fun s => cs_user_id s = userId) (chat_sessions d).
Proof. apply order_perm. Qed.

(** X9. [getUserChatSessions] lists the caller's sessions and no other:
    when the query goes through, the result is a rearrangement of the
    summaries of exactly the sessions whose [user_id] is the caller's, with
    [last_message_at] never increasing along the list; the store is only
    read. When the query fails the call throws "Failed to get user chat
    sessions: " with the cause. *)
Theorem getUserChatSessions_own_sorted (userId : jsstring) (w : World) :
  (fault R select_chat_sessions = None ->
   exists listed,
     getUserChatSessions R userId w = (Return listed, w) /\
     listed ≡ₚ map summary (filter (fun s => cs_user_id s = userId) (chat_sessions (db w))) /\
     StronglySorted
       (fun a b => leb (ss_last_message_at b) (ss_last_message_at a) = true) listed) /\
  (forall e, fault R select_chat_sessions = Some e ->
             getUserChatSessions R userId w =
               (Throw (lit "Failed to get user chat sessions: " ++ e), w)).
Proof.
  unfold getUserChatSessions, Async.bind, select_rows, throw, ret. split.
  - intros ->. simpl. eexists. split; [reflexivity|]. split.
    + now rewrite sessions_of_perm.
    + pose proof (sessions_of_sorted userId (db w)) as Hsorted.
      induction Hsorted as [|a l Hsorted IH Hall]; simpl; constructor; [exact IH|].
      rewrite Forall_fmap. exact Hall.
  - intros e ->. reflexivity.
Qed.

(** X10. [getLastChatSession] never throws and only reads. It returns
    [null] exactly when the query fails or the caller has no session;
    otherwise it returns the id of one of the caller's sessions, one whose
    [last_message_at] is not earlier than that of any other session of the
    caller, and is that of the first session [getUserChatSessions] lists. *)
Theorem getLastChatSession_latest (userId : jsstring) (w : World) :
  exists last,
    getLastChatSession R userId w = (Return last, w) /\
    (last = None <->
     fault R select_chat_sessions <> None \/
     forall s, s ∈ chat_sessions (db w) -> cs_user_id s <> userId) /\
    (forall sid, last = Some sid ->
       exists s, s ∈ chat_sessions (db w) /\ cs_id s = sid /\ cs_user_id s = userId /\
                 (forall s', s' ∈ chat_sessions (db w) -> cs_user_id s' = userId ->
                             leb (cs_last_message_at s') (cs_last_message_at s) = true) /\
                 exists listed first,
                   getUserChatSessions R userId w = (Return listed, w) /\
                   head listed = Some first /\
                   ss_last_message_at first = cs_last_message_at s).
Proof.
  unfold getLastChatSession, getUserChatSessions, try_catch, Async.bind,
    select_single, select_rows, ret.
  destruct (fault R select_chat_sessions) as [e|] eqn:Hfault; simpl.
  { eexists. split; [reflexivity|]. split; [split; auto|]. discriminate. }
  pose proof (sessions_of_perm userId (db w)) as Hperm.
  pose proof (sessions_of_sorted userId (db w)) as Hsorted.
  destruct (sessions_of userId (db w)) as [|s rest] eqn:Hsessions; simpl.
  - eexists. split; [reflexivity|]. split; [|discriminate].
    split; [|reflexivity]. intros _. right. intros s Hs Hown.
    assert (s ∈ filter (fun s => cs_user_id s = userId) (chat_sessions (db w))) as Hin
      by (apply list_elem_of_filter; auto).
    rewrite <- Hperm in Hin. now apply elem_of_nil in Hin.
  - eexists. split; [reflexivity|].
    assert (Hs : s ∈ filter (fun s => cs_user_id s = userId) (chat_sessions (db w)))
      by (rewrite <- Hperm; now left).
    apply list_elem_of_filter in Hs as [Hown Hs]. split.
    + split; [discriminate|]. intros [Hbad|Hnone]; [congruence|]. now destruct (Hnone s Hs).
    + intros sid [= <-]. exists s. split; [exact Hs|]. split; [reflexivity|].
      split; [exact Hown|]. split; [|eexists _, _; repeat split; reflexivity].
      intros s' Hs' Hown'.
      assert (s' ∈ s :: rest) as Hin.
      { rewrite Hperm. apply list_elem_of_filter. auto. }
      apply StronglySorted_inv in Hsorted as [_ Hall].
      apply elem_of_cons in Hin as [->|Hin].
      * destruct (leb (cs_last_message_at s) (cs_last_message_at s)) eqn:Hrefl; [reflexivity|].
        pose proof (leb_total _ _ Hrefl). congruence.
      * rewrite Forall_forall in Hall. now apply Hall.
Qed.

End SessionLists.

(** ** Topic chats and the chat endpoints *)

Section ChatEndpoints.

Import ChatService ChatSessions Middleware Controllers.

Variable R : Remote.
Variable P : Platform.

Lemma or_else_some (s d : jsstring) : s <> [] -> or_else (Some s) d = s.
Proof. destruct s; [congruence | reflexivity]. Qed.

(** How [processMessage] ends: thrown, with the tables as they were, or
    returned, with the exchange appended to the messages and the sessions
    either touched or, when that update failed, as they were. *)
Lemma processMessage_effect (userId sessionId_ message : jsstring)
    (category : option jsstring) (w : World) :
  (exists e,
      (processMessage R userId sessionId_ message category w).1 = Throw e /\
      db (processMessage R userId sessionId_ message category w).2 = db w) \/
  (exists r,
      (processMessage R userId sessionId_ message category w).1 = Return r /\
      chat_messages (db (processMessage R userId sessionId_ message category w).2) =
        chat_messages (db w) ++
          [ {| cm_user_id := userId; cm_session_id := sessionId_; cm_user_message := message;
               cm_ai_response := reply r; cm_created_at := now R |} ] /\
      (chat_sessions (db (processMessage R userId sessionId_ message category w).2) =
         chat_sessions (db w) \/
       chat_sessions (db (processMessage R userId sessionId_ message category w).2) =
         map (set_last_message_at sessionId_ (now R)) (chat_sessions (db w)))).
Proof.
  destruct (loadChatHistory_returns R sessionId_ w) as [history Hhist].
  unfold processMessage, try_catch, Async.bind, generateSearchQuery, invoke, await, throw.
  rewrite Hhist. simpl.
  destruct (model R (query_prompt history message)) as [query|e]; simpl; [|left; eauto].
  destruct (if truthy category
            then similaritySearch R query (similaritySearchResults R) category
            else similaritySearch R query (similaritySearchResults R) None)
    as [documents|e]; simpl; [|left; eauto].
  destruct (model R (chat_prompt _ _ _)) as [response|e]; simpl; [|left; eauto].
  unfold saveChatMessage, Async.bind, mutate, throw, ret.
  destruct (fault R insert_chat_messages); simpl; [left; eauto|].
  destruct (fault R update_chat_sessions_last_message_at); simpl;
    right; eexists; (split; [reflexivity|]); simpl; auto.
Qed.

(** X11. [startTopicChat] creates the session first and has no rollback.
    When the session insert goes through, a session with the store's id, the
    caller as owner, the topic as title and the insert's [created_at] is in
    the store however the call ends, and it is the one session added. If the
    first message fails, the call throws, the sessions are the old ones and
    the new row as it was inserted, and no message is stored; if it
    succeeds, the result names the new session and the one message added to
    the store is "Tell me about " followed by the topic, with the returned
    response. *)
Theorem startTopicChat_outcome (userId topic : jsstring) (w : World) :
  fault_insert_chat_sessions P = None ->
  topic <> [] ->
  exists result w',
    startTopicChat R P userId topic w = (result, w') /\
    (exists s, s ∈ chat_sessions (db w') /\
               cs_id s = generated_id P (db w) /\ cs_user_id s = userId /\
               cs_title s = topic /\ cs_created_at s = session_created_at P) /\
    length (chat_sessions (db w')) = S (length (chat_sessions (db w))) /\
    (forall e, result = Throw e ->
               chat_sessions (db w') =
                 chat_sessions (db w) ++
                   [ {| cs_id := generated_id P (db w); cs_user_id := userId;
                        cs_title := topic; cs_created_at := session_created_at P;
                        cs_last_message_at := session_last_message_at P |} ] /\
               chat_messages (db w') = chat_messages (db w)) /\
    (forall r, result = Return r ->
               sessionId r = generated_id P (db w) /\
               chat_messages (db w') =
                 chat_messages (db w) ++
                   [ {| cm_user_id := userId; cm_session_id := generated_id P (db w);
                        cm_user_message := lit "Tell me about " ++ topic;
                        cm_ai_response := initialResponse r; cm_created_at := now R |} ]).
Proof.
  intros Hinsert Htopic.
  set (created := {| cs_id := generated_id P (db w); cs_user_id := userId; cs_title := topic;
                     cs_created_at := session_created_at P;
                     cs_last_message_at := session_last_message_at P |}).
  unfold startTopicChat, createChatSession, insert_session, Async.bind, ret.
  rewrite Hinsert, (or_else_some topic) by exact Htopic. cbn [single ok error data].
  fold created.
  set (w1 := on_db (with_chat_sessions (fun rows => rows ++ [created])) w).
  set (prompt := lit "Tell me about " ++ topic).
  destruct (processMessage_effect userId (generated_id P (db w)) prompt (Some topic) w1)
    as [(e & Hthrow & Hdb) | (r & Hreturn & Hmessages & Hsessions)].
  - destruct (processMessage R userId _ prompt _ w1) as [result w'] eqn:Hrun.
    cbn [fst snd] in *. subst result.
    eexists _, _. split; [reflexivity|]. rewrite Hdb. cbn.
    split; [exists created; split; [apply elem_of_app; right; now left | repeat split]|].
    split; [rewrite length_app; cbn; lia|]. split; [auto|discriminate].
  - destruct (processMessage R userId _ prompt _ w1) as [result w'] eqn:Hrun.
    cbn [fst snd] in *. subst result.
    eexists _, _. split; [reflexivity|].
    split; [|split; [|split; [discriminate|]]].
    + destruct Hsessions as [->| ->]; cbn.
      * exists created. split; [apply elem_of_app; right; now left | repeat split].
      * exists (set_last_message_at (generated_id P (db w)) (now R) created). split.
        -- apply list_elem_of_fmap. exists created. split; [reflexivity|].
           apply elem_of_app. right. now left.
        -- unfold set_last_message_at, created. cbn.
           rewrite decide_True by reflexivity. repeat split.
    + destruct Hsessions as [->| ->]; cbn; [|rewrite length_map]; rewrite length_app; cbn; lia.
    + intros r' [= <-]. split; [reflexivity|]. exact Hmessages.
Qed.

(** X12. [requireRole] asks the [users] table before anything else. A user
    whose row has the role "admin" passes whatever role is required; a user
    whose row has another role passes exactly when that role is the required
    one or the token carries the admin claim, and is answered 403 otherwise;
    and when the lookup fails the answer is 500 even for a token with the
    admin claim, which [requireAdmin] lets through without a lookup. *)
Theorem requireRole_decides (requiredRole : jsstring) (req : Request) (w : World)
    (u : AuthUser) :
  req_user req = Some u ->
  (forall e, fault R select_users = Some e ->
             RoleMiddleware.requireRole R requiredRole req w =
               (Return (Responded {| statusCode := 500; status := false;
                                     msg := lit "Error verifying user permissions" |}), w) /\
             (is_admin_claim u = true ->
              AdminMiddleware.requireAdmin R req w = (Return (Next req), w))) /\
  (fault R select_users = None ->
   (selected_roles (id u) (db w) = [Some (lit "admin")] ->
    RoleMiddleware.requireRole R requiredRole req w = (Return (Next req), w)) /\
   (forall role,
       selected_roles (id u) (db w) = [role] ->
       RoleMiddleware.requireRole R requiredRole req w =
         (Return
            (if bool_decide (role = Some requiredRole) || bool_decide (role = Some (lit "admin"))
                || is_admin_claim u
             then Next req
             else Responded {| statusCode := 403; status := false;
                               msg := requiredRole ++ lit " role privileges required" |}), w)) /\
   ((forall role, selected_roles (id u) (db w) <> [role]) ->
    RoleMiddleware.requireRole R requiredRole req w =
      (Return (Responded {| statusCode := 500; status := false;
                            msg := lit "Error verifying user permissions" |}), w))).
Proof.
  intros Huser.
  assert (Hrole : forall role,
    selected_roles (id u) (db w) = [role] -> fault R select_users = None ->
    RoleMiddleware.requireRole R requiredRole req w =
      (Return
         (if bool_decide (role = Some requiredRole) || bool_decide (role = Some (lit "admin"))
             || is_admin_claim u
          then Next req
          else Responded {| statusCode := 403; status := false;
                            msg := requiredRole ++ lit " role privileges required" |}), w)).
  { intros role Hrow Hfault.
    unfold RoleMiddleware.requireRole, try_catch, Async.bind, select_single, reject, ret.
    rewrite Huser. cbv zeta. rewrite Hfault, Hrow. simpl.
    destruct role as [role|]; simpl; repeat case_bool_decide; simpl;
      destruct (is_admin_claim u); simpl; try reflexivity; congruence. }
  split.
  - intros e Hfault. split.
    + unfold RoleMiddleware.requireRole, try_catch, Async.bind, select_single, reject, ret.
      rewrite Huser. cbv zeta. now rewrite Hfault.
    + intros Hclaim. now apply requireAdmin_trusts_claim with u.
  - intros Hfault. split; [|split].
    + intros Hrow. rewrite (Hrole _ Hrow Hfault).
      rewrite (bool_decide_eq_true_2 (Some (lit "admin") = Some (lit "admin"))) by reflexivity.
      now rewrite orb_true_r.
    + intros role Hrow. now apply Hrole.
    + intros Hnone.
      unfold RoleMiddleware.requireRole, try_catch, Async.bind, select_single, reject, ret.
      rewrite Huser. cbv zeta. rewrite Hfault.
      destruct (selected_roles (id u) (db w)) as [|role [|role' rest]]; try reflexivity.
      now destruct (Hnone role).
Qed.

End ChatEndpoints.

(** ** Endpoints behind [requireAuth] *)

Section GuardedEndpoints.

Import ChatService Middleware Controllers.

Variable R : Remote.

(** What [sendMessage] answers, and when it writes. *)
Lemma sendMessage_cases (message sessionId category : option jsstring) (req : Request)
    (w : World) :
  exists answer w',
    sendMessage R message sessionId category req w = (Return answer, w') /\
    (code answer = 200 \/ code answer = 400 \/ code answer = 500) /\
    (code answer = 400 -> w' = w) /\
    (code answer <> 200 ->
     db w' = db w /\ succeeded answer = false /\ payload answer = None) /\
    (code answer = 200 ->
     exists m s r,
       message = Some m /\ m <> [] /\ sessionId = Some s /\ s <> [] /\
       succeeded answer = true /\ payload answer = Some r /\
       chat_messages (db w') =
         chat_messages (db w) ++
           [ {| cm_user_id := caller req; cm_session_id := s; cm_user_message := m;
                cm_ai_response := reply r; cm_created_at := now R |} ]).
Proof.
  unfold sendMessage, try_catch, Async.bind, ret.
  destruct message as [[|c m]|]; cbn [falsy];
    try (eexists _, _; split; [reflexivity|]; cbn; repeat split; auto; discriminate).
  destruct sessionId as [[|c' s]|]; cbn [falsy];
    try (eexists _, _; split; [reflexivity|]; cbn; repeat split; auto; discriminate).
  change (default [] (Some (c' :: s))) with (c' :: s).
  change (default [] (Some (c :: m))) with (c :: m).
  destruct (processMessage_effect R (caller req) (c' :: s) (c :: m) category w)
    as [(e & Hthrow & Hdb) | (r & Hreturn & Hmessages & _)];
    destruct (processMessage R (caller req) (c' :: s) (c :: m) category w) as [result w'];
    cbn [fst snd] in *; subst result.
  - eexists _, _. split; [reflexivity|]. cbn. repeat split; auto; discriminate.
  - eexists _, _. split; [reflexivity|]. cbn. split; [auto|]. split; [discriminate|].
    split; [congruence|]. intros _. exists (c :: m), (c' :: s), r.
    repeat split; auto; discriminate.
Qed.

Lemma guarded_by_requireAuth {A} (handler : Request -> Async.t World (Reply A))
    (req : Request) (w : World) :
  (exists res,
      guarded [AuthMiddleware.requireAuth R] handler req w =
        (Return {| code := statusCode res; succeeded := false; text := Some (msg res);
                   payload := None |}, w) /\
      (statusCode res = 401 \/ statusCode res = 500)) \/
  (exists header token u,
      authorization req = Some header /\
      startsWith header (lit "Bearer ") = true /\
      split space header !! 1%nat = Some token /\
      token <> [] /\
      getUser R token = Return {| user := Some u; user_error := None |} /\
      guarded [AuthMiddleware.requireAuth R] handler req w =
        handler {| authorization := authorization req; req_user := Some u |} w).
Proof.
  destruct (requireAuth_cases R req w) as (out & Hrun & Hout).
  unfold guarded, Async.bind, ret. rewrite Hrun.
  destruct out as [res|req'].
  - left. destruct Hout as [Hflag Hcode]. exists res. rewrite Hflag.
    split; [reflexivity|]. tauto.
  - right. destruct Hout as (header & token & u & H1 & H2 & H3 & H4 & H5 & ->).
    exists header, token, u. repeat split; auto.
Qed.

(** X13. On [POST /chat/message] nothing is stored unless the answer is
    200. The route always answers, with 200, 400, 401 or 500; under 400 and
    401 the state is untouched (no prompt is sent either), under 500 the
    tables are as before. An answer 200 means that the bearer token was
    resolved to a user by the identity provider, that message and session id
    were non-empty, and that exactly this exchange, under that user's id,
    was appended to the messages. *)
Theorem post_message_writes_only_on_200 (message sessionId category : option jsstring)
    (req : Request) (w : World) :
  exists answer w',
    post_message R message sessionId category req w = (Return answer, w') /\
    (code answer = 200 \/ code answer = 400 \/ code answer = 401 \/ code answer = 500) /\
    (code answer = 400 \/ code answer = 401 -> w' = w) /\
    (code answer <> 200 -> db w' = db w /\ succeeded answer = false) /\
    (code answer = 200 ->
     exists header token u m s r,
       authorization req = Some header /\
       split space header !! 1%nat = Some token /\
       getUser R token = Return {| user := Some u; user_error := None |} /\
       message = Some m /\ m <> [] /\ sessionId = Some s /\ s <> [] /\
       payload answer = Some r /\
       chat_messages (db w') =
         chat_messages (db w) ++
           [ {| cm_user_id := or_else (Some (id u)) (lit "anonymous");
                cm_session_id := s; cm_user_message := m;
                cm_ai_response := reply r; cm_created_at := now R |} ]).
Proof.
  unfold post_message.
  destruct (guarded_by_requireAuth (sendMessage R message sessionId category) req w)
    as [(res & -> & Hcode) | (header & token & u & H1 & H2 & H3 & H4 & H5 & ->)].
  - eexists _, _. split; [reflexivity|]. cbn.
    split; [tauto|]. split; [reflexivity|]. split; [auto|].
    intros H200. destruct Hcode as [Hc|Hc]; rewrite Hc in H200; discriminate.
  - destruct (sendMessage_cases message sessionId category
                {| authorization := authorization req; req_user := Some u |} w)
      as (answer & w' & -> & Hcodes & H400 & Hother & H200).
    exists answer, w'. split; [reflexivity|]. split; [tauto|]. split; [|split].
    + intros [Hc|Hc]; [now apply H400|].
      destruct Hcodes as [Hc'|[Hc'|Hc']]; rewrite Hc' in Hc; discriminate.
    + intros Hc. now destruct (Hother Hc) as (? & ? & _).
    + intros Hc. destruct (H200 Hc) as (m & s & r & Hm & Hm' & Hs & Hs' & _ & Hr & Hrows).
      exists header, token, u, m, s, r. repeat split; auto.
Qed.

(** X14. [DELETE /chat/session/:sessionId] by an authenticated caller for a
    session that is not the caller's (or does not exist) answers 404, not
    403, and leaves the state as it is. *)
Theorem delete_session_of_another (sid : jsstring) (req : Request) (w : World)
    (header token : jsstring) (u : AuthUser) :
  authorization req = Some header ->
  startsWith header (lit "Bearer ") = true ->
  split space header !! 1%nat = Some token ->
  token <> [] ->
  getUser R token = Return {| user := Some u; user_error := None |} ->
  sid <> [] ->
  (forall s, s ∈ chat_sessions (db w) -> cs_id s = sid ->
             cs_user_id s <> or_else (Some (id u)) (lit "anonymous")) ->
  delete_session R (Some sid) req w =
    (Return {| code := 404; succeeded := false;
               text := Some (lit "Chat session not found or you do not have permission to delete it");
               payload := None |}, w).
Proof.
  intros Hheader Hbearer Htoken Hne Huser Hsid Hforeign.
  unfold delete_session, guarded, Async.bind.
  rewrite (requireAuth_passes R req w header token u Hheader Hbearer Htoken Hne Huser).
  unfold Controllers.deleteChatSession, try_catch, Async.bind, ret.
  destruct sid as [|c sid]; [congruence|]. cbn [falsy default from_option].
  rewrite deleteChatSession_requires_owner by exact Hforeign. reflexivity.
Qed.

(** X15. [DocumentController.deleteDocument] for a given id answers 200
    exactly when both deletions went through and 400 otherwise, with the
    service's message; the 500 branch is never taken, because the service
    catches every failure itself. Without an id it answers 400 and does
    nothing. *)
Theorem deleteDocument_endpoint (documentId : option jsstring) (w : World) :
  exists answer w',
    Controllers.deleteDocument R documentId w = (Return answer, w') /\
    (code answer = 200 \/ code answer = 400) /\
    (succeeded answer = true <-> code answer = 200) /\
    (code answer = 200 <->
     truthy documentId = true /\
     fault R delete_documents = None /\ fault R delete_document_metadata = None) /\
    (truthy documentId = false ->
     w' = w /\ text answer = Some (lit "Document ID is required")) /\
    (forall id_, documentId = Some id_ -> truthy documentId = true ->
     exists result,
       DocumentService.deleteDocument R id_ w = (Return result, w') /\
       succeeded answer = DocumentService.success result /\
       text answer = Some (DocumentService.message result)).
Proof.
  unfold Controllers.deleteDocument, DocumentService.deleteDocument,
    try_catch, Async.bind, mutate, throw, ret.
  destruct documentId as [[|c documentId]|]; cbn [falsy truthy negb];
    try (eexists _, _; split; [reflexivity|]; cbn;
         repeat split; auto; try discriminate; intros (? & _); discriminate).
  destruct (fault R delete_documents) as [e1|]; cbn.
  { eexists _, _. split; [reflexivity|]. cbn.
    repeat split; auto; try discriminate; try (intros (_ & ? & _); discriminate).
    intros id_ [= <-] _. eexists. repeat split; reflexivity. }
  destruct (fault R delete_document_metadata) as [e2|]; cbn.
  - eexists _, _. split; [reflexivity|]. cbn.
    repeat split; auto; try discriminate; try (intros (_ & _ & ?); discriminate).
    intros id_ [= <-] _. eexists. repeat split; reflexivity.
  - eexists _, _. split; [reflexivity|]. cbn.
    repeat split; auto; try discriminate.
    intros id_ [= <-] _. eexists. repeat split; reflexivity.
Qed.

End GuardedEndpoints.

(** ** The history endpoint reads back what was stored *)

Section HistoryRoundTrip.

Import ChatService Controllers.

Variable R : Remote.

Lemma split_from_no_sep (sep : N) (s cur : jsstring) :
  sep ∉ s -> split_from sep cur s = [rev cur ++ s].
Proof.
  revert cur. induction s as [|a s IH]; intros cur Hsep; simpl.
  - now rewrite app_nil_r.
  - apply not_elem_of_cons in Hsep as [Hne Hsep]. unfold code_unit_eqb.
    destruct (N.eqb_spec a sep) as [->|_]; [congruence|].
    rewrite IH by exact Hsep. simpl. now rewrite <- app_assoc.
Qed.

Lemma split_from_sep (sep : N) (s t cur : jsstring) :
  sep ∉ s ->
  split_from sep cur (s ++ sep :: t) = (rev cur ++ s) :: split_from sep [] t.
Proof.
  revert cur. induction s as [|a s IH]; intros cur Hsep; simpl.
  - unfold code_unit_eqb. rewrite N.eqb_refl. now rewrite app_nil_r.
  - apply not_elem_of_cons in Hsep as [Hne Hsep]. unfold code_unit_eqb.
    destruct (N.eqb_spec a sep) as [->|_]; [congruence|].
    rewrite IH by exact Hsep. simpl. now rewrite <- app_assoc.
Qed.

Lemma length_trimStart (s : jsstring) : (length (trimStart s) <= length s)%nat.
Proof.
  induction s as [|c s IH]; simpl; [lia|]. destruct (is_white_space c); simpl; lia.
Qed.

Lemma trimEnd_snoc (s : jsstring) (c : N) :
  is_white_space c = false -> trimEnd (s ++ [c]) = s ++ [c].
Proof.
  intros Hc. unfold trimEnd. rewrite rev_app_distr. simpl. rewrite Hc.
  change (c :: rev s) with ([c] ++ rev s). now rewrite rev_app_distr, rev_involutive.
Qed.

(** A non-empty text without white space at its end ends with a code unit
    that is none. *)
Lemma trimEnd_fixed (s : jsstring) :
  s <> [] -> trimEnd s = s -> exists s' c, s = s' ++ [c] /\ is_white_space c = false.
Proof.
  intros Hne Hfixed. destruct s as [|a s] using rev_ind; [congruence|]. clear IHs.
  exists s, a. split; [reflexivity|].
  destruct (is_white_space a) eqn:Ha; [|reflexivity]. exfalso.
  unfold trimEnd in Hfixed. rewrite rev_app_distr in Hfixed. simpl in Hfixed.
  rewrite Ha in Hfixed. apply (f_equal (@length N)) in Hfixed.
  rewrite length_rev, length_app in Hfixed. simpl in Hfixed.
  pose proof (length_trimStart (rev s)) as Hle. rewrite length_rev in Hle. lia.
Qed.

Lemma trim_prefixed (h : N) (p s : jsstring) :
  is_white_space h = false -> s <> [] -> trimEnd s = s ->
  trim ((h :: p) ++ s) = (h :: p) ++ s.
Proof.
  intros Hh Hne Hfixed. destruct (trimEnd_fixed s Hne Hfixed) as (s' & c & -> & Hc).
  unfold trim. simpl. rewrite Hh.
  change (h :: p ++ s' ++ [c]) with ((h :: p) ++ s' ++ [c]).
  rewrite app_assoc. now apply trimEnd_snoc.
Qed.

Lemma startsWith_app (p s : jsstring) : startsWith (p ++ s) p = true.
Proof.
  induction p as [|a p IH]; simpl; [now destruct s|].
  unfold code_unit_eqb. now rewrite N.eqb_refl.
Qed.

Lemma User_prefix : lit "User: " = [85; 115; 101; 114; 58; 32].
Proof. reflexivity. Qed.

Lemma AI_prefix : lit "AI: " = [65; 73; 58; 32].
Proof. reflexivity. Qed.

Lemma transcript_entry_lines (m : ChatMessage) :
  transcript_entry m =
  (lit "User: " ++ cm_user_message m) ++ line_feed :: (lit "AI: " ++ cm_ai_response m).
Proof. unfold transcript_entry. now rewrite <- app_assoc. Qed.

Lemma no_line_feed_User (s : jsstring) : line_feed ∉ s -> line_feed ∉ lit "User: " ++ s.
Proof.
  intros Hs Hin. apply elem_of_app in Hin as [Hin|Hin]; [|contradiction].
  rewrite User_prefix in Hin. repeat (apply elem_of_cons in Hin as [Hin|Hin]; [discriminate|]).
  now apply elem_of_nil in Hin.
Qed.

Lemma no_line_feed_AI (s : jsstring) : line_feed ∉ s -> line_feed ∉ lit "AI: " ++ s.
Proof.
  intros Hs Hin. apply elem_of_app in Hin as [Hin|Hin]; [|contradiction].
  rewrite AI_prefix in Hin. repeat (apply elem_of_cons in Hin as [Hin|Hin]; [discriminate|]).
  now apply elem_of_nil in Hin.
Qed.

(** The loop skips an empty line and the answer line of an empty answer. *)
Lemma parse_history_blank (rest : list jsstring) :
  parse_history ([] :: rest) = parse_history rest.
Proof. reflexivity. Qed.

Lemma parse_history_exchange (u a : jsstring) (rest : list jsstring) :
  u <> [] -> plain u -> plain a ->
  parse_history ((lit "User: " ++ u) :: (lit "AI: " ++ a) :: rest) =
  {| user_said := u; ai_said := a |} :: parse_history rest.
Proof.
  intros Hu [_ Hutrim] [_ Hatrim].
  assert (HU : trim (lit "User: " ++ u) = lit "User: " ++ u).
  { rewrite User_prefix. now apply trim_prefixed. }
  cbn [parse_history]. rewrite HU, startsWith_app.
  change 6%nat with (length (lit "User: ")). rewrite drop_app_length.
  destruct a as [|c a].
  - rewrite app_nil_r. change (trim (lit "AI: ")) with (lit "AI:"). 
    change (startsWith (lit "AI:") (lit "AI: ")) with false. cbn [truthy falsy negb].
    change (startsWith (lit "AI:") (lit "User: ")) with false. reflexivity.
  - assert (HA : trim (lit "AI: " ++ c :: a) = lit "AI: " ++ c :: a).
    { rewrite AI_prefix. apply trim_prefixed; [reflexivity | discriminate | exact Hatrim]. }
    rewrite HA, startsWith_app.
    change 4%nat with (length (lit "AI: ")). rewrite drop_app_length. reflexivity.
Qed.

Lemma split_entry (U A t : jsstring) :
  line_feed ∉ U -> line_feed ∉ A ->
  split_from line_feed [] ((U ++ line_feed :: A) ++ line_feed :: line_feed :: t) =
  U :: A :: [] :: split_from line_feed [] t.
Proof.
  intros HU HA. rewrite <- app_assoc.
  change ((line_feed :: A) ++ line_feed :: line_feed :: t)
    with (line_feed :: (A ++ line_feed :: line_feed :: t)).
  rewrite split_from_sep by exact HU. rewrite split_from_sep by exact HA.
  reflexivity.
Qed.

(** Splitting the transcript at line feeds and parsing it gives the rows back. *)
Lemma parse_transcript (rows : list ChatMessage) :
  rows <> [] ->
  (forall m, m ∈ rows ->
             cm_user_message m <> [] /\ plain (cm_user_message m) /\ plain (cm_ai_response m)) ->
  parse_history (split line_feed (join [line_feed; line_feed] (map transcript_entry rows))) =
  map exchange_of rows.
Proof.
  induction rows as [|m rows IH]; [congruence|]. intros _ Hplain.
  destruct (Hplain m) as (Hu & Hpu & Hpa); [now left|].
  assert (HU : line_feed ∉ lit "User: " ++ cm_user_message m)
    by (apply no_line_feed_User, Hpu).
  assert (HA : line_feed ∉ lit "AI: " ++ cm_ai_response m)
    by (apply no_line_feed_AI, Hpa).
  destruct rows as [|m2 rows].
  - cbn [map join]. rewrite transcript_entry_lines. unfold split.
    rewrite split_from_sep by exact HU. rewrite split_from_no_sep by exact HA.
    cbn [rev app]. now rewrite parse_history_exchange.
  - change (join [line_feed; line_feed] (map transcript_entry (m :: m2 :: rows)))
      with (transcript_entry m ++ line_feed :: line_feed ::
            join [line_feed; line_feed] (map transcript_entry (m2 :: rows))).
    rewrite transcript_entry_lines. unfold split.
    rewrite split_entry by assumption.
    rewrite parse_history_exchange by assumption. rewrite parse_history_blank.
    change (map exchange_of (m :: m2 :: rows))
      with (exchange_of m :: map exchange_of (m2 :: rows)).
    f_equal. apply IH; [discriminate|]. intros m' Hm'. apply Hplain. now right.
Qed.

(** X16. The history endpoint gives back what was stored. For a session
    whose stored user messages are non-empty and whose messages and answers
    hold no line feed and no white space at their end, [GET
    /chat/session/:id/history] answers 200 with exactly the stored
    exchanges, oldest first, and an empty list for a session without
    messages. When the history query fails the endpoint still answers 200,
    with an empty list. *)
Theorem getChatHistory_round_trip (sid : jsstring) (w : World) :
  sid <> [] ->
  (fault R select_chat_messages = None ->
   (forall m, m ∈ chat_messages (db w) -> cm_session_id m = sid ->
              cm_user_message m <> [] /\ plain (cm_user_message m) /\
              plain (cm_ai_response m)) ->
   getChatHistory R (Some sid) w =
     (Return {| code := 200; succeeded := true; text := None;
                payload := Some (map exchange_of
                  (order (fun a b => leb (cm_created_at a) (cm_created_at b))
                     (filter (fun m => cm_session_id m = sid) (chat_messages (db w))))) |},
      w)) /\
  (fault R select_chat_messages <> None ->
   getChatHistory R (Some sid) w =
     (Return {| code := 200; succeeded := true; text := None; payload := Some [] |}, w)).
Proof.
  intros Hsid. unfold getChatHistory, try_catch, Async.bind, ret.
  destruct sid as [|c sid]; [congruence|]. cbn [falsy default from_option].
  split.
  - intros Hfault Hplain.
    unfold loadChatHistory, Async.bind, select_rows, ret. rewrite Hfault. cbn [ok error data].
    set (rows := order _ _).
    assert (Hrows : forall m, m ∈ rows ->
              cm_user_message m <> [] /\ plain (cm_user_message m) /\ plain (cm_ai_response m)).
    { intros m Hm. unfold rows in Hm. apply elem_of_order in Hm.
      apply list_elem_of_filter in Hm as [Hid Hm]. now apply Hplain. }
    clearbody rows. destruct rows as [|m rest]; [reflexivity|].
    change (lines [blank; blank; blank]) with [line_feed; line_feed].
    rewrite parse_transcript by (discriminate || exact Hrows). reflexivity.
  - intros Hfault. rewrite loadChatHistory_on_error by exact Hfault. reflexivity.
Qed.

End HistoryRoundTrip.

(** ** Document statistics *)

Section Statistics.

Import DocumentStats.

Variable F : Faults.

(** Integers below [2 ^ 53] are doubles, and their sums below [2 ^ 53] are
    exact. *)
Lemma to_double_safe (n : N) : n < 2 ^ 53 -> to_double n = Finite n.
Proof.
  intros Hn. unfold to_double.
  assert (Hexcess : N.log2 n - 52 = 0).
  { destruct (N.eq_dec n 0) as [->|Hpos]; [reflexivity|].
    assert (N.log2 n < 53) by (apply N.log2_lt_pow2; [lia | exact Hn]). lia. }
  rewrite Hexcess. change (0 - 1) with 0. change (2 ^ 0) with 1.
  rewrite N.mod_1_r, N.shiftr_0_r, N.shiftl_0_r. change (0 <? 1) with true. cbv iota.
  assert (Hlimit : n < 2 ^ 1024).
  { apply (N.lt_trans _ (2 ^ 53)); [exact Hn|]. apply N.pow_lt_mono_r; lia. }
  apply N.ltb_lt in Hlimit. now rewrite Hlimit.
Qed.

Lemma add_safe (a b : N) : a + b < 2 ^ 53 -> add (Finite a) (Finite b) = Finite (a + b).
Proof. intros Hsum. now apply to_double_safe. Qed.

Lemma sum_safe (chunk_counts : list N) (acc : N) :
  acc + foldr N.add 0 chunk_counts < 2 ^ 53 ->
  foldl (fun sum chunk_count => add sum (chunk_count_number chunk_count)) (Finite acc)
    chunk_counts =
  Finite (acc + foldr N.add 0 chunk_counts).
Proof.
  revert acc. induction chunk_counts as [|c chunk_counts IH]; intros acc Hsum; cbn [foldl foldr] in *.
  - now rewrite N.add_0_r.
  - unfold chunk_count_number. rewrite (to_double_safe c) by lia.
    rewrite add_safe by lia. rewrite IH by lia. f_equal. lia.
Qed.

Lemma bump_other (counts : gmap jsstring tally) (key k : jsstring) :
  key <> k -> bump counts key !! k = counts !! k.
Proof.
  intros Hne. unfold bump.
  destruct (counts !! key) as [[n|]|]; repeat case_bool_decide;
    try reflexivity; now rewrite lookup_insert_ne.
Qed.

Lemma bump_same (counts : gmap jsstring tally) (k : jsstring) :
  k ∉ Object_prototype ->
  bump counts k !! k =
  match counts !! k with
  | Some (Counted x) => Some (Counted (add x (Finite 1)))
  | Some NotANumber => Some NotANumber
  | None => Some (Counted (Finite 1))
  end.
Proof.
  intros Hk. unfold bump. destruct (counts !! k) as [[n|]|] eqn:Hlookup.
  - apply lookup_insert_eq.
  - apply lookup_insert_eq.
  - rewrite bool_decide_eq_false_2 by exact Hk. rewrite lookup_insert_eq.
    now rewrite add_safe.
Qed.

(** How often [k] is counted among [values], after [seen] earlier times. *)
Lemma tally_of_values {A} (key : A -> jsstring) (values : list A)
    (counts : gmap jsstring tally) (k : jsstring) (seen : N) :
  k ∉ Object_prototype ->
  counts !! k = (if seen =? 0 then None else Some (Counted (Finite seen))) ->
  seen + N.of_nat (length (filter (fun v => key v = k) values)) < 2 ^ 53 ->
  foldl (fun counts v => bump counts (key v)) counts values !! k =
  let total := seen + N.of_nat (length (filter (fun v => key v = k) values)) in
  if total =? 0 then None else Some (Counted (Finite total)).
Proof.
  intros Hk. revert counts seen.
  induction values as [|v values IH]; intros counts seen Hseen Hbound.
  - simpl. now rewrite N.add_0_r.
  - cbn [foldl]. rewrite filter_cons in *.
    destruct (decide (key v = k)) as [->|Hne].
    + cbn [length] in *. set (n := length (filter _ values)) in *.
      rewrite (IH _ (seen + 1)).
      * cbv zeta. now replace (seen + 1 + N.of_nat n) with (seen + N.of_nat (S n)) by lia.
      * rewrite bump_same by exact Hk. rewrite Hseen.
        destruct (N.eqb_spec (seen + 1) 0) as [Hzero|_]; [lia|].
        destruct (N.eqb_spec seen 0) as [Hnone|_]; [now rewrite Hnone|].
        rewrite add_safe by lia. reflexivity.
      * lia.
    + rewrite (IH _ seen); [reflexivity | | exact Hbound].
      now rewrite bump_other by exact Hne.
Qed.

Lemma tally_of_inherited {A} (key : A -> jsstring) (values : list A)
    (counts : gmap jsstring tally) (k : jsstring) :
  k ∈ Object_prototype ->
  (forall x, counts !! k <> Some (Counted x)) ->
  forall x, foldl (fun counts v => bump counts (key v)) counts values !! k <> Some (Counted x).
Proof.
  intros Hk. revert counts. induction values as [|v values IH]; intros counts Hnot; [exact Hnot|].
  cbn [foldl]. apply IH. intros x.
  destruct (decide (key v = k)) as [->|Hne]; [|rewrite bump_other by exact Hne; apply Hnot].
  unfold bump. destruct (counts !! k) as [[m|]|] eqn:Hlookup.
  - now destruct (Hnot m).
  - rewrite lookup_insert_eq. discriminate.
  - rewrite bool_decide_eq_true_2 by exact Hk. case_bool_decide.
    + rewrite Hlookup. discriminate.
    + rewrite lookup_insert_eq. discriminate.
Qed.

Lemma select_column_ok {A} (column : DocumentMetadataRow -> A) (complaint : jsstring)
    (w : World) :
  select_column None column complaint w = (Return (map column (document_metadata (db w))), w).
Proof. reflexivity. Qed.

Lemma select_column_fails {A} (column : DocumentMetadataRow -> A) (complaint e : jsstring)
    (w : World) :
  select_column (Some e) column complaint w = (Throw (complaint ++ e), w).
Proof. reflexivity. Qed.

(** X17. [getDocumentStats] only reads. It throws for the first of its four
    selects that fails, "Failed to get document count: ", "Failed to get
    chunk counts: ", "Failed to get file types: " or "Failed to get
    categories: " with the cause. When none fails its numbers add up:
    [totalDocuments] is the number of rows; [totalChunks] is the sum of
    their chunk counts when that sum is below [2 ^ 53] (beyond, the sum is
    rounded as doubles are); and, with fewer than [2 ^ 53] rows, under every
    key that is not a property name of [Object.prototype] the file-type
    (category) object holds the number of rows with that file type
    (category), rows with an empty file type counting under "unknown" and
    rows with a null or empty category under "uncategorized"; a key with no
    row is absent. Under a name inherited from [Object.prototype] (a
    category "constructor", say) there is never a number. *)
Theorem getDocumentStats_counts (w : World) :
  let rows := document_metadata (db w) in
  (exists result, getDocumentStats F w = (result, w)) /\
  (forall e, docError F = Some e ->
             getDocumentStats F w = (Throw (lit "Failed to get document count: " ++ e), w)) /\
  (forall e, docError F = None -> chunkError F = Some e ->
             getDocumentStats F w = (Throw (lit "Failed to get chunk counts: " ++ e), w)) /\
  (forall e, docError F = None -> chunkError F = None -> typeError F = Some e ->
             getDocumentStats F w = (Throw (lit "Failed to get file types: " ++ e), w)) /\
  (forall e, docError F = None -> chunkError F = None -> typeError F = None ->
             categoryError F = Some e ->
             getDocumentStats F w = (Throw (lit "Failed to get categories: " ++ e), w)) /\
  (docError F = None -> chunkError F = None -> typeError F = None ->
   categoryError F = None ->
   exists stats,
     getDocumentStats F w = (Return stats, w) /\
     totalDocuments stats = length rows /\
     (foldr N.add 0 (map dm_chunk_count rows) < 2 ^ 53 ->
      totalChunks stats = Finite (foldr N.add 0 (map dm_chunk_count rows))) /\
     (N.of_nat (length rows) < 2 ^ 53 ->
      forall k,
        k ∉ Object_prototype ->
        let of_type := N.of_nat (length (filter
                         (fun doc => file_type_key (dm_file_type doc) = k) rows)) in
        let of_category := N.of_nat (length (filter
                             (fun doc => category_key (dm_category doc) = k) rows)) in
        fileTypes stats !! k =
          (if of_type =? 0 then None else Some (Counted (Finite of_type))) /\
        categories stats !! k =
          (if of_category =? 0 then None else Some (Counted (Finite of_category)))) /\
     (forall k x,
         k ∈ Object_prototype ->
         fileTypes stats !! k <> Some (Counted x) /\
         categories stats !! k <> Some (Counted x))).
Proof.
  intros rows. unfold getDocumentStats, Async.bind.
  destruct (docError F) as [e1|].
  { rewrite select_column_fails. repeat split; try discriminate; eauto.
    now intros e [= <-]. }
  rewrite select_column_ok.
  destruct (chunkError F) as [e2|].
  { rewrite select_column_fails. repeat split; try discriminate; eauto.
    now intros e _ [= <-]. }
  rewrite select_column_ok.
  destruct (typeError F) as [e3|].
  { rewrite select_column_fails. repeat split; try discriminate; eauto.
    now intros e _ _ [= <-]. }
  rewrite select_column_ok.
  destruct (categoryError F) as [e4|].
  { rewrite select_column_fails. repeat split; try discriminate; eauto.
    now intros e _ _ _ [= <-]. }
  rewrite select_column_ok. unfold ret. fold rows.
  split; [eauto|]. do 4 (split; [discriminate|]). intros _ _ _ _.
  eexists. split; [reflexivity|]. cbn [totalDocuments totalChunks fileTypes categories].
  split; [apply length_map|]. split; [|split].
  - intros Hsum. now rewrite sum_safe.
  - intros Hrows k Hk. cbv zeta.
    pose proof (length_filter (fun doc => file_type_key (dm_file_type doc) = k) rows).
    pose proof (length_filter (fun doc => category_key (dm_category doc) = k) rows).
    split.
    + rewrite (foldl_fmap _ _ _ dm_file_type).
      rewrite (tally_of_values (fun doc => file_type_key (dm_file_type doc)) rows ∅ k 0);
        [reflexivity | exact Hk | apply lookup_empty | lia].
    + rewrite (foldl_fmap _ _ _ dm_category).
      rewrite (tally_of_values (fun doc => category_key (dm_category doc)) rows ∅ k 0);
        [reflexivity | exact Hk | apply lookup_empty | lia].
  - intros k x Hk. split.
    + rewrite (foldl_fmap _ _ _ dm_file_type).
      apply (tally_of_inherited (fun doc => file_type_key (dm_file_type doc))); [exact Hk|].
      intros m. now rewrite lookup_empty.
    + rewrite (foldl_fmap _ _ _ dm_category).
      apply (tally_of_inherited (fun doc => category_key (dm_category doc))); [exact Hk|].
      intros m. now rewrite lookup_empty.
Qed.

End Statistics.

(** ** Accounts *)

Section AccountFacts.

Import Accounts Middleware.

Variable R : Remote.
Variable P : Platform.

Lemma upsert_user_selected (row : UserRow) (rows : list UserRow) :
  NoDup (map u_id rows) ->
  filter (fun r => u_id r = u_id row) (upsert_user row rows) = [row].
Proof.
  intros Hkeys. unfold upsert_user. case_bool_decide as Hexists.
  - induction rows as [|a rows IH]; [now apply Exists_nil in Hexists|].
    apply NoDup_cons in Hkeys as [Hfresh Hkeys]. cbn [map].
    destruct (decide (u_id a = u_id row)) as [Ha|Ha].
    + rewrite filter_cons, decide_True by reflexivity. f_equal.
      apply filter_none. intros r Hr Hid. apply list_elem_of_fmap in Hr as (r0 & -> & Hr0).
      apply Hfresh. rewrite Ha. apply list_elem_of_fmap. exists r0.
      destruct (decide (u_id r0 = u_id row)) as [Hr0id|Hr0id]; [auto|].
      now destruct Hr0id.
    + rewrite filter_cons, decide_False by exact Ha. apply IH; [exact Hkeys|].
      apply Exists_cons in Hexists as [Hhead|Htail]; [contradiction | exact Htail].
  - rewrite filter_app, filter_none.
    + rewrite filter_cons, decide_True by reflexivity. reflexivity.
    + intros r Hr Hid. apply Hexists, Exists_exists. eauto.
Qed.

Lemma upsert_user_others (row r : UserRow) (rows : list UserRow) :
  r ∈ upsert_user row rows -> u_id r <> u_id row -> r ∈ rows.
Proof.
  unfold upsert_user. case_bool_decide.
  - intros Hin Hne. apply list_elem_of_fmap in Hin as (r0 & -> & Hr0).
    destruct (decide (u_id r0 = u_id row)); [congruence | exact Hr0].
  - intros Hin Hne. apply elem_of_app in Hin as [Hin|Hin]; [exact Hin|].
    apply list_elem_of_singleton in Hin. congruence.
Qed.

(** X18. A successful [login] writes the role "user" over whatever role the
    caller had: when the provider signs the user in and the upsert goes
    through, the [users] table afterwards holds for that id the one row with
    the role "user" (and the other rows all stem from before). So a user who
    was an admin by the [users] table only, without the token claim, is
    answered 403 by [requireAdmin] after logging in. *)
Theorem login_resets_role (email_ password : jsstring) (w : World) (u : AuthUser)
    (granted : option jsstring) :
  email_ <> [] ->
  password <> [] ->
  signInWithPassword P email_ password =
    Return {| si_user := Some u; si_session := granted; si_error := None |} ->
  fault_upsert_users P = None ->
  NoDup (map u_id (users (db w))) ->
  exists w',
    login P email_ password w =
      (Return {| login_status := true; login_msg := lit "Login successful";
                 login_statusCode := None; login_session := granted;
                 login_user := Some u |}, w') /\
    selected_roles (id u) (db w') = [Some (lit "user")] /\
    (forall r, r ∈ users (db w') -> u_id r <> id u -> r ∈ users (db w)) /\
    (is_admin_claim u = false ->
     fault R select_users = None ->
     forall req, req_user req = Some u ->
                 AdminMiddleware.requireAdmin R req w' =
                   (Return (Responded {| statusCode := 403; status := false;
                                         msg := lit "Admin privileges required" |}), w')).
Proof.
  intros Hemail Hpassword Hsign Hupsert Hkeys.
  unfold login, createUserRecord, try_catch, Async.bind, await, mutate_at, ret.
  destruct email_ as [|c1 email_]; [congruence|].
  destruct password as [|c2 password]; [congruence|].
  cbn [falsy orb]. rewrite Hsign. cbn [si_error si_user si_session]. rewrite Hupsert.
  eexists. split; [reflexivity|]. cbn [db on_db users with_users].
  set (row := {| u_id := id u; u_email := or_else (email u) (c1 :: email_);
                 u_role := Some (lit "user") |}).
  assert (Hselected : forall d, users d = upsert_user row (users (db w)) ->
            selected_roles (id u) d = [Some (lit "user")]).
  { intros d Hd. unfold selected_roles. rewrite Hd.
    exact (f_equal (map u_role) (upsert_user_selected row (users (db w)) Hkeys)). }
  split; [now apply Hselected|]. split.
  - intros r Hr Hne. now apply (upsert_user_others row).
  - intros Hclaim Hfault req Hreq.
    rewrite (requireAdmin_falls_back R req _ u Hreq Hclaim), Hfault.
    rewrite Hselected by reflexivity. now rewrite bool_decide_eq_false_2.
Qed.

Lemma existsb_email (email_ : jsstring) (accounts : list AuthUser) :
  existsb (fun a => bool_decide (email a = Some email_)) accounts = true <->
  exists a, a ∈ accounts /\ email a = Some email_.
Proof.
  rewrite existsb_exists. split; intros (a & Hin & Ha); exists a.
  - apply bool_decide_eq_true in Ha. split; [now apply list_elem_of_In | exact Ha].
  - split; [now apply list_elem_of_In | now apply bool_decide_eq_true].
Qed.

(** X19. [requestPasswordReset] gives the same answer for an address that is
    not registered and for a registered one whose reset mail was accepted:
    the success "If your email is registered, ...", with the state
    untouched; for an unregistered address no reset is requested at all (the
    answer does not depend on what the provider would say). Only when the
    provider refuses the reset of a registered address does the answer
    differ: it is then the failure 400 with the provider's message. *)
Theorem requestPasswordReset_answers (email_ : jsstring) (w : World)
    (accounts : list AuthUser) :
  email_ <> [] ->
  listUsers R = Return {| data := Some accounts; error := None |} ->
  ((forall a, a ∈ accounts -> email a <> Some email_) ->
   requestPasswordReset R P email_ w = (Return neutral_answer, w)) /\
  ((exists a, a ∈ accounts /\ email a = Some email_) ->
   (forall sent, resetPasswordForEmail P email_ (reset_redirect P) =
                   Return {| data := sent; error := None |} ->
                 requestPasswordReset R P email_ w = (Return neutral_answer, w)) /\
   (forall sent e, resetPasswordForEmail P email_ (reset_redirect P) =
                     Return {| data := sent; error := Some e |} ->
                   requestPasswordReset R P email_ w =
                     (Return {| AuthService.status := false; AuthService.msg := e;
                                AuthService.statusCode := Some 400 |}, w))).
Proof.
  intros Hemail Hlist.
  unfold requestPasswordReset, try_catch, Async.bind, await, ret.
  destruct email_ as [|c email_]; [congruence|]. cbn [falsy]. rewrite Hlist.
  cbn [defined error data]. split.
  - intros Hnone.
    destruct (existsb _ accounts) eqn:Hexists; [|reflexivity].
    apply existsb_email in Hexists as (a & Hin & Ha). now destruct (Hnone a Hin).
  - intros Hsome. apply existsb_email in Hsome. rewrite Hsome. cbn [negb].
    split; [intros sent -> | intros sent e ->]; reflexivity.
Qed.

End AccountFacts.

(** ** More on resending and deleting *)

Section MoreFacts.

Variable R : Remote.

(** X20. [resendOtp] never throws and never touches the state. It succeeds
    exactly when the email is non-empty, the provider lists an account with
    it and accepts the resend; for an address the provider does not list it
    answers 404 whatever the resend would do; and every failure carries one
    of the codes 400, 404, 429 and 500. *)
Theorem resendOtp_outcomes (email_ : jsstring) (w : World) :
  exists result,
    AuthService.resendOtp R email_ w = (Return result, w) /\
    (AuthService.status result = true <->
     email_ <> [] /\
     exists accounts account sent,
       listUsers R = Return {| data := Some accounts; error := None |} /\
       find (fun a => bool_decide (email a = Some email_)) accounts = Some account /\
       resend R email_ = Return {| data := sent; error := None |}) /\
    (AuthService.status result = false ->
     AuthService.statusCode result = Some 400 \/ AuthService.statusCode result = Some 404 \/
     AuthService.statusCode result = Some 429 \/ AuthService.statusCode result = Some 500) /\
    (email_ <> [] ->
     forall accounts,
       listUsers R = Return {| data := Some accounts; error := None |} ->
       find (fun a => bool_decide (email a = Some email_)) accounts = None ->
       result = {| AuthService.status := false;
                   AuthService.msg := lit "No user found with this email address";
                   AuthService.statusCode := Some 404 |}).
Proof.
  unfold AuthService.resendOtp, try_catch, Async.bind, await, ret.
  destruct email_ as [|c email_]; cbn [falsy].
  { eexists. split; [reflexivity|]. cbn. split; [|split; [auto|congruence]].
    split; [discriminate | intros [? _]; congruence]. }
  destruct (listUsers R) as [[listed [e|]]|e] eqn:Hlist; cbn [defined error data].
  - eexists. split; [reflexivity|]. cbn. split; [|split; [auto|discriminate]].
    split; [discriminate | intros (_ & ? & ? & ? & [=] & _)].
  - destruct listed as [accounts|]; cbn [mbind option_bind].
    + destruct (find _ accounts) as [account|] eqn:Hfind.
      * destruct (resend R (c :: email_)) as [[sent [e|]]|e] eqn:Hresend; cbn [error].
        -- destruct (includes e (lit "already confirmed"));
             [|destruct (includes e (lit "rate limit"))];
             (eexists; split; [reflexivity|]); cbn;
             (split; [|split; [auto 6|intros _ ? [= <-] ?; congruence]]);
             (split; [discriminate | intros (_ & ? & ? & ? & _ & _ & [=])]).
        -- eexists. split; [reflexivity|]. cbn.
           split; [|split; [discriminate|intros _ ? [= <-] ?; congruence]].
           split; [|reflexivity]. intros _. split; [discriminate|].
           exists accounts, account, sent. auto.
        -- eexists. split; [reflexivity|]. cbn.
           split; [|split; [auto 6|intros _ ? [= <-] ?; congruence]].
           split; [discriminate | intros (_ & ? & ? & ? & _ & _ & [=])].
      * eexists. split; [reflexivity|]. cbn. split; [|split; [auto|reflexivity]].
        split; [discriminate | intros (_ & ? & ? & ? & [= <-] & ? & _); congruence].
    + eexists. split; [reflexivity|]. cbn. split; [|split; [auto|discriminate]].
      split; [discriminate | intros (_ & ? & ? & ? & [=] & _)].
  - eexists. split; [reflexivity|]. cbn. split; [|split; [auto 6|discriminate]].
    split; [discriminate | intros (_ & ? & ? & ? & [=] & _)].
Qed.

(** X21. Deleting a document is idempotent: after a [deleteDocument] whose
    two deletions went through, a second call for the same id succeeds again
    and leaves every table as the first call left it. *)
Theorem deleteDocument_twice (documentId : jsstring) (w : World) :
  fault R delete_documents = None ->
  fault R delete_document_metadata = None ->
  exists w',
    DocumentService.deleteDocument R documentId w =
      (Return {| DocumentService.success := true;
                 DocumentService.message := lit "Document successfully deleted" |}, w') /\
    exists w'',
      DocumentService.deleteDocument R documentId w' =
        (Return {| DocumentService.success := true;
                   DocumentService.message := lit "Document successfully deleted" |}, w'') /\
      db w'' = db w' /\ invoked w'' = invoked w'.
Proof.
  intros Hchunks Hmeta.
  unfold DocumentService.deleteDocument, try_catch, Async.bind, mutate, ret.
  rewrite Hchunks, Hmeta. cbn [error ok].
  eexists. split; [reflexivity|]. eexists. split; [reflexivity|].
  split; [|reflexivity]. cbn. unfold with_document_metadata, with_documents. cbn.
  now rewrite !filter_idem.
Qed.

End MoreFacts.

(** ** Concrete instances of the further properties *)

Section MoreInstances.

Import Samples MoreSamples.

Lemma deleteChatSession_removes_witness :
  exists w',
    ChatService.deleteChatSession (calm []) alice session1 talked = (Return true, w') /\
    ChatService.deleteChatSession (calm []) alice session1 w' = (Return false, w').
Proof.
  destruct (deleteChatSession_removes (calm []) alice session1 talked
              eq_refl eq_refl eq_refl eq_refl)
    as (w' & Hrun & _ & _ & _ & _ & _ & _ & _ & Hagain).
  exists w'. split; [exact Hrun | exact Hagain].
Defined.

Lemma deleteChatSession_half_done_witness :
  exists w',
    ChatService.deleteChatSession (failing delete_chat_sessions (lit "locked") [])
      alice session1 talked = (Throw (lit "Failed to delete session: locked"), w') /\
    chat_messages (db w') = [] /\
    chat_sessions (db w') = [alice_session].
Proof.
  destruct (deleteChatSession_half_done
              (failing delete_chat_sessions (lit "locked") []) alice session1
              (lit "locked") talked eq_refl eq_refl eq_refl eq_refl)
    as (w' & Hrun & Hmessages & Hsessions & _).
  exists w'. split; [exact Hrun|]. split; [exact Hmessages | exact Hsessions].
Defined.

Lemma updateChatTitle_stores_witness :
  exists w',
    ChatService.updateChatTitle (calm []) alice session1
      (lit "A title that is well over fifty code units long, kept as it is") talked =
      (Return true, w') /\
    chat_messages (db w') = [first_exchange].
Proof.
  destruct (updateChatTitle_stores (calm []) alice session1
              (lit "A title that is well over fifty code units long, kept as it is") talked
              eq_refl eq_refl) as [Hok _].
  destruct (Hok eq_refl) as (w' & Hrun & _ & _ & Hmessages).
  exists w'. split; [exact Hrun | exact Hmessages].
Defined.

Lemma processMessage_sources_witness :
  exists r found,
    (ChatService.processMessage (retrieving (lit "I am here.")) alice session1
       (lit "hello") None talked).1 = Return r /\
    ChatService.sources r = Some found /\
    length found = 1%nat.
Proof.
  set (r := {| ChatService.reply := lit "I am here.";
               ChatService.sources :=
                 Some [ {| ChatService.title := lit "Untitled";
                           ChatService.content := lit "Keep a regular bedtime...." |} ] |}).
  destruct (processMessage_sources (retrieving (lit "I am here.")) alice session1
              (lit "hello") None talked r eq_refl)
    as (query & documents & Hsearch & Hsources & Hbounds).
  eexists r, _. split; [reflexivity|]. split; [reflexivity|].
  destruct (Hbounds _ eq_refl) as (_ & Hlength & _). rewrite Hlength.
  injection Hsearch as <-. reflexivity.
Defined.

Lemma saved_exchange_is_loaded_witness :
  exists w',
    ChatService.saveChatMessage (calm []) alice session1 (lit "hello") (lit "I am here.") talked =
      (Return tt, w') /\
    ChatService.loadChatHistory (calm []) session1 w' =
      (Return (lit "User: I cannot sleep" ++ [10] ++ lit "AI: Tell me more." ++ [10; 10] ++
               lit "User: hello" ++ [10] ++ lit "AI: I am here."), w').
Proof.
  assert (Hclock : forall m, m ∈ chat_messages (db talked) -> cm_session_id m = session1 ->
                             leb (now (calm [])) (cm_created_at m) = false).
  { intros m Hm _. apply list_elem_of_singleton in Hm. subst m. reflexivity. }
  destruct (saved_exchange_is_loaded (calm []) alice session1 (lit "hello") (lit "I am here.")
              talked eq_refl eq_refl Hclock) as (before & w' & Hbefore & Hsave & Hload).
  exists w'. split; [exact Hsave|]. rewrite Hload.
  injection Hbefore as <-. reflexivity.
Defined.

Lemma getUserChatSessions_own_sorted_witness :
  exists listed,
    ChatSessions.getUserChatSessions (calm []) alice talked = (Return listed, talked) /\
    length listed = 1%nat.
Proof.
  destruct (getUserChatSessions_own_sorted (calm []) alice talked) as [Hok _].
  destruct (Hok eq_refl) as (listed & Hrun & Hperm & _).
  exists listed. split; [exact Hrun|]. now rewrite Hperm.
Defined.

Lemma startTopicChat_outcome_witness :
  exists result w',
    ChatSessions.startTopicChat (calm (lit "Sleep matters.")) quiet alice (lit "sleep") talked =
      (result, w') /\
    length (chat_sessions (db w')) = 2%nat.
Proof.
  assert (Htopic : lit "sleep" <> []) by discriminate.
  destruct (startTopicChat_outcome (calm (lit "Sleep matters.")) quiet alice (lit "sleep")
              talked eq_refl Htopic) as (result & w' & Hrun & _ & Hlength & _).
  exists result, w'. split; [exact Hrun | exact Hlength].
Defined.

Lemma requireRole_decides_witness :
  RoleMiddleware.requireRole (signed_in bob (ok tt)) (lit "user") bob_attached bob_is_user =
    (Return (Middleware.Next bob_attached), bob_is_user).
Proof.
  destruct (requireRole_decides (signed_in bob (ok tt)) (lit "user") bob_attached bob_is_user
              bob eq_refl) as [_ Hlookup].
  destruct (Hlookup eq_refl) as (_ & Hrole & _).
  exact (Hrole (Some (lit "user")) eq_refl).
Defined.

Lemma delete_session_of_another_witness :
  Controllers.delete_session (signed_in bob (ok tt)) (Some session1) bob_request talked =
    (Return {| Controllers.code := 404; Controllers.succeeded := false;
               Controllers.text :=
                 Some (lit "Chat session not found or you do not have permission to delete it");
               Controllers.payload := None |}, talked).
Proof.
  assert (Htoken : lit "token-of-bob" <> []) by discriminate.
  assert (Hsid : session1 <> []) by discriminate.
  apply (delete_session_of_another (signed_in bob (ok tt)) session1 bob_request talked
           (lit "Bearer token-of-bob") (lit "token-of-bob") bob
           eq_refl eq_refl eq_refl Htoken eq_refl Hsid).
  intros s Hs _. apply list_elem_of_singleton in Hs. subst s. discriminate.
Defined.

Lemma plain_text (s : jsstring) :
  bool_decide (ChatService.line_feed ∉ s) = true -> trimEnd s = s -> Controllers.plain s.
Proof. intros Hfeed Htrim. split; [now apply bool_decide_eq_true in Hfeed | exact Htrim]. Qed.

Lemma getChatHistory_round_trip_witness :
  Controllers.getChatHistory (calm []) (Some session1) talked =
    (Return {| Controllers.code := 200; Controllers.succeeded := true;
               Controllers.text := None;
               Controllers.payload :=
                 Some [ {| Controllers.user_said := lit "I cannot sleep";
                           Controllers.ai_said := lit "Tell me more." |} ] |}, talked).
Proof.
  assert (Hsid : session1 <> []) by discriminate.
  destruct (getChatHistory_round_trip (calm []) session1 talked Hsid) as [Hok _].
  apply Hok; [reflexivity|].
  intros m Hm _. apply list_elem_of_singleton in Hm. subst m.
  split; [discriminate|]. split; apply plain_text; reflexivity.
Defined.

Lemma getDocumentStats_counts_witness :
  exists stats,
    DocumentStats.getDocumentStats no_faults library = (Return stats, library) /\
    DocumentStats.totalDocuments stats = 5%nat /\
    DocumentStats.totalChunks stats = DocumentStats.Finite 15 /\
    DocumentStats.categories stats !! lit "sleep" =
      Some (DocumentStats.Counted (DocumentStats.Finite 2)) /\
    DocumentStats.categories stats !! lit "uncategorized" =
      Some (DocumentStats.Counted (DocumentStats.Finite 2)).
Proof.
  destruct (getDocumentStats_counts no_faults library) as (_ & _ & _ & _ & _ & Hok).
  destruct (Hok eq_refl eq_refl eq_refl eq_refl) as (stats & Hrun & Htotal & Hsum & Hkeys & _).
  exists stats. split; [exact Hrun|]. split; [exact Htotal|].
  assert (Hown : forall k, bool_decide (k ∉ DocumentStats.Object_prototype) = true ->
                           k ∉ DocumentStats.Object_prototype)
    by (intros k Hk; now apply bool_decide_eq_true in Hk).
  assert (Hfew : N.of_nat (length (document_metadata (db library))) < 2 ^ 53) by reflexivity.
  split; [apply Hsum; reflexivity|]. split.
  - destruct (Hkeys Hfew (lit "sleep") (Hown (lit "sleep") eq_refl)) as [_ ->]. reflexivity.
  - destruct (Hkeys Hfew (lit "uncategorized") (Hown (lit "uncategorized") eq_refl)) as [_ ->].
    reflexivity.
Defined.

(** Beyond [2 ^ 53] the chunk counts are added as doubles: for the counts
    [2 ^ 53], 1 and 1 the total is [2 ^ 53]. *)
Example getDocumentStats_rounds :
  exists stats,
    DocumentStats.getDocumentStats no_faults huge_library = (Return stats, huge_library) /\
    DocumentStats.totalChunks stats = DocumentStats.Finite 9007199254740992.
Proof. eexists. split; vm_compute; reflexivity. Qed.

Lemma login_resets_role_witness :
  exists w',
    (Accounts.login quiet (lit "bob@example.org") (lit "secret") bob_is_admin).2 = w' /\
    Middleware.selected_roles (lit "bob") (db bob_is_admin) = [Some (lit "admin")] /\
    Middleware.selected_roles (lit "bob") (db w') = [Some (lit "user")].
Proof.
  assert (Hemail : lit "bob@example.org" <> []) by discriminate.
  assert (Hpassword : lit "secret" <> []) by discriminate.
  assert (Hkeys : NoDup (map u_id (users (db bob_is_admin)))).
  { apply NoDup_singleton. }
  destruct (login_resets_role (calm []) quiet (lit "bob@example.org") (lit "secret")
              bob_is_admin bob (Some (lit "token-of-bob")) Hemail Hpassword eq_refl eq_refl Hkeys)
    as (w' & Hrun & Hrole & _).
  exists w'. split; [now rewrite Hrun|]. split; [reflexivity | exact Hrole].
Defined.

Lemma requestPasswordReset_answers_witness :
  Accounts.requestPasswordReset (signed_in bob (ok tt)) quiet (lit "carol@example.org")
    nobody_registered = (Return Accounts.neutral_answer, nobody_registered) /\
  Accounts.requestPasswordReset (signed_in bob (ok tt)) quiet (lit "bob@example.org")
    nobody_registered = (Return Accounts.neutral_answer, nobody_registered).
Proof.
  assert (Hcarol : lit "carol@example.org" <> []) by discriminate.
  assert (Hbob : lit "bob@example.org" <> []) by discriminate.
  split.
  - destruct (requestPasswordReset_answers (signed_in bob (ok tt)) quiet
                (lit "carol@example.org") nobody_registered [bob] Hcarol eq_refl) as [Hunknown _].
    apply Hunknown. intros a Ha. apply list_elem_of_singleton in Ha. subst a. discriminate.
  - destruct (requestPasswordReset_answers (signed_in bob (ok tt)) quiet
                (lit "bob@example.org") nobody_registered [bob] Hbob eq_refl) as [_ Hknown].
    destruct Hknown as [Hsent _].
    + exists bob. split; [now left | reflexivity].
    + exact (Hsent (Some tt) eq_refl).
Defined.

Lemma deleteDocument_twice_witness :
  exists w',
    (DocumentService.deleteDocument (calm []) (lit "Naps") library).2 = w' /\
    (DocumentService.deleteDocument (calm []) (lit "Naps") w').2 = w'.
Proof.
  destruct (deleteDocument_twice (calm []) (lit "Naps") library eq_refl eq_refl)
    as (w' & Hfirst & w'' & Hsecond & Hdb & Hlog).
  exists w'. split; [now rewrite Hfirst|]. rewrite Hsecond. simpl.
  destruct w'' as [d l], w' as [d' l']. simpl in *. congruence.
Defined.

End MoreInstances.
